(** * Causal multi-head self-attention and the transformer block

    A shallow embedding of the forward-pass code of the repository
    (chapters 3 to 5 of "Build a Large Language Model from Scratch"):

    - [SelfAttention_v1], [SelfAttention_v2]      (chapter 3.4.2 / 3.5.2)
    - the masking script of chapter 3.5.2         ([mask], [masked], [attn_weights])
    - [MultiHeadAttention], [LayerNorm], [GELU], [FeedForward],
      [TransformerBlock]                          (chapter 4.5)
    - [GPTModel], [generate_text_simple]          (chapter 5.1.2)

    Conventions of the embedding.

    - A torch tensor is a record of its [shape] (a list of sizes, as
      [x.shape]) and its elements as nested lists in row-major order.
    - Floating-point numbers are idealised as real numbers ([R]); the only
      non-finite value the code creates on purpose, [-torch.inf], is kept
      as a separate constructor of [ext].  Rounding, overflow and NaN are
      outside this model.
    - Python integers that the code takes from its caller are [Z]; sizes
      read back from a tensor are [nat].
    - Python exceptions are the constructors of [exn]; a call that can
      raise returns a [result].  The model and the decoding loop of
      chapter 5.1.2 can also raise [IndexError]: their exceptions are the
      constructors of [py_exn] and their calls return an [outcome].
    - The global random generator that [nn.Dropout] draws from is an
      explicit state, threaded through every [forward]. *)

From Stdlib Require Import List ZArith Bool Arith Lia.
From Stdlib Require Import Reals Lra QArith Qreals.
Import ListNotations.

Set Implicit Arguments.

(* ================================================================== *)
(** * Exceptions and results *)

Inductive exn : Type :=
| AssertionError
| ZeroDivisionError
| ValueError
| RuntimeError.

Inductive result (A : Type) : Type :=
| Ok (a : A)
| Raise (e : exn).

Arguments Ok {A} a.
Arguments Raise {A} e.

Definition rbind {A B} (r : result A) (k : A -> result B) : result B :=
  match r with
  | Ok a => k a
  | Raise e => Raise e
  end.

Declare Scope result_scope.
Delimit Scope result_scope with result.
Notation "x <- e ;; k" := (rbind e (fun x => k))
  (at level 61, e at next level, right associativity) : result_scope.

(** The random source of [nn.Dropout]: draw number [i] of the generator
    tells whether the element is kept.  Taking [k] draws moves the
    generator [k] positions on. *)
Definition rng : Type := nat -> bool.

Definition advance (k : nat) (g : rng) : rng := fun i => g (k + i)%nat.

(** A [forward] runs against the generator and either returns or raises;
    in both cases the generator it leaves behind is part of the outcome. *)
Definition M (A : Type) : Type := rng -> result A * rng.

Definition ret {A} (a : A) : M A := fun g => (Ok a, g).

Definition bind {A B} (m : M A) (k : A -> M B) : M B :=
  fun g => match m g with
           | (Ok a, g') => k a g'
           | (Raise e, g') => (Raise e, g')
           end.

Definition lift {A} (r : result A) : M A := fun g => (r, g).

Declare Scope fwd_scope.
Delimit Scope fwd_scope with fwd.
Notation "x <~ e ;; k" := (bind e (fun x => k))
  (at level 61, e at next level, right associativity) : fwd_scope.

(* ================================================================== *)
(** * Row-major nested lists *)

Section Nested.
Context {A : Type}.

(** [chunks k m l]: the first [m] consecutive blocks of [k] elements. *)
Fixpoint chunks (k m : nat) (l : list A) : list (list A) :=
  match m with
  | O => []
  | S m' => firstn k l :: chunks k m' (skipn k l)
  end.

(** Pairwise [cons]; stops at the shorter list. *)
Fixpoint zip_cons (r : list A) (cs : list (list A)) : list (list A) :=
  match r, cs with
  | a :: r', c :: cs' => (a :: c) :: zip_cons r' cs'
  | _, _ => []
  end.

(** Transposition of a matrix with [ncols] columns, given by rows. *)
Fixpoint transposeLL (ncols : nat) (m : list (list A)) : list (list A) :=
  match m with
  | [] => repeat [] ncols
  | r :: m' => zip_cons r (transposeLL ncols m')
  end.

Definition flatten3 (d : list (list (list A))) : list A :=
  concat (map (@concat A) d).

Definition flatten4 (d : list (list (list (list A)))) : list A :=
  concat (map flatten3 d).

Definition group3 (d0 d1 d2 : nat) (l : list A) : list (list (list A)) :=
  map (chunks d2 d1) (chunks (d1 * d2) d0 l).

End Nested.

Definition group4 {A} (d0 d1 d2 d3 : nat) (l : list A)
  : list (list (list (list A))) :=
  map (group3 d1 d2 d3) (chunks (d1 * (d2 * d3)) d0 l).

(** [tabulate n f = [f 0; ...; f (n-1)]]. *)
Definition tabulate {A} (n : nat) (f : nat -> A) : list A := map f (seq 0 n).

(** Shapes of nested data. *)
Definition rect1 {A} (d : nat) (v : list A) : Prop := length v = d.
Definition rect2 {A} (n d : nat) (m : list (list A)) : Prop :=
  length m = n /\ Forall (rect1 d) m.
Definition rect3 {A} (b n d : nat) (t : list (list (list A))) : Prop :=
  length t = b /\ Forall (rect2 n d) t.
Definition rect4 {A} (b h n d : nat) (t : list (list (list (list A)))) : Prop :=
  length t = b /\ Forall (rect3 h n d) t.

(* ================================================================== *)
(** * Tensors *)

Record tensor (D : Type) : Type := Tensor { shape : list nat; data : D }.

Arguments Tensor {D} shape data.

Definition data1 (A : Type) := list A.
Definition data2 (A : Type) := list (list A).
Definition data3 (A : Type) := list (list (list A)).
Definition data4 (A : Type) := list (list (list (list A))).

Definition numel (s : list nat) : nat := fold_right Nat.mul 1%nat s.

(** A rank-3 tensor whose elements fill its declared shape. *)
Definition has_shape3 {A} (b n d : nat) (t : tensor (data3 A)) : Prop :=
  shape t = [b; n; d] /\ rect3 b n d (data t).

Definition has_shape4 {A} (b h n d : nat) (t : tensor (data4 A)) : Prop :=
  shape t = [b; h; n; d] /\ rect4 b h n d (data t).

Definition has_shape2 {A} (n d : nat) (t : tensor (data2 A)) : Prop :=
  shape t = [n; d] /\ rect2 n d (data t).

Open Scope Z_scope.

(** [t.view(d0, d1, d2, d3)] of a contiguous rank-3 tensor: the row-major
    element sequence is kept and regrouped.  torch refuses a shape with a
    different number of elements, and a negative size; a single -1 would
    ask torch to infer that size, but the one caller that can pass a
    negative size passes [num_heads] and [head_dim = d_out // num_heads]
    together, where a negative [num_heads] makes [head_dim] negative too,
    or zero with no elements to infer from, and torch raises. *)
Definition view4 {A} (t : tensor (data3 A)) (d0 d1 d2 d3 : Z)
  : result (tensor (data4 A)) :=
  if (d0 <? 0) || (d1 <? 0) || (d2 <? 0) || (d3 <? 0) then Raise RuntimeError
  else
    let s := [Z.to_nat d0; Z.to_nat d1; Z.to_nat d2; Z.to_nat d3] in
    if (numel (shape t) =? numel s)%nat
    then Ok (Tensor s (group4 (Z.to_nat d0) (Z.to_nat d1) (Z.to_nat d2)
                              (Z.to_nat d3) (flatten3 (data t))))
    else Raise RuntimeError.

(** [t.contiguous().view(d0, d1, d2)] of a rank-4 tensor. *)
Definition view3 {A} (t : tensor (data4 A)) (d0 d1 d2 : Z)
  : result (tensor (data3 A)) :=
  if (d0 <? 0) || (d1 <? 0) || (d2 <? 0) then Raise RuntimeError
  else
    let s := [Z.to_nat d0; Z.to_nat d1; Z.to_nat d2] in
    if (numel (shape t) =? numel s)%nat
    then Ok (Tensor s (group3 (Z.to_nat d0) (Z.to_nat d1) (Z.to_nat d2)
                              (flatten4 (data t))))
    else Raise RuntimeError.

(** [t.transpose(1, 2)] of a rank-4 tensor. *)
Definition transpose_1_2 {A} (t : tensor (data4 A)) : result (tensor (data4 A)) :=
  match shape t with
  | [d0; d1; d2; d3] =>
      Ok (Tensor [d0; d2; d1; d3] (map (transposeLL d2) (data t)))
  | _ => Raise RuntimeError
  end.

(** [t.transpose(2, 3)] of a rank-4 tensor. *)
Definition transpose_2_3 {A} (t : tensor (data4 A)) : result (tensor (data4 A)) :=
  match shape t with
  | [d0; d1; d2; d3] =>
      Ok (Tensor [d0; d1; d3; d2] (map (map (transposeLL d3)) (data t)))
  | _ => Raise RuntimeError
  end.

(** [t.T] of a matrix. *)
Definition T2 {A} (t : tensor (data2 A)) : result (tensor (data2 A)) :=
  match shape t with
  | [d0; d1] => Ok (Tensor [d1; d0] (transposeLL d1 (data t)))
  | _ => Raise RuntimeError
  end.

Close Scope Z_scope.

(* ================================================================== *)
(** * Arithmetic on rows *)

Open Scope R_scope.

Definition Rsum (l : list R) : R := fold_right Rplus 0 l.

(** Elementwise combination of two lists of the same length. *)
Definition map2 {A B C} (f : A -> B -> C) (u : list A) (v : list B) : list C :=
  map (fun p => f (fst p) (snd p)) (combine u v).

(** [mapi f [a0; a1; ...] = [f 0 a0; f 1 a1; ...]]. *)
Definition mapi {A B} (f : nat -> A -> B) (l : list A) : list B :=
  map2 f (seq 0 (length l)) l.

Definition dot (u v : list R) : R := Rsum (map2 Rmult u v).

(** Matrix product of rows [a] with a matrix [b] of [ncols] columns:
    entry (i, j) is the dot product of row i of [a] and column j of [b]. *)
Definition mm (ncols : nat) (a b : data2 R) : data2 R :=
  map (fun r => map (dot r) (transposeLL ncols b)) a.

(** A score after masking: a finite number or [-torch.inf]. *)
Inductive ext : Type :=
| Fin (x : R)
| NegInf.

(** Division of a score by [keys.shape[-1]**0.5].  The divisor is a square
    root, hence never negative, and minus infinity divided by a positive
    number is minus infinity. *)
Definition ediv (s : R) (e : ext) : ext :=
  match e with
  | Fin x => Fin (x / s)
  | NegInf => NegInf
  end.

Definition emax (a b : ext) : ext :=
  match a, b with
  | NegInf, _ => b
  | _, NegInf => a
  | Fin x, Fin y => Fin (Rmax x y)
  end.

Definition row_max (l : list ext) : ext := fold_right emax NegInf l.

(** [exp (e - c)], with [exp (-inf) = 0]. *)
Definition eexp (c : R) (e : ext) : R :=
  match e with
  | Fin x => exp (x - c)
  | NegInf => 0
  end.

(** [torch.softmax] along one row: the row maximum is subtracted before
    exponentiation.  A non-empty row without any finite score is NaN in
    torch; no such row is produced by the causal mask, which keeps the
    diagonal. *)
Definition softmax_row (l : list ext) : list R :=
  let c := match row_max l with Fin m => m | NegInf => 0 end in
  let e := map (eexp c) l in
  map (fun a => a / Rsum e) e.

Definition mean_row (d : nat) (row : list R) : R := Rsum row / INR d.

(** [var(unbiased=False)]: the population variance. *)
Definition var_row (d : nat) (row : list R) : R :=
  Rsum (map (fun v => (v - mean_row d row) * (v - mean_row d row)) row) / INR d.

(** Broadcasting of one axis: sizes are compatible when they are equal or
    one of them is 1. *)
Definition bdim (m n : nat) : result nat :=
  if (m =? n)%nat then Ok m
  else if (m =? 1)%nat then Ok n
  else if (n =? 1)%nat then Ok m
  else Raise RuntimeError.

(** One axis expanded to size [n]: a single element is repeated. *)
Definition stretch {A} (n : nat) (l : list A) : list A :=
  if (length l =? n)%nat then l
  else match l with
       | [a] => repeat a n
       | _ => l
       end.

(** Elementwise operation on two rows under broadcasting. *)
Definition bzip {A B C} (f : A -> B -> C) (u : list A) (v : list B) : list C :=
  map2 f (stretch (length v) u) (stretch (length u) v).

(* ================================================================== *)
(** * torch operations on tensors *)

Definition tmap2 {A B} (f : A -> B) (t : tensor (data2 A)) : tensor (data2 B) :=
  Tensor (shape t) (map (map f) (data t)).

Definition tmap4 {A B} (f : A -> B) (t : tensor (data4 A)) : tensor (data4 B) :=
  Tensor (shape t) (map (map (map (map f))) (data t)).

(** [a @ b] for two matrices. *)
Definition matmul2 (a b : tensor (data2 R)) : result (tensor (data2 R)) :=
  match shape a, shape b with
  | [n; k], [k'; m] =>
      if (k =? k')%nat then Ok (Tensor [n; m] (mm m (data a) (data b)))
      else Raise RuntimeError
  | _, _ => Raise RuntimeError
  end.

(** [a @ b] for two rank-4 tensors: a matrix product for every batch
    element and head.  Both operands of every product in
    [MultiHeadAttention.forward] come from the same input, so their leading
    sizes agree; leading sizes that differ are refused here. *)
Definition matmul4 (a b : tensor (data4 R)) : result (tensor (data4 R)) :=
  match shape a, shape b with
  | [d0; d1; n; k], [d0'; d1'; k'; m] =>
      if ((d0 =? d0') && (d1 =? d1') && (k =? k'))%nat
      then Ok (Tensor [d0; d1; n; m] (map2 (map2 (mm m)) (data a) (data b)))
      else Raise RuntimeError
  | _, _ => Raise RuntimeError
  end.

(** [torch.ones(r, c)] with every entry [one]; a negative size raises.  The
    mask buffer holds only 0.0 and 1.0 and is kept as a tensor of integers. *)
Definition torch_ones {A} (one : A) (r c : Z) : result (tensor (data2 A)) :=
  if ((r <? 0) || (c <? 0))%Z then Raise RuntimeError
  else Ok (Tensor [Z.to_nat r; Z.to_nat c]
                  (repeat (repeat one (Z.to_nat c)) (Z.to_nat r))).

(** [torch.triu(t, diagonal)]: entries (i, j) with [j - i >= diagonal] are
    kept, the others are zero. *)
Definition triu (diagonal : Z) (t : tensor (data2 Z)) : tensor (data2 Z) :=
  Tensor (shape t)
         (mapi (fun i row =>
                  mapi (fun j v =>
                          if (diagonal <=? Z.of_nat j - Z.of_nat i)%Z
                          then v else 0%Z) row)
               (data t)).

(** [t.bool()]: non-zero is [True]. *)
Definition to_bool (t : tensor (data2 Z)) : tensor (data2 bool) :=
  tmap2 (fun v => negb (v =? 0)%Z) t.

(** [t[:r, :c]]. *)
Definition slice2 {A} (r c : nat) (t : tensor (data2 A)) : tensor (data2 A) :=
  match shape t with
  | [d0; d1] => Tensor [Nat.min r d0; Nat.min c d1]
                       (map (firstn c) (firstn r (data t)))
  | _ => t
  end.

(** A matrix expanded to [n] rows and [m] columns. *)
Definition expand2 {A} (n m : nat) (t : tensor (data2 A)) : result (data2 A) :=
  match shape t with
  | [r; c] =>
      if (((r =? n) || (r =? 1)) && ((c =? m) || (c =? 1)))%nat
      then Ok (stretch n (map (stretch m) (data t)))
      else Raise RuntimeError
  | _ => Raise RuntimeError
  end.

Definition fill (b : bool) (x : R) : ext := if b then NegInf else Fin x.

Open Scope result_scope.

(** [scores.masked_fill_(mask, -torch.inf)], in place: the mask has to
    expand to the last two sizes of [scores]. *)
Definition masked_fill_ (scores : tensor (data4 R)) (mask : tensor (data2 bool))
  : result (tensor (data4 ext)) :=
  match shape scores with
  | [d0; d1; n; m] =>
      mk <- expand2 n m mask ;;
      Ok (Tensor [d0; d1; n; m] (map (map (map2 (map2 fill) mk)) (data scores)))
  | _ => Raise RuntimeError
  end.

(** [scores.masked_fill(mask, -torch.inf)] for two matrices, out of place:
    both are expanded to their common shape. *)
Definition masked_fill (scores : tensor (data2 R)) (mask : tensor (data2 bool))
  : result (tensor (data2 ext)) :=
  match shape scores, shape mask with
  | [n; m], [n'; m'] =>
      r <- bdim n n' ;;
      c <- bdim m m' ;;
      sc <- expand2 r c scores ;;
      mk <- expand2 r c mask ;;
      Ok (Tensor [r; c] (map2 (map2 fill) mk sc))
  | _, _ => Raise RuntimeError
  end.

(** [torch.softmax(t, dim=-1)]. *)
Definition softmax2 (t : tensor (data2 ext)) : tensor (data2 R) :=
  Tensor (shape t) (map softmax_row (data t)).

Definition softmax4 (t : tensor (data4 ext)) : tensor (data4 R) :=
  Tensor (shape t) (map (map (map softmax_row)) (data t)).

(** [x + y] for two rank-3 tensors, under broadcasting. *)
Definition add3 (x y : tensor (data3 R)) : result (tensor (data3 R)) :=
  match shape x, shape y with
  | [a0; a1; a2], [b0; b1; b2] =>
      c0 <- bdim a0 b0 ;;
      c1 <- bdim a1 b1 ;;
      c2 <- bdim a2 b2 ;;
      Ok (Tensor [c0; c1; c2] (bzip (bzip (bzip Rplus)) (data x) (data y)))
  | _, _ => Raise RuntimeError
  end.

(* ================================================================== *)
(** * nn.Linear *)

(** [weight] has shape [[out_features, in_features]]. *)
Record Linear : Type := {
  in_features : nat;
  out_features : nat;
  weight : data2 R;
  bias : option (list R)
}.

(** The values an initialiser draws for a layer. *)
Record init_source : Type := {
  w_init : nat -> nat -> R;
  b_init : nat -> R
}.

(** [nn.Linear(in_f, out_f, bias=bias)]; creating a tensor with a negative
    size raises. *)
Definition nn_Linear (src : init_source) (in_f out_f : Z) (with_bias : bool)
  : result Linear :=
  if ((in_f <? 0) || (out_f <? 0))%Z then Raise RuntimeError
  else Ok {| in_features := Z.to_nat in_f;
             out_features := Z.to_nat out_f;
             weight := tabulate (Z.to_nat out_f)
                         (fun i => tabulate (Z.to_nat in_f) (w_init src i));
             bias := if with_bias
                     then Some (tabulate (Z.to_nat out_f) (b_init src))
                     else None |}.

(** [F.linear] on the rows of a matrix: [rows @ weight.T (+ bias)]. *)
Definition linear_rows (l : Linear) (rows : data2 R) : data2 R :=
  let y := mm (out_features l) rows (transposeLL (in_features l) (weight l)) in
  match bias l with
  | Some b => map (fun r => map2 Rplus r b) y
  | None => y
  end.

Definition Linear_forward2 (l : Linear) (x : tensor (data2 R))
  : result (tensor (data2 R)) :=
  match shape x with
  | [n; d] =>
      if (d =? in_features l)%nat
      then Ok (Tensor [n; out_features l] (linear_rows l (data x)))
      else Raise RuntimeError
  | _ => Raise RuntimeError
  end.

Definition Linear_forward (l : Linear) (x : tensor (data3 R))
  : result (tensor (data3 R)) :=
  match shape x with
  | [b; n; d] =>
      if (d =? in_features l)%nat
      then Ok (Tensor [b; n; out_features l] (map (linear_rows l) (data x)))
      else Raise RuntimeError
  | _ => Raise RuntimeError
  end.

(* ================================================================== *)
(** * nn.Dropout *)

Record Dropout : Type := {
  p : Q;
  drop_training : bool
}.

(** [nn.Dropout(p)]: a probability outside [[0, 1]] is a [ValueError].  A
    new module is in training mode. *)
Definition nn_Dropout (prob : Q) : result Dropout :=
  if (Qle_bool 0 prob && Qle_bool prob 1)%bool
  then Ok {| p := prob; drop_training := true |}
  else Raise ValueError.

(** Inverted dropout on the row-major element sequence.  Nothing is drawn
    when the module is in evaluation mode, when [p = 0] or when there is no
    element; [p = 1] multiplies by zero; otherwise one draw per element
    decides whether it is kept and scaled by [1 / (1 - p)]. *)
Definition dropout_flat (d : Dropout) (xs : list R) : M (list R) :=
  fun g =>
    if (negb (drop_training d) || Qeq_bool (p d) 0 || (length xs =? 0)%nat)%bool
    then (Ok xs, g)
    else if Qeq_bool (p d) 1
    then (Ok (map (fun x => x * 0) xs), g)
    else (Ok (map2 (fun (keep : bool) x =>
                      x * (if keep then / (1 - Q2R (p d)) else 0))
                   (tabulate (length xs) g) xs),
          advance (length xs) g).

Open Scope fwd_scope.

(** [nn.Dropout.forward] on the two ranks it is called with: the draws
    follow the row-major order of the elements and the shape is kept. *)
Definition Dropout_forward3 (d : Dropout) (x : tensor (data3 R))
  : M (tensor (data3 R)) :=
  match shape x with
  | [d0; d1; d2] =>
      ys <~ dropout_flat d (flatten3 (data x)) ;;
      ret (Tensor (shape x) (group3 d0 d1 d2 ys))
  | _ => lift (Raise RuntimeError)
  end.

Definition Dropout_forward4 (d : Dropout) (x : tensor (data4 R))
  : M (tensor (data4 R)) :=
  match shape x with
  | [d0; d1; d2; d3] =>
      ys <~ dropout_flat d (flatten4 (data x)) ;;
      ret (Tensor (shape x) (group4 d0 d1 d2 d3 ys))
  | _ => lift (Raise RuntimeError)
  end.

(* ================================================================== *)
(** * Python integer arithmetic *)

Open Scope result_scope.

(** [a % b]: the result has the sign of the divisor. *)
Definition py_mod (a b : Z) : result Z :=
  if (b =? 0)%Z then Raise ZeroDivisionError else Ok (a mod b)%Z.

(** [a // b]: floor division. *)
Definition py_floordiv (a b : Z) : result Z :=
  if (b =? 0)%Z then Raise ZeroDivisionError else Ok (a / b)%Z.

(* ================================================================== *)
(** * SelfAttention_v1 (chapter 3.4.2) *)

Module SelfAttention_v1.

(** The three parameters have shape [[d_in, d_out]]. *)
Record t : Type := {
  W_query : tensor (data2 R);
  W_key : tensor (data2 R);
  W_value : tensor (data2 R)
}.

(** [torch.rand(r, c)], with the drawn values given by [f]. *)
Definition torch_rand (f : nat -> nat -> R) (r c : Z) : result (tensor (data2 R)) :=
  if ((r <? 0) || (c <? 0))%Z then Raise RuntimeError
  else Ok (Tensor [Z.to_nat r; Z.to_nat c]
                  (tabulate (Z.to_nat r) (fun i => tabulate (Z.to_nat c) (f i)))).

Definition init (fq fk fv : nat -> nat -> R) (d_in d_out : Z) : result t :=
  wq <- torch_rand fq d_in d_out ;;
  wk <- torch_rand fk d_in d_out ;;
  wv <- torch_rand fv d_in d_out ;;
  Ok {| W_query := wq; W_key := wk; W_value := wv |}.

Definition forward (self : t) (x : tensor (data2 R)) : result (tensor (data2 R)) :=
  queries <- matmul2 x (W_query self) ;;
  keys <- matmul2 x (W_key self) ;;
  values <- matmul2 x (W_value self) ;;
  keysT <- T2 keys ;;
  attn_scores <- matmul2 queries keysT ;;
  let attn_weights :=
    softmax2 (tmap2 (ediv (sqrt (INR (last (shape keys) 0%nat))))
                    (tmap2 Fin attn_scores)) in
  matmul2 attn_weights values.

End SelfAttention_v1.

(* ================================================================== *)
(** * SelfAttention_v2 and the masking script (chapter 3.5.2) *)

Module SelfAttention_v2.

Record t : Type := {
  W_query : Linear;
  W_key : Linear;
  W_value : Linear
}.

Definition init (sq sk sv : init_source) (d_in d_out : Z) (qkv_bias : bool)
  : result t :=
  wq <- nn_Linear sq d_in d_out qkv_bias ;;
  wk <- nn_Linear sk d_in d_out qkv_bias ;;
  wv <- nn_Linear sv d_in d_out qkv_bias ;;
  Ok {| W_query := wq; W_key := wk; W_value := wv |}.

Definition forward (self : t) (x : tensor (data2 R)) : result (tensor (data2 R)) :=
  queries <- Linear_forward2 (W_query self) x ;;
  keys <- Linear_forward2 (W_key self) x ;;
  values <- Linear_forward2 (W_value self) x ;;
  keysT <- T2 keys ;;
  attn_scores <- matmul2 queries keysT ;;
  let attn_weights :=
    softmax2 (tmap2 (ediv (sqrt (INR (last (shape keys) 0%nat))))
                    (tmap2 Fin attn_scores)) in
  matmul2 attn_weights values.

End SelfAttention_v2.

(** Lines 46-60 of the script, as functions of the two tensors they read:
    [attn_scores] and [keys]. *)
Module MaskingScript.

(** [context_length = attn_scores.shape[0]] *)
Definition context_length (attn_scores : tensor (data2 R)) : Z :=
  Z.of_nat (nth 0 (shape attn_scores) 0%nat).

Definition mask (attn_scores : tensor (data2 R)) : result (tensor (data2 Z)) :=
  ones <- torch_ones 1%Z (context_length attn_scores) (context_length attn_scores) ;;
  Ok (triu 1 ones).

Definition masked (attn_scores : tensor (data2 R)) : result (tensor (data2 ext)) :=
  m <- mask attn_scores ;;
  masked_fill attn_scores (to_bool m).

Definition attn_weights (attn_scores keys : tensor (data2 R))
  : result (tensor (data2 R)) :=
  m <- masked attn_scores ;;
  Ok (softmax2 (tmap2 (ediv (sqrt (INR (last (shape keys) 0%nat)))) m)).

End MaskingScript.

(* ================================================================== *)
(** * Notions used in the statements *)

(** A layer whose parameters have the shapes [nn.Linear(d_in, d_out)]
    gives them. *)
Record Linear_wf (d_in d_out : nat) (l : Linear) : Prop := {
  wf_in_features : in_features l = d_in;
  wf_out_features : out_features l = d_out;
  wf_weight : rect2 d_out d_in (weight l);
  wf_bias : match bias l with
            | Some b => length b = d_out
            | None => True
            end
}.

(** Dropout passes its input through: evaluation mode, or [p = 0]. *)
Definition dropout_disabled (d : Dropout) : bool :=
  negb (drop_training d) || Qeq_bool (p d) 0.

(** The causal mask on [n] positions: entry (i, j) is set when [j > i]. *)
Definition causal_mask (n : nat) : data2 bool :=
  tabulate n (fun i => tabulate n (fun j => (i <? j)%nat)).

(** The head matrices of one batch element: [h] matrices of [d] columns. *)
Definition heads {A} (h d : nat) (m : data2 A) : data3 A :=
  transposeLL h (map (chunks d h) m).

(** The attention weights of one head with query rows [q] and key rows
    [k], [n] tokens each: scores, mask, scale, softmax. *)
Definition head_weights (s : R) (n d : nat) (q k : data2 R) : data2 R :=
  map softmax_row
      (map (map (ediv s))
           (map2 (map2 fill) (causal_mask n) (mm n q (transposeLL d k)))).

(** Row [i] of an attention-weight matrix is a probability distribution
    that gives weight 0 to every position after [i]. *)
Definition causal_row_stochastic (w : data2 R) : Prop :=
  forall i row, nth_error w i = Some row ->
    Rsum row = 1 /\
    Forall (fun v => 0 <= v <= 1) row /\
    forall j, (i < j)%nat -> nth j row 0 = 0.

(* ================================================================== *)
(** * The two orders of masking and scaling *)

(** Lines 80-82 of [MultiHeadAttention.forward]: mask, then divide by the
    scale, then softmax. *)
Definition mask_then_scale (s : R) (scores : tensor (data4 R))
           (mask : tensor (data2 bool)) : result (tensor (data4 R)) :=
  (m <- masked_fill_ scores mask ;;
   Ok (softmax4 (tmap4 (ediv s) m)))%result.

(** The order of the specification: divide by the scale, then mask, then
    softmax. *)
Definition scale_then_mask (s : R) (scores : tensor (data4 R))
           (mask : tensor (data2 bool)) : result (tensor (data4 R)) :=
  (m <- masked_fill_ (tmap4 (fun v => v / s) scores) mask ;;
   Ok (softmax4 m))%result.

(* ================================================================== *)
(** * MultiHeadAttention (chapter 4.5) *)

Module MultiHeadAttention.

Record t : Type := {
  d_out : Z;
  num_heads : Z;
  head_dim : Z;
  W_query : Linear;
  W_key : Linear;
  W_value : Linear;
  out_proj : Linear;
  dropout : Dropout;
  mask : tensor (data2 Z)
}.

(** Initial values of the four projections. *)
Record source : Type := {
  src_query : init_source;
  src_key : init_source;
  src_value : init_source;
  src_out : init_source
}.

Definition init (src : source) (d_in d_out context_length : Z) (dropout : Q)
           (num_heads : Z) (qkv_bias : bool) : result t :=
  r <- py_mod d_out num_heads ;;
  if negb (r =? 0)%Z then Raise AssertionError
  else
    hd <- py_floordiv d_out num_heads ;;
    wq <- nn_Linear (src_query src) d_in d_out qkv_bias ;;
    wk <- nn_Linear (src_key src) d_in d_out qkv_bias ;;
    wv <- nn_Linear (src_value src) d_in d_out qkv_bias ;;
    op <- nn_Linear (src_out src) d_out d_out true ;;
    dr <- nn_Dropout dropout ;;
    ones <- torch_ones 1%Z context_length context_length ;;
    Ok {| d_out := d_out;
          num_heads := num_heads;
          head_dim := hd;
          W_query := wq;
          W_key := wk;
          W_value := wv;
          out_proj := op;
          dropout := dr;
          mask := triu 1 ones |}.

(** Lines 64-71 of [forward]: unroll the last axis into
    [(num_heads, head_dim)] and bring the head axis before the tokens. *)
Definition split_heads {A} (self : t) (b num_tokens : nat)
           (u : tensor (data3 A)) : result (tensor (data4 A)) :=
  v <- view4 u (Z.of_nat b) (Z.of_nat num_tokens) (num_heads self) (head_dim self) ;;
  transpose_1_2 v.

(** Lines 86-89: transpose back and flatten the heads into [d_out]. *)
Definition merge_heads {A} (self : t) (b num_tokens : nat)
           (u : tensor (data4 A)) : result (tensor (data3 A)) :=
  c <- transpose_1_2 u ;;
  view3 c (Z.of_nat b) (Z.of_nat num_tokens) (d_out self).

(** Lines 55-82: the value tensor and the attention weights after masking
    and softmax, before dropout.  The source views the three projections
    and then transposes the three views; here each projection is viewed
    and transposed in turn, which is the same computation since the
    transposition of a view cannot fail. *)
Definition attn_weights (self : t) (x : tensor (data3 R))
  : result (tensor (data4 R) * tensor (data4 R)) :=
  match shape x with
  | [b; num_tokens; d_in] =>
      queries <- Linear_forward (W_query self) x ;;
      keys <- Linear_forward (W_key self) x ;;
      values <- Linear_forward (W_value self) x ;;
      queries <- split_heads self b num_tokens queries ;;
      keys <- split_heads self b num_tokens keys ;;
      values <- split_heads self b num_tokens values ;;
      keysT <- transpose_2_3 keys ;;
      attn_scores <- matmul4 queries keysT ;;
      let mask_bool := slice2 num_tokens num_tokens (to_bool (mask self)) in
      attn_weights <- mask_then_scale (sqrt (INR (last (shape keys) 0%nat)))
                                      attn_scores mask_bool ;;
      Ok (values, attn_weights)
  | _ => Raise ValueError
  end.

Open Scope fwd_scope.

Definition forward (self : t) (x : tensor (data3 R)) : M (tensor (data3 R)) :=
  match shape x with
  | [b; num_tokens; d_in] =>
      va <~ lift (attn_weights self x) ;;
      let values := fst va in
      attn_weights <~ Dropout_forward4 (dropout self) (snd va) ;;
      av <~ lift (matmul4 attn_weights values) ;;
      context_vec <~ lift (merge_heads self b num_tokens av) ;;
      context_vec <~ lift (Linear_forward (out_proj self) context_vec) ;;
      ret context_vec
  | _ => lift (Raise ValueError)
  end.

Close Scope fwd_scope.

(** The invariant that [init] establishes for a module of positive sizes
    and that training and [eval()] keep: the sizes are consistent, the
    parameters have their shapes and the mask is the one registered for
    [context_length = ctx]. *)
Record wf (d_in ctx : nat) (self : t) : Prop := {
  wf_num_heads : (0 < num_heads self)%Z;
  wf_head_dim : (0 < head_dim self)%Z;
  wf_d_out : d_out self = (num_heads self * head_dim self)%Z;
  wf_W_query : Linear_wf d_in (Z.to_nat (d_out self)) (W_query self);
  wf_W_key : Linear_wf d_in (Z.to_nat (d_out self)) (W_key self);
  wf_W_value : Linear_wf d_in (Z.to_nat (d_out self)) (W_value self);
  wf_out_proj : Linear_wf (Z.to_nat (d_out self)) (Z.to_nat (d_out self))
                          (out_proj self);
  wf_mask : mask self = triu 1 (Tensor [ctx; ctx] (repeat (repeat 1%Z ctx) ctx))
}.

(** What lines 55-82 compute for one batch element [X] of [n] tokens: the
    value matrices and the attention-weight matrices of the heads. *)
Definition batch_values (self : t) (X : data2 R) : data3 R :=
  heads (Z.to_nat (num_heads self)) (Z.to_nat (head_dim self))
        (linear_rows (W_value self) X).

Definition batch_weights (self : t) (n : nat) (X : data2 R) : data3 R :=
  let h := Z.to_nat (num_heads self) in
  let d := Z.to_nat (head_dim self) in
  map2 (head_weights (sqrt (INR d)) n d)
       (heads h d (linear_rows (W_query self) X))
       (heads h d (linear_rows (W_key self) X)).

(** What [forward] computes for one batch element when dropout is
    disabled. *)
Definition batch_forward (self : t) (n : nat) (X : data2 R) : data2 R :=
  let d := Z.to_nat (head_dim self) in
  linear_rows (out_proj self)
    (map (@concat R)
         (transposeLL n (map2 (mm d) (batch_weights self n X)
                              (batch_values self X)))).

End MultiHeadAttention.

(* ================================================================== *)
(** * LayerNorm, GELU, FeedForward (chapter 4.5) *)

Module LayerNorm.

Record t : Type := {
  eps : R;
  scale : list R;
  shift : list R
}.

Definition init (emb_dim : Z) : result t :=
  if (emb_dim <? 0)%Z then Raise RuntimeError
  else Ok {| eps := 1 / 100000;
             scale := repeat 1 (Z.to_nat emb_dim);
             shift := repeat 0 (Z.to_nat emb_dim) |}.

(** [norm_x] of one row of [d] features. *)
Definition norm_x (e : R) (d : nat) (row : list R) : list R :=
  map (fun v => (v - mean_row d row) / sqrt (var_row d row + e)) row.

Definition forward (self : t) (x : tensor (data3 R)) : result (tensor (data3 R)) :=
  match shape x with
  | [b; n; d] =>
      d1 <- bdim (length (scale self)) d ;;
      d2 <- bdim d1 (length (shift self)) ;;
      Ok (Tensor [b; n; d2]
                 (map (map (fun row =>
                              bzip Rplus
                                   (bzip Rmult (scale self)
                                         (norm_x (eps self) d row))
                                   (shift self)))
                      (data x)))
  | _ => Raise RuntimeError
  end.

(** The parameters have [emb_dim] entries. *)
Record wf (emb : nat) (self : t) : Prop := {
  wf_scale : length (scale self) = emb;
  wf_shift : length (shift self) = emb
}.

End LayerNorm.

Module GELU.

Definition forward (x : R) : R :=
  1 / 2 * x * (1 + tanh (sqrt (2 / PI) * (x + 44715 / 1000000 * (x * x * x)))).

End GELU.

(** The [cfg] dictionary; [vocab_size] and [n_layers] are not read by the
    block. *)
Record config : Type := {
  emb_dim : Z;
  context_length : Z;
  n_heads : Z;
  drop_rate : Q;
  qkv_bias : bool
}.

Module FeedForward.

(** [layers = nn.Sequential(Linear, GELU, Linear)]. *)
Record t : Type := {
  layers_0 : Linear;
  layers_2 : Linear
}.

Record source : Type := {
  src_layers_0 : init_source;
  src_layers_2 : init_source
}.

Definition init (src : source) (cfg : config) : result t :=
  l0 <- nn_Linear (src_layers_0 src) (emb_dim cfg) (4 * emb_dim cfg) true ;;
  l2 <- nn_Linear (src_layers_2 src) (4 * emb_dim cfg) (emb_dim cfg) true ;;
  Ok {| layers_0 := l0; layers_2 := l2 |}.

(** [forward] also prints a line to standard output, which is left out. *)
Definition forward (self : t) (x : tensor (data3 R)) : result (tensor (data3 R)) :=
  h <- Linear_forward (layers_0 self) x ;;
  let g := Tensor (shape h) (map (map (map GELU.forward)) (data h)) in
  Linear_forward (layers_2 self) g.

Record wf (emb : nat) (self : t) : Prop := {
  wf_layers_0 : Linear_wf emb (4 * emb) (layers_0 self);
  wf_layers_2 : Linear_wf (4 * emb) emb (layers_2 self)
}.

End FeedForward.

(* ================================================================== *)
(** * TransformerBlock (chapter 4.5) *)

Module TransformerBlock.

Record t : Type := {
  att : MultiHeadAttention.t;
  ff : FeedForward.t;
  norm1 : LayerNorm.t;
  norm2 : LayerNorm.t;
  drop_shortcut : Dropout
}.

Record source : Type := {
  src_att : MultiHeadAttention.source;
  src_ff : FeedForward.source
}.

Definition init (src : source) (cfg : config) : result t :=
  a <- MultiHeadAttention.init (src_att src) (emb_dim cfg) (emb_dim cfg)
         (context_length cfg) (drop_rate cfg) (n_heads cfg) (qkv_bias cfg) ;;
  f <- FeedForward.init (src_ff src) cfg ;;
  n1 <- LayerNorm.init (emb_dim cfg) ;;
  n2 <- LayerNorm.init (emb_dim cfg) ;;
  ds <- nn_Dropout (drop_rate cfg) ;;
  Ok {| att := a; ff := f; norm1 := n1; norm2 := n2; drop_shortcut := ds |}.

Open Scope fwd_scope.

Definition forward (self : t) (x : tensor (data3 R)) : M (tensor (data3 R)) :=
  let shortcut := x in
  x <~ lift (LayerNorm.forward (norm1 self) x) ;;
  x <~ MultiHeadAttention.forward (att self) x ;;
  x <~ Dropout_forward3 (drop_shortcut self) x ;;
  x <~ lift (add3 x shortcut) ;;
  let shortcut := x in
  x <~ lift (LayerNorm.forward (norm2 self) x) ;;
  x <~ lift (FeedForward.forward (ff self) x) ;;
  x <~ Dropout_forward3 (drop_shortcut self) x ;;
  x <~ lift (add3 x shortcut) ;;
  ret x.

Close Scope fwd_scope.

(** The invariant of a block of width [emb] built for [ctx] positions. *)
Record wf (emb ctx : nat) (self : t) : Prop := {
  wf_att : MultiHeadAttention.wf emb ctx (att self);
  wf_att_d_out : Z.to_nat (MultiHeadAttention.d_out (att self)) = emb;
  wf_ff : FeedForward.wf emb (ff self);
  wf_norm1 : LayerNorm.wf emb (norm1 self);
  wf_norm2 : LayerNorm.wf emb (norm2 self)
}.

End TransformerBlock.

(* ================================================================== *)
(** * Further notions used in the statements *)

(** The order of masked scores: minus infinity is below every score. *)
Definition ext_le (a b : ext) : Prop :=
  match a, b with
  | NegInf, _ => True
  | Fin _, NegInf => False
  | Fin x, Fin y => x <= y
  end.

Definition is_neginf (e : ext) : bool :=
  match e with
  | NegInf => true
  | Fin _ => false
  end.

(** [l] is a bias-free [nn.Linear] whose weight is the transpose of the
    [[d_in, d_out]] parameter [W]. *)
Definition is_transpose_of (d_in d_out : nat) (l : Linear)
           (W : tensor (data2 R)) : Prop :=
  in_features l = d_in /\ out_features l = d_out /\ bias l = None /\
  has_shape2 d_in d_out W /\
  T2 W = Ok (Tensor [d_out; d_in] (weight l)).

(* ================================================================== *)
(** * Concrete modules and inputs *)

Module Examples.

(** Every weight is 1 and every bias is 0. *)
Definition src : init_source := {| w_init := fun _ _ => 1; b_init := fun _ => 0 |}.

Definition mha_src : MultiHeadAttention.source :=
  {| MultiHeadAttention.src_query := src;
     MultiHeadAttention.src_key := src;
     MultiHeadAttention.src_value := src;
     MultiHeadAttention.src_out := src |}.

Definition ones_linear (d_in d_out : nat) (b : option (list R)) : Linear :=
  {| in_features := d_in;
     out_features := d_out;
     weight := repeat (repeat 1 d_in) d_out;
     bias := b |}.

(** [MultiHeadAttention(d_in=1, d_out=2, context_length=2, dropout=0.0,
    num_heads=2)]. *)
Definition mha : MultiHeadAttention.t :=
  {| MultiHeadAttention.d_out := 2;
     MultiHeadAttention.num_heads := 2;
     MultiHeadAttention.head_dim := 1;
     MultiHeadAttention.W_query := ones_linear 1 2 None;
     MultiHeadAttention.W_key := ones_linear 1 2 None;
     MultiHeadAttention.W_value := ones_linear 1 2 None;
     MultiHeadAttention.out_proj := ones_linear 2 2 (Some [0; 0]);
     MultiHeadAttention.dropout := {| p := 0; drop_training := true |};
     MultiHeadAttention.mask :=
       triu 1 (Tensor [2; 2]%nat [[1; 1]; [1; 1]]%Z) |}.

(** [MultiHeadAttention(d_in=1, d_out=1, context_length=1, dropout=0.0,
    num_heads=1)]. *)
Definition mha_ctx1 : MultiHeadAttention.t :=
  {| MultiHeadAttention.d_out := 1;
     MultiHeadAttention.num_heads := 1;
     MultiHeadAttention.head_dim := 1;
     MultiHeadAttention.W_query := ones_linear 1 1 None;
     MultiHeadAttention.W_key := ones_linear 1 1 None;
     MultiHeadAttention.W_value := ones_linear 1 1 None;
     MultiHeadAttention.out_proj := ones_linear 1 1 (Some [0]);
     MultiHeadAttention.dropout := {| p := 0; drop_training := true |};
     MultiHeadAttention.mask := triu 1 (Tensor [1; 1]%nat [[1]]%Z) |}.

(** Inputs of one batch element with one feature. *)
Definition x2 : tensor (data3 R) := Tensor [1; 2; 1]%nat [[[0]; [0]]].
Definition x2' : tensor (data3 R) := Tensor [1; 2; 1]%nat [[[0]; [1]]].
Definition x3 : tensor (data3 R) := Tensor [1; 3; 1]%nat [[[0]; [0]; [0]]].

(** A tensor of shape [[1, 2, 2]] to split into two heads. *)
Definition u22 : tensor (data3 nat) := Tensor [1; 2; 2]%nat [[[1; 2]; [3; 4]]]%nat.

Definition block_src : TransformerBlock.source :=
  {| TransformerBlock.src_att := mha_src;
     TransformerBlock.src_ff := {| FeedForward.src_layers_0 := src;
                                   FeedForward.src_layers_2 := src |} |}.

(** A configuration of width 2 with the dropout rate of [GPT_CONFIG_124M]. *)
Definition cfg : config :=
  {| emb_dim := 2; context_length := 2; n_heads := 2;
     drop_rate := 1 # 10; qkv_bias := false |}.

Definition block : TransformerBlock.t :=
  {| TransformerBlock.att :=
       {| MultiHeadAttention.d_out := 2;
          MultiHeadAttention.num_heads := 2;
          MultiHeadAttention.head_dim := 1;
          MultiHeadAttention.W_query := ones_linear 2 2 None;
          MultiHeadAttention.W_key := ones_linear 2 2 None;
          MultiHeadAttention.W_value := ones_linear 2 2 None;
          MultiHeadAttention.out_proj := ones_linear 2 2 (Some [0; 0]);
          MultiHeadAttention.dropout := {| p := 1 # 10; drop_training := true |};
          MultiHeadAttention.mask :=
            triu 1 (Tensor [2; 2]%nat [[1; 1]; [1; 1]]%Z) |};
     TransformerBlock.ff :=
       {| FeedForward.layers_0 := ones_linear 2 8 (Some (repeat 0 8));
          FeedForward.layers_2 := ones_linear 8 2 (Some [0; 0]) |};
     TransformerBlock.norm1 :=
       {| LayerNorm.eps := 1 / 100000;
          LayerNorm.scale := [1; 1]; LayerNorm.shift := [0; 0] |};
     TransformerBlock.norm2 :=
       {| LayerNorm.eps := 1 / 100000;
          LayerNorm.scale := [1; 1]; LayerNorm.shift := [0; 0] |};
     TransformerBlock.drop_shortcut := {| p := 1 # 10; drop_training := true |} |}.

Definition xb : tensor (data3 R) := Tensor [1; 2; 2]%nat [[[1; 2]; [3; 4]]].
Definition xb3 : tensor (data3 R) :=
  Tensor [1; 3; 2]%nat [[[1; 2]; [3; 4]; [5; 6]]].

(** The generator that keeps every element. *)
Definition keep_all : rng := fun _ => true.

Definition norm3 : LayerNorm.t :=
  {| LayerNorm.eps := 1 / 100000;
     LayerNorm.scale := [1; 1; 1]; LayerNorm.shift := [0; 0; 0] |}.

(** [SelfAttention_v1(2, 1)] and the [SelfAttention_v2(2, 1)] with the
    transposed weights. *)
Definition v1 : SelfAttention_v1.t :=
  {| SelfAttention_v1.W_query := Tensor [2; 1]%nat [[1]; [2]];
     SelfAttention_v1.W_key := Tensor [2; 1]%nat [[3]; [4]];
     SelfAttention_v1.W_value := Tensor [2; 1]%nat [[5]; [6]] |}.

Definition v2 : SelfAttention_v2.t :=
  {| SelfAttention_v2.W_query :=
       {| in_features := 2; out_features := 1; weight := [[1; 2]]; bias := None |};
     SelfAttention_v2.W_key :=
       {| in_features := 2; out_features := 1; weight := [[3; 4]]; bias := None |};
     SelfAttention_v2.W_value :=
       {| in_features := 2; out_features := 1; weight := [[5; 6]]; bias := None |} |}.

Definition inputs : tensor (data2 R) := Tensor [2; 2]%nat [[1; 0]; [0; 1]].

End Examples.

(* ================================================================== *)
(** * Slicing along the token axis *)

(** [x[:, :j, :]] of a rank-3 tensor. *)
Definition take_tokens {A} (j : nat) (x : tensor (data3 A)) : tensor (data3 A) :=
  match shape x with
  | [b; n; d] => Tensor [b; Nat.min j n; d] (map (firstn j) (data x))
  | _ => x
  end.

(** [idx[:, :j]] of a matrix. *)
Definition take_cols {A} (j : nat) (t : tensor (data2 A)) : tensor (data2 A) :=
  match shape t with
  | [b; n] => Tensor [b; Nat.min j n] (map (firstn j) (data t))
  | _ => t
  end.

(** Two rank-3 tensors agree on the tokens at positions [< j]. *)
Definition agree_upto {A} (j : nat) (x y : tensor (data3 A)) : Prop :=
  map (firstn j) (data x) = map (firstn j) (data y).

(* ================================================================== *)
(** * nn.Module.eval() *)

(** [eval()] switches the module and all its sub-modules to evaluation
    mode; only [nn.Dropout] reads the flag. *)
Definition Dropout_eval (d : Dropout) : Dropout :=
  {| p := p d; drop_training := false |}.

Definition MultiHeadAttention_eval (m : MultiHeadAttention.t)
  : MultiHeadAttention.t :=
  {| MultiHeadAttention.d_out := MultiHeadAttention.d_out m;
     MultiHeadAttention.num_heads := MultiHeadAttention.num_heads m;
     MultiHeadAttention.head_dim := MultiHeadAttention.head_dim m;
     MultiHeadAttention.W_query := MultiHeadAttention.W_query m;
     MultiHeadAttention.W_key := MultiHeadAttention.W_key m;
     MultiHeadAttention.W_value := MultiHeadAttention.W_value m;
     MultiHeadAttention.out_proj := MultiHeadAttention.out_proj m;
     MultiHeadAttention.dropout := Dropout_eval (MultiHeadAttention.dropout m);
     MultiHeadAttention.mask := MultiHeadAttention.mask m |}.

Definition TransformerBlock_eval (m : TransformerBlock.t) : TransformerBlock.t :=
  {| TransformerBlock.att := MultiHeadAttention_eval (TransformerBlock.att m);
     TransformerBlock.ff := TransformerBlock.ff m;
     TransformerBlock.norm1 := TransformerBlock.norm1 m;
     TransformerBlock.norm2 := TransformerBlock.norm2 m;
     TransformerBlock.drop_shortcut :=
       Dropout_eval (TransformerBlock.drop_shortcut m) |}.

(** Both dropouts of a block pass their input through. *)
Definition block_dropout_disabled (m : TransformerBlock.t) : bool :=
  dropout_disabled (MultiHeadAttention.dropout (TransformerBlock.att m))
  && dropout_disabled (TransformerBlock.drop_shortcut m).

(* ================================================================== *)
(** * Exceptions of the model and of the decoding loop (chapter 5.1.2) *)

(** The embedding lookups and the indexing of the decoding loop raise
    [IndexError]; every other exception is one of [exn]. *)
Inductive py_exn : Type :=
| IndexError
| Other (e : exn).

Inductive outcome (A : Type) : Type :=
| Return (a : A)
| Throw (e : py_exn).

Arguments Return {A} a.
Arguments Throw {A} e.

Definition of_result {A} (r : result A) : outcome A :=
  match r with
  | Ok a => Return a
  | Raise e => Throw (Other e)
  end.

(** A computation of the model: it runs against the generator of
    [nn.Dropout] and returns or throws. *)
Definition G (A : Type) : Type := rng -> outcome A * rng.

Definition gret {A} (a : A) : G A := fun g => (Return a, g).

Definition gbind {A B} (m : G A) (k : A -> G B) : G B :=
  fun g => match m g with
           | (Return a, g') => k a g'
           | (Throw e, g') => (Throw e, g')
           end.

Definition glift {A} (o : outcome A) : G A := fun g => (o, g).

Definition of_M {A} (m : M A) : G A :=
  fun g => (of_result (fst (m g)), snd (m g)).

Declare Scope gpt_scope.
Delimit Scope gpt_scope with gpt.
Notation "x <~~ e ;; k" := (gbind e (fun x => k))
  (at level 61, e at next level, right associativity) : gpt_scope.

(** [f] on every element, left to right, stopping at the first throw. *)
Fixpoint omapM {A B} (f : A -> outcome B) (l : list A) : outcome (list B) :=
  match l with
  | [] => Return []
  | a :: l' =>
      match f a with
      | Return b =>
          match omapM f l' with
          | Return bs => Return (b :: bs)
          | Throw e => Throw e
          end
      | Throw e => Throw e
      end
  end.

(* ================================================================== *)
(** * nn.Embedding *)

(** [emb_weight] has shape [[num_embeddings, embedding_dim]]. *)
Record Embedding : Type := {
  num_embeddings : nat;
  embedding_dim : nat;
  emb_weight : data2 R
}.

Definition nn_Embedding (f : nat -> nat -> R) (num dim : Z) : result Embedding :=
  if ((num <? 0) || (dim <? 0))%Z then Raise RuntimeError
  else Ok {| num_embeddings := Z.to_nat num;
             embedding_dim := Z.to_nat dim;
             emb_weight := tabulate (Z.to_nat num)
                             (fun i => tabulate (Z.to_nat dim) (f i)) |}.

(** The exception of a failed lookup.  [nn.Embedding] selects the rows
    with [index_select], which raises [IndexError] for an index out of
    range; a weight without elements ([num_embeddings = 0] or
    [embedding_dim = 0]) takes a path of its own, whose checks raise
    [RuntimeError]. *)
Definition lookup_error (e : Embedding) : py_exn :=
  if ((num_embeddings e =? 0) || (embedding_dim e =? 0))%nat
  then Other RuntimeError
  else IndexError.

(** The row of one index; an index outside [[0, num_embeddings)] raises
    [lookup_error].  No index is looked up for an empty tensor of
    indices, which is returned before any check. *)
Definition Embedding_lookup (e : Embedding) (i : Z) : outcome (list R) :=
  if ((0 <=? i) && (i <? Z.of_nat (num_embeddings e)))%Z
  then Return (nth (Z.to_nat i) (emb_weight e) [])
  else Throw (lookup_error e).

(** The embedding of a vector of indices. *)
Definition Embedding_forward1 (e : Embedding) (idx : tensor (data1 Z))
  : outcome (tensor (data2 R)) :=
  match omapM (Embedding_lookup e) (data idx) with
  | Return rows =>
      match shape idx with
      | [n] => Return (Tensor [n; embedding_dim e] rows)
      | _ => Throw (Other RuntimeError)
      end
  | Throw err => Throw err
  end.

(** The embedding of a matrix of indices: every index is looked up, in
    row-major order, and the result has one more axis.  [GPTModel.forward]
    unpacks the shape of the indices before it calls the embedding, so
    that the shape has rank 2 here. *)
Definition Embedding_forward2 (e : Embedding) (idx : tensor (data2 Z))
  : outcome (tensor (data3 R)) :=
  match omapM (omapM (Embedding_lookup e)) (data idx) with
  | Return rows =>
      match shape idx with
      | [b; n] => Return (Tensor [b; n; embedding_dim e] rows)
      | _ => Throw (Other RuntimeError)
      end
  | Throw err => Throw err
  end.

(** [torch.arange(n)]. *)
Definition arange (n : nat) : tensor (data1 Z) :=
  Tensor [n] (map Z.of_nat (seq 0 n)).

(** [x + y] for a rank-3 and a rank-2 tensor, under broadcasting: [y] is
    added to every batch element of [x]. *)
Definition add3_2 (x : tensor (data3 R)) (y : tensor (data2 R))
  : result (tensor (data3 R)) :=
  match shape x, shape y with
  | [a0; a1; a2], [b1; b2] =>
      (c1 <- bdim a1 b1 ;;
       c2 <- bdim a2 b2 ;;
       Ok (Tensor [a0; c1; c2]
                  (map (fun m => bzip (bzip Rplus) m (data y)) (data x))))%result
  | _, _ => Raise RuntimeError
  end.

(* ================================================================== *)
(** * GPTModel (chapter 5.1.2) *)

(** The [cfg] dictionary of the model: the keys of the block, and
    [vocab_size] and [n_layers]. *)
Record gpt_config : Type := {
  vocab_size : Z;
  n_layers : Z;
  block_cfg : config
}.

Module GPTModel.

(** [trf_blocks = nn.Sequential(block, ..., block)]. *)
Record t : Type := {
  tok_emb : Embedding;
  pos_emb : Embedding;
  drop_emb : Dropout;
  trf_blocks : list TransformerBlock.t;
  final_norm : LayerNorm.t;
  out_head : Linear
}.

Record source : Type := {
  src_tok : nat -> nat -> R;
  src_pos : nat -> nat -> R;
  src_blocks : nat -> TransformerBlock.source;
  src_head : init_source
}.

(** [[TransformerBlock(cfg) for _ in range(n)]], the blocks built in
    order. *)
Fixpoint init_blocks (src : nat -> TransformerBlock.source) (cfg : config)
         (first n : nat) : result (list TransformerBlock.t) :=
  match n with
  | O => Ok []
  | S n' =>
      (b <- TransformerBlock.init (src first) cfg ;;
       bs <- init_blocks src cfg (S first) n' ;;
       Ok (b :: bs))%result
  end.

Definition init (src : source) (cfg : gpt_config) : result t :=
  (te <- nn_Embedding (src_tok src) (vocab_size cfg) (emb_dim (block_cfg cfg)) ;;
   pe <- nn_Embedding (src_pos src) (context_length (block_cfg cfg))
                      (emb_dim (block_cfg cfg)) ;;
   de <- nn_Dropout (drop_rate (block_cfg cfg)) ;;
   bs <- init_blocks (src_blocks src) (block_cfg cfg) 0
                     (Z.to_nat (n_layers cfg)) ;;
   fn <- LayerNorm.init (emb_dim (block_cfg cfg)) ;;
   oh <- nn_Linear (src_head src) (emb_dim (block_cfg cfg)) (vocab_size cfg)
                   false ;;
   Ok {| tok_emb := te; pos_emb := pe; drop_emb := de; trf_blocks := bs;
         final_norm := fn; out_head := oh |})%result.

(** [nn.Sequential.forward]: the blocks one after the other. *)
Fixpoint run_blocks (bs : list TransformerBlock.t) (x : tensor (data3 R))
  : M (tensor (data3 R)) :=
  match bs with
  | [] => ret x
  | b :: bs' => bind (TransformerBlock.forward b x) (run_blocks bs')
  end.

Open Scope gpt_scope.

Definition forward (self : t) (in_idx : tensor (data2 Z)) : G (tensor (data3 R)) :=
  match shape in_idx with
  | [batch_size; seq_len] =>
      tok_embeds <~~ glift (Embedding_forward2 (tok_emb self) in_idx) ;;
      pos_embeds <~~ glift (Embedding_forward1 (pos_emb self) (arange seq_len)) ;;
      x <~~ glift (of_result (add3_2 tok_embeds pos_embeds)) ;;
      x <~~ of_M (Dropout_forward3 (drop_emb self) x) ;;
      x <~~ of_M (run_blocks (trf_blocks self) x) ;;
      x <~~ glift (of_result (LayerNorm.forward (final_norm self) x)) ;;
      logits <~~ glift (of_result (Linear_forward (out_head self) x)) ;;
      gret logits
  | _ => glift (Throw (Other ValueError))
  end.

Close Scope gpt_scope.

(** What lines 24-29 compute from the rows of indices of a batch of
    [n] tokens: the token embedding of every index plus the embedding of
    its position. *)
Definition embeddings (self : t) (n : nat) (ids : data2 Z) : data3 R :=
  map (fun row =>
         map2 (map2 Rplus)
              (map (fun i => nth (Z.to_nat i) (emb_weight (tok_emb self)) []) row)
              (firstn n (emb_weight (pos_emb self))))
      ids.

Definition eval (self : t) : t :=
  {| tok_emb := tok_emb self;
     pos_emb := pos_emb self;
     drop_emb := Dropout_eval (drop_emb self);
     trf_blocks := map TransformerBlock_eval (trf_blocks self);
     final_norm := final_norm self;
     out_head := out_head self |}.

(** The invariant of a model with vocabulary [vocab], width [emb] and
    [ctx] positions. *)
Record wf (vocab emb ctx : nat) (self : t) : Prop := {
  wf_tok_num : num_embeddings (tok_emb self) = vocab;
  wf_tok_dim : embedding_dim (tok_emb self) = emb;
  wf_tok_weight : rect2 vocab emb (emb_weight (tok_emb self));
  wf_pos_num : num_embeddings (pos_emb self) = ctx;
  wf_pos_dim : embedding_dim (pos_emb self) = emb;
  wf_pos_weight : rect2 ctx emb (emb_weight (pos_emb self));
  wf_blocks : Forall (TransformerBlock.wf emb ctx) (trf_blocks self);
  wf_final_norm : LayerNorm.wf emb (final_norm self);
  wf_out_head : Linear_wf emb vocab (out_head self)
}.

(** Every dropout of the model passes its input through. *)
Definition dropout_off (self : t) : Prop :=
  dropout_disabled (drop_emb self) = true /\
  Forall (fun b => block_dropout_disabled b = true) (trf_blocks self).

End GPTModel.

(** Every index of the matrix is a token of the vocabulary. *)
Definition valid_tokens (vocab : nat) (idx : tensor (data2 Z)) : Prop :=
  Forall (Forall (fun i => (0 <= i < Z.of_nat vocab)%Z)) (data idx).

(* ================================================================== *)
(** * generate_text_simple (chapter 5.1.2) *)

(** The first position of the Python slice [[s:]] of a sequence of
    [len] elements: a negative [s] counts from the end. *)
Definition py_start (s : Z) (len : nat) : nat :=
  if (s <? 0)%Z then Z.to_nat (Z.max 0 (Z.of_nat len + s))
  else Nat.min (Z.to_nat s) len.

(** [idx[:, s:]] of a matrix.  The elements of a [tensor (data2 Z)] have
    two axes; a declared shape of another rank does not describe them,
    and more indices than axes are an [IndexError]. *)
Definition slice_cols_from (s : Z) (idx : tensor (data2 Z))
  : outcome (tensor (data2 Z)) :=
  match shape idx with
  | [b; n] => Return (Tensor [b; (n - py_start s n)%nat]
                             (map (skipn (py_start s n)) (data idx)))
  | _ => Throw IndexError
  end.

(** [logits[:, -1, :]]: the last time step; there is none in an empty
    sequence, and index -1 is then out of bounds. *)
Definition select_last (logits : tensor (data3 R)) : outcome (tensor (data2 R)) :=
  match shape logits with
  | [b; n; v] =>
      if (n =? 0)%nat then Throw IndexError
      else Return (Tensor [b; v] (map (fun m => last m []) (data logits)))
  | _ => Throw IndexError
  end.

(** The position of the first maximal entry of a row. *)
Fixpoint argmax_row (l : list R) : nat :=
  match l with
  | [] => O
  | a :: l' =>
      match l' with
      | [] => O
      | _ => if Rle_dec (nth (argmax_row l') l' 0) a then O
             else S (argmax_row l')
      end
  end.

(** [torch.argmax(t, dim=-1, keepdim=True)]; the reduced axis must not be
    empty. *)
Definition argmax_last (t : tensor (data2 R)) : outcome (tensor (data2 Z)) :=
  match shape t with
  | [b; v] =>
      if (v =? 0)%nat then Throw IndexError
      else Return (Tensor [b; 1%nat]
                          (map (fun r => [Z.of_nat (argmax_row r)]) (data t)))
  | _ => Throw (Other RuntimeError)
  end.

(** [torch.cat((x, y), dim=1)] for two matrices. *)
Definition cat1 {A} (x y : tensor (data2 A)) : result (tensor (data2 A)) :=
  match shape x, shape y with
  | [b; n], [b'; k] =>
      if (b =? b')%nat
      then Ok (Tensor [b; (n + k)%nat] (map2 (@app A) (data x) (data y)))
      else Raise RuntimeError
  | _, _ => Raise RuntimeError
  end.

Open Scope gpt_scope.

(** One iteration of the loop. *)
Definition generate_step (model : tensor (data2 Z) -> G (tensor (data3 R)))
           (context_size : Z) (idx : tensor (data2 Z)) : G (tensor (data2 Z)) :=
  idx_cond <~~ glift (slice_cols_from (- context_size) idx) ;;
  logits <~~ model idx_cond ;;
  logits <~~ glift (select_last logits) ;;
  let probas := softmax2 (tmap2 Fin logits) in
  idx_next <~~ glift (argmax_last probas) ;;
  glift (of_result (cat1 idx idx_next)).

(** [for _ in range(steps)]. *)
Fixpoint generate_loop (model : tensor (data2 Z) -> G (tensor (data3 R)))
         (context_size : Z) (steps : nat) (idx : tensor (data2 Z))
  : G (tensor (data2 Z)) :=
  match steps with
  | O => gret idx
  | S k =>
      idx <~~ generate_step model context_size idx ;;
      generate_loop model context_size k idx
  end.

Definition generate_text_simple (model : tensor (data2 Z) -> G (tensor (data3 R)))
           (idx : tensor (data2 Z)) (max_new_tokens context_size : Z)
  : G (tensor (data2 Z)) :=
  generate_loop model context_size (Z.to_nat max_new_tokens) idx.

Close Scope gpt_scope.

(* ================================================================== *)
(** * A concrete model, prompts and further inputs *)

Module GPTExamples.

(** A configuration with three tokens and one block of width 2. *)
Definition cfg : gpt_config :=
  {| vocab_size := 3; n_layers := 1; block_cfg := Examples.cfg |}.

Definition src : GPTModel.source :=
  {| GPTModel.src_tok := fun _ _ => 1;
     GPTModel.src_pos := fun _ _ => 0;
     GPTModel.src_blocks := fun _ => Examples.block_src;
     GPTModel.src_head := Examples.src |}.

(** [GPTModel(cfg)] with these initial values. *)
Definition gpt : GPTModel.t :=
  {| GPTModel.tok_emb :=
       {| num_embeddings := 3; embedding_dim := 2;
          emb_weight := [[1; 1]; [1; 1]; [1; 1]] |};
     GPTModel.pos_emb :=
       {| num_embeddings := 2; embedding_dim := 2;
          emb_weight := [[0; 0]; [0; 0]] |};
     GPTModel.drop_emb := {| p := 1 # 10; drop_training := true |};
     GPTModel.trf_blocks := [Examples.block];
     GPTModel.final_norm :=
       {| LayerNorm.eps := 1 / 100000;
          LayerNorm.scale := [1; 1]; LayerNorm.shift := [0; 0] |};
     GPTModel.out_head := Examples.ones_linear 2 3 None |}.

(** A configuration whose width is not a multiple of the number of heads
    and that asks for no block. *)
Definition cfg_no_layers : gpt_config :=
  {| vocab_size := 3; n_layers := 0;
     block_cfg := {| emb_dim := 3; context_length := 2; n_heads := 2;
                     drop_rate := 1 # 10; qkv_bias := false |} |}.

(** Prompts of one batch element. *)
Definition prompt : tensor (data2 Z) := Tensor [1; 2]%nat [[0; 2]]%Z.
Definition prompt3 : tensor (data2 Z) := Tensor [1; 3]%nat [[0; 2; 1]]%Z.
Definition bad_prompt : tensor (data2 Z) := Tensor [1; 2]%nat [[0; 3]]%Z.
Definition empty_prompt : tensor (data2 Z) := Tensor [1; 0]%nat [[]].


(** The input [Examples.xb] and the prompt [prompt] with another last
    token. *)
Definition xb_other : tensor (data3 R) := Tensor [1; 2; 2]%nat [[[1; 2]; [5; 6]]].
Definition prompt_other : tensor (data2 Z) := Tensor [1; 2]%nat [[0; 1]]%Z.

(** Attention scores of one head on two tokens, and the causal mask of
    two positions. *)
Definition scores22 : tensor (data4 R) :=
  Tensor [1; 1; 2; 2]%nat [[[[1; 2]; [3; 4]]]].
Definition mask22 : tensor (data2 bool) :=
  Tensor [2; 2]%nat [[false; true]; [false; false]].

(** [SelfAttention_v1(2, 1)] with every drawn value equal to 1. *)
Definition v1_ones : SelfAttention_v1.t :=
  {| SelfAttention_v1.W_query := Tensor [2; 1]%nat [[1]; [1]];
     SelfAttention_v1.W_key := Tensor [2; 1]%nat [[1]; [1]];
     SelfAttention_v1.W_value := Tensor [2; 1]%nat [[1]; [1]] |}.

(** An input of width 1 and one of width 3. *)
Definition x_width1 : tensor (data3 R) := Tensor [1; 2; 1]%nat [[[5]; [7]]].
Definition x_width3 : tensor (data3 R) :=
  Tensor [1; 2; 3]%nat [[[1; 2; 3]; [4; 5; 6]]].

End GPTExamples.

(** Evaluation of a [forward] on concrete data: everything is computed
    except the arithmetic of the real numbers. *)
Ltac eval_forward :=
  cbv -[Rplus Rmult Rminus Rdiv Rinv Ropp exp sqrt INR Rmax IZR].

Unset Implicit Arguments.

(* ================================================================== *)
(** * Facts about nested lists *)

Section NestedFacts.
Context {A : Type}.
Implicit Types (l : list A) (m : list (list A)).

Lemma chunks_length k n l : length (chunks k n l) = n.
Proof. revert l; induction n; intros; simpl; auto. Qed.

Lemma chunks_rect1 k n l :
  length l = (n * k)%nat -> Forall (rect1 k) (chunks k n l).
Proof.
  revert l; induction n; intros l Hl; simpl; constructor.
  - unfold rect1. rewrite length_firstn. simpl in Hl. lia.
  - apply IHn. rewrite length_skipn. simpl in Hl. lia.
Qed.

Lemma concat_chunks k n l :
  length l = (n * k)%nat -> concat (chunks k n l) = l.
Proof.
  revert l; induction n; intros l Hl; simpl.
  - destruct l; [reflexivity | discriminate].
  - rewrite IHn.
    + apply firstn_skipn.
    + rewrite length_skipn. simpl in Hl. lia.
Qed.

Lemma chunks_concat k n m :
  length m = n -> Forall (rect1 k) m -> chunks k n (concat m) = m.
Proof.
  revert n; induction m as [|r m IH]; intros n Hn Hr; subst n; simpl.
  - reflexivity.
  - inversion Hr as [|? ? Hk Hr']; subst. unfold rect1 in Hk.
    rewrite firstn_app, Hk, Nat.sub_diag, firstn_all2 by lia.
    rewrite skipn_app, Hk, Nat.sub_diag, skipn_all2 by lia.
    simpl. rewrite app_nil_r, IH; auto.
Qed.

Lemma concat_length_rect k n m :
  length m = n -> Forall (rect1 k) m -> length (concat m) = (n * k)%nat.
Proof.
  revert n; induction m as [|r m IH]; intros n Hn Hr; subst n; simpl; auto.
  inversion Hr as [|? ? Hk Hr']; subst. unfold rect1 in Hk.
  rewrite length_app, Hk. f_equal. apply IH; auto.
Qed.

Lemma zip_cons_length r m :
  length r = length m -> length (zip_cons r m) = length m.
Proof.
  revert m; induction r as [|a r IH]; intros [|c m] H; simpl in *;
    try discriminate; auto.
Qed.

Lemma zip_cons_rect k r m :
  length r = length m -> Forall (rect1 k) m -> Forall (rect1 (S k)) (zip_cons r m).
Proof.
  revert m; induction r as [|a r IH]; intros [|c m] H Hm; simpl in *;
    try discriminate; constructor.
  - inversion Hm; subst. unfold rect1 in *. simpl. congruence.
  - inversion Hm; subst. apply IH; auto.
Qed.

Lemma repeat_nil_rect c : Forall (rect1 0) (repeat (@nil A) c).
Proof. induction c; simpl; constructor; auto. reflexivity. Qed.

Lemma transposeLL_rect n c m :
  rect2 n c m -> rect2 c n (transposeLL c m).
Proof.
  intros [Hn Hr]. subst n. induction m as [|r m IH]; simpl.
  - split; [apply repeat_length | apply repeat_nil_rect].
  - inversion Hr as [|? ? Hk Hr']; subst. destruct (IH Hr') as [IH1 IH2].
    unfold rect1 in Hk. split.
    + rewrite zip_cons_length; congruence.
    + apply zip_cons_rect; auto. congruence.
Qed.

Lemma transposeLL_zip_cons k r m :
  length r = length m -> Forall (rect1 k) m ->
  transposeLL (S k) (zip_cons r m) = r :: transposeLL k m.
Proof.
  revert m; induction r as [|a r IH]; intros [|c m] H Hm; simpl in *;
    try discriminate.
  - reflexivity.
  - inversion Hm as [|? ? Hc Hm']; subst. rewrite IH by (auto; lia).
    reflexivity.
Qed.

(** Transposing twice gives the matrix back. *)
Lemma transposeLL_involutive n c m :
  rect2 n c m -> transposeLL n (transposeLL c m) = m.
Proof.
  intros [Hn Hr]. subst n. induction m as [|r m IH]; simpl.
  - destruct c; reflexivity.
  - inversion Hr as [|? ? Hk Hr']; subst.
    destruct (transposeLL_rect _ _ _ (conj eq_refl Hr')) as [L1 L2].
    unfold rect1 in Hk.
    rewrite transposeLL_zip_cons by (auto; congruence).
    rewrite IH; auto.
Qed.

Lemma firstn_zip_cons j r m :
  map (firstn (S j)) (zip_cons r m) = zip_cons r (map (firstn j) m).
Proof.
  revert m; induction r as [|a r IH]; intros [|c m]; simpl; auto.
  rewrite IH. reflexivity.
Qed.

Lemma map_firstn_0 m : map (firstn 0) m = repeat (@nil A) (length m).
Proof.
  induction m as [|r m IH]; [reflexivity|].
  change (@nil A :: map (firstn 0) m = [] :: repeat [] (length m)).
  now rewrite IH.
Qed.

Lemma map_firstn_repeat_nil j c :
  map (firstn j) (repeat (@nil A) c) = repeat [] c.
Proof.
  induction c as [|c IH]; simpl; [reflexivity|].
  now rewrite firstn_nil, IH.
Qed.

(** The columns of the first [j] rows are the first [j] entries of the
    columns. *)
Lemma transposeLL_firstn n c j m :
  rect2 n c m -> transposeLL c (firstn j m) = map (firstn j) (transposeLL c m).
Proof.
  intros [Hn Hr]. subst n. revert j. induction m as [|r m IH]; intros j.
  - rewrite firstn_nil. simpl. symmetry. apply map_firstn_repeat_nil.
  - inversion Hr as [|? ? Hk Hr']; subst.
    destruct (transposeLL_rect _ _ _ (conj eq_refl Hr')) as [L1 L2].
    unfold rect1 in Hk. destruct j.
    + change (repeat [] c = map (firstn 0) (zip_cons r (transposeLL c m))).
      rewrite map_firstn_0, zip_cons_length; congruence.
    + change (zip_cons r (transposeLL c (firstn j m)) =
              map (firstn (S j)) (zip_cons r (transposeLL c m))).
      rewrite firstn_zip_cons, IH; auto.
Qed.

Lemma firstn_rect2 n c j m :
  rect2 n c m -> rect2 (Nat.min j n) c (firstn j m).
Proof.
  intros [Hn Hr]. split.
  - rewrite length_firstn. congruence.
  - rewrite <- (firstn_skipn j m) in Hr. apply Forall_app in Hr. tauto.
Qed.

(** The rows of the first [j] columns. *)
Lemma transposeLL_map_firstn n c j m :
  rect2 n c m -> (j <= c)%nat ->
  transposeLL j (map (firstn j) m) = firstn j (transposeLL c m).
Proof.
  intros Hm Hj.
  pose proof (transposeLL_rect _ _ _ Hm) as Ht.
  rewrite <- (transposeLL_involutive _ _ _ Hm) at 1.
  rewrite <- (transposeLL_firstn _ _ j _ Ht).
  pose proof (firstn_rect2 _ _ j _ Ht) as Hf.
  rewrite Nat.min_l in Hf by exact Hj.
  apply (transposeLL_involutive _ _ _ Hf).
Qed.

End NestedFacts.

Lemma map_id_Forall {B} (f : B -> B) (P : B -> Prop) (l : list B) :
  (forall a, P a -> f a = a) -> Forall P l -> map f l = l.
Proof.
  intros Hf Hl. induction Hl as [|a l Ha Hl IH]; simpl; [reflexivity|].
  rewrite Hf, IH; auto.
Qed.

Section GroupFacts.
Context {A : Type}.

Lemma flatten3_length b n d (t : list (list (list A))) :
  rect3 b n d t -> length (flatten3 t) = (b * (n * d))%nat.
Proof.
  intros [Hb Ht]. unfold flatten3.
  apply concat_length_rect.
  - rewrite length_map. exact Hb.
  - apply Forall_map. eapply Forall_impl; [|exact Ht].
    intros m [Hn Hm]. apply concat_length_rect; auto.
Qed.

Lemma group3_flatten3 b n d (t : list (list (list A))) :
  rect3 b n d t -> group3 b n d (flatten3 t) = t.
Proof.
  intros [Hb Ht]. unfold group3, flatten3.
  rewrite chunks_concat.
  - rewrite map_map. apply map_id_Forall with (P := rect2 n d); auto.
    intros m [Hn Hm]. apply chunks_concat; auto.
  - rewrite length_map. exact Hb.
  - apply Forall_map. eapply Forall_impl; [|exact Ht].
    intros m [Hn Hm]. apply concat_length_rect; auto.
Qed.

Lemma group3_rect b n d (l : list A) :
  length l = (b * (n * d))%nat -> rect3 b n d (group3 b n d l).
Proof.
  intros Hl. unfold group3. split.
  - rewrite length_map. apply chunks_length.
  - apply Forall_map. eapply Forall_impl; [|apply chunks_rect1; exact Hl].
    intros m Hm. split; [apply chunks_length | apply chunks_rect1; exact Hm].
Qed.

Lemma flatten4_length b h n d (t : list (list (list (list A)))) :
  rect4 b h n d t -> length (flatten4 t) = (b * (h * (n * d)))%nat.
Proof.
  intros [Hb Ht]. unfold flatten4.
  apply concat_length_rect.
  - rewrite length_map. exact Hb.
  - apply Forall_map. eapply Forall_impl; [|exact Ht].
    intros m Hm. apply flatten3_length. exact Hm.
Qed.

Lemma group4_flatten4 b h n d (t : list (list (list (list A)))) :
  rect4 b h n d t -> group4 b h n d (flatten4 t) = t.
Proof.
  intros [Hb Ht]. unfold group4, flatten4.
  rewrite chunks_concat.
  - rewrite map_map. apply map_id_Forall with (P := rect3 h n d); auto.
    intros m Hm. apply group3_flatten3. exact Hm.
  - rewrite length_map. exact Hb.
  - apply Forall_map. eapply Forall_impl; [|exact Ht].
    intros m Hm. apply flatten3_length. exact Hm.
Qed.

Lemma group4_rect b h n d (l : list A) :
  length l = (b * (h * (n * d)))%nat -> rect4 b h n d (group4 b h n d l).
Proof.
  intros Hl. unfold group4. split.
  - rewrite length_map. apply chunks_length.
  - apply Forall_map. eapply Forall_impl; [|apply chunks_rect1; exact Hl].
    intros m Hm. apply group3_rect. exact Hm.
Qed.

(** The heads of one row: regrouping the elements of a [[b, n, h * d]]
    tensor as [[b, n, h, d]] cuts every row into [h] blocks. *)
Lemma group4_flatten3 b n h d (t : list (list (list A))) :
  rect3 b n (h * d) t ->
  group4 b n h d (flatten3 t) = map (map (chunks d h)) t.
Proof.
  intros [Hb Ht]. unfold group4, flatten3.
  rewrite chunks_concat.
  - rewrite map_map. apply map_ext_in. intros m Hm.
    rewrite Forall_forall in Ht. destruct (Ht m Hm) as [Hn Hr].
    unfold group3. rewrite chunks_concat; auto.
  - rewrite length_map. exact Hb.
  - apply Forall_map. eapply Forall_impl; [|exact Ht].
    intros m [Hn Hm]. apply concat_length_rect; auto.
Qed.

(** Flattening [[b, n, h, d]] into [[b, n, h * d]] concatenates the blocks
    of every row. *)
Lemma group3_flatten4 b n h d (t : list (list (list (list A)))) :
  rect4 b n h d t ->
  group3 b n (h * d) (flatten4 t) = map (map (@concat A)) t.
Proof.
  intros [Hb Ht]. unfold group3, flatten4.
  rewrite chunks_concat.
  - rewrite map_map. apply map_ext_in. intros m Hm.
    rewrite Forall_forall in Ht. destruct (Ht m Hm) as [Hn Hr].
    unfold flatten3. apply chunks_concat.
    + rewrite length_map. exact Hn.
    + apply Forall_map. eapply Forall_impl; [|exact Hr].
      intros r [Hh Hd]. apply concat_length_rect; auto.
  - rewrite length_map. exact Hb.
  - apply Forall_map. eapply Forall_impl; [|exact Ht].
    intros m Hm. apply flatten3_length. exact Hm.
Qed.

End GroupFacts.

(* ================================================================== *)
(** * Facts about [view] and [transpose] *)

Lemma numel3 a b c : numel [a; b; c] = (a * (b * c))%nat.
Proof. unfold numel; simpl. lia. Qed.

Lemma numel4 a b c d : numel [a; b; c; d] = (a * (b * (c * d)))%nat.
Proof. unfold numel; simpl. lia. Qed.

Lemma negative_sizes_of_nat4 a b c d :
  ((Z.of_nat a <? 0) || (Z.of_nat b <? 0) || (Z.of_nat c <? 0)
   || (Z.of_nat d <? 0))%Z = false.
Proof.
  repeat (rewrite orb_false_iff; split); apply Z.ltb_ge; lia.
Qed.

Lemma negative_sizes_of_nat3 a b c :
  ((Z.of_nat a <? 0) || (Z.of_nat b <? 0) || (Z.of_nat c <? 0))%Z = false.
Proof.
  repeat (rewrite orb_false_iff; split); apply Z.ltb_ge; lia.
Qed.

Lemma view4_heads {A} b n h d (t : tensor (data3 A)) :
  has_shape3 b n (h * d) t ->
  view4 t (Z.of_nat b) (Z.of_nat n) (Z.of_nat h) (Z.of_nat d)
  = Ok (Tensor [b; n; h; d] (map (map (chunks d h)) (data t))).
Proof.
  intros [Hs Hr]. unfold view4.
  rewrite negative_sizes_of_nat4, !Nat2Z.id, Hs, numel3, numel4.
  rewrite Nat.eqb_refl, group4_flatten3 by exact Hr. reflexivity.
Qed.

Lemma view3_heads {A} b n h d (t : tensor (data4 A)) :
  has_shape4 b n h d t ->
  view3 t (Z.of_nat b) (Z.of_nat n) (Z.of_nat (h * d))
  = Ok (Tensor [b; n; (h * d)%nat] (map (map (@concat A)) (data t))).
Proof.
  intros [Hs Hr]. unfold view3.
  rewrite negative_sizes_of_nat3, !Nat2Z.id, Hs, numel3, numel4.
  rewrite Nat.eqb_refl, group3_flatten4 by exact Hr. reflexivity.
Qed.

Lemma heads_rect {A} b n h d (t : data3 A) :
  rect3 b n (h * d) t -> rect4 b n h d (map (map (chunks d h)) t).
Proof.
  intros [Hb Ht]. split.
  - rewrite length_map. exact Hb.
  - apply Forall_map. eapply Forall_impl; [|exact Ht].
    intros m [Hn Hm]. split.
    + rewrite length_map. exact Hn.
    + apply Forall_map. eapply Forall_impl; [|exact Hm].
      intros r Hr. split; [apply chunks_length | apply chunks_rect1; exact Hr].
Qed.

(** A rank-4 block seen as a matrix of rows of vectors. *)
Lemma rect3_rect2 {A} h n d (m : data3 A) : rect3 h n d m -> rect2 h n m.
Proof.
  intros [Hh Hm]. split; [exact Hh|].
  eapply Forall_impl; [|exact Hm]. intros r [Hr _]. exact Hr.
Qed.

Lemma zip_cons_Forall {A} (P : A -> Prop) (r : list A) (cs : list (list A)) :
  Forall P r -> Forall (Forall P) cs -> Forall (Forall P) (zip_cons r cs).
Proof.
  intros Hr. revert cs. induction Hr as [|a r Ha Hr IH]; intros cs Hcs.
  - constructor.
  - destruct Hcs as [|c cs Hc Hcs]; simpl; constructor; auto.
Qed.

(** Every entry of the transposed matrix is an entry of the matrix. *)
Lemma transposeLL_Forall {A} (P : A -> Prop) c (m : list (list A)) :
  Forall (Forall P) m -> Forall (Forall P) (transposeLL c m).
Proof.
  induction 1 as [|r m Hr Hm IH]; simpl.
  - induction c; simpl; constructor; auto.
  - apply zip_cons_Forall; assumption.
Qed.

Lemma transposeLL_rect3 {A} h n d (m : data3 A) :
  rect3 h n d m -> rect3 n h d (transposeLL n m).
Proof.
  intros Hm. pose proof (transposeLL_rect _ _ _ (rect3_rect2 _ _ _ _ Hm)) as [Hn Hr].
  split; [exact Hn|].
  assert (Hall : Forall (Forall (rect1 d)) (transposeLL n m)).
  { apply transposeLL_Forall. destruct Hm as [_ Hm].
    eapply Forall_impl; [|exact Hm]. intros r [_ H]. exact H. }
  rewrite Forall_forall in *. intros r Hin.
  split; [apply Hr | apply Hall]; exact Hin.
Qed.

Lemma transpose_1_2_eval {A} b h n d (t : tensor (data4 A)) :
  has_shape4 b h n d t ->
  transpose_1_2 t = Ok (Tensor [b; n; h; d] (map (transposeLL n) (data t))).
Proof. intros [Hs _]. unfold transpose_1_2. rewrite Hs. reflexivity. Qed.

Lemma transpose_1_2_shape {A} b h n d (t : tensor (data4 A)) :
  has_shape4 b h n d t ->
  has_shape4 b n h d (Tensor [b; n; h; d] (map (transposeLL n) (data t))).
Proof.
  intros [Hs [Hb Hr]]. split; [reflexivity|]. split.
  - simpl. rewrite length_map. exact Hb.
  - simpl. apply Forall_map. eapply Forall_impl; [|exact Hr].
    intros m Hm. apply transposeLL_rect3. exact Hm.
Qed.

(* ================================================================== *)
(** * The head split and merge of [MultiHeadAttention.forward] *)

Lemma split_heads_eval {A} (self : MultiHeadAttention.t) b n h d
      (u : tensor (data3 A)) :
  MultiHeadAttention.num_heads self = Z.of_nat h ->
  MultiHeadAttention.head_dim self = Z.of_nat d ->
  has_shape3 b n (h * d) u ->
  MultiHeadAttention.split_heads self b n u
  = Ok (Tensor [b; h; n; d]
               (map (fun m => transposeLL h (map (chunks d h) m)) (data u))).
Proof.
  intros Hh Hd Hu. unfold MultiHeadAttention.split_heads.
  rewrite Hh, Hd, (view4_heads b n h d u Hu). simpl.
  unfold transpose_1_2. simpl. rewrite map_map. reflexivity.
Qed.

Lemma split_heads_shape {A} b n h d (u : tensor (data3 A)) :
  has_shape3 b n (h * d) u ->
  has_shape4 b h n d
    (Tensor [b; h; n; d]
            (map (fun m => transposeLL h (map (chunks d h) m)) (data u))).
Proof.
  intros [Hs Hr].
  pose proof (transpose_1_2_shape b n h d
                (Tensor [b; n; h; d] (map (map (chunks d h)) (data u)))) as H.
  simpl in H. rewrite map_map in H. apply H.
  split; [reflexivity | apply heads_rect; exact Hr].
Qed.

Lemma merge_heads_eval {A} (self : MultiHeadAttention.t) b n h d
      (u : tensor (data4 A)) :
  MultiHeadAttention.d_out self = Z.of_nat (h * d) ->
  has_shape4 b h n d u ->
  MultiHeadAttention.merge_heads self b n u
  = Ok (Tensor [b; n; (h * d)%nat]
               (map (fun m => map (@concat A) (transposeLL n m)) (data u))).
Proof.
  intros Hd Hu. unfold MultiHeadAttention.merge_heads.
  rewrite (transpose_1_2_eval _ _ _ _ _ Hu). simpl.
  rewrite Hd, (view3_heads b n h d _ (transpose_1_2_shape _ _ _ _ _ Hu)). simpl.
  rewrite map_map. reflexivity.
Qed.

(** C3. Splitting a tensor of shape [[batch, sequence_length, d_out]] into
    heads as [forward] does (view to [[batch, sequence_length, num_heads,
    head_dim]], transpose the head and sequence axes) and merging it back
    (transpose back, flatten the heads into [d_out]) with no attention in
    between returns the tensor itself, element for element. *)
Theorem split_merge_roundtrip {A} (self : MultiHeadAttention.t) (b n : nat)
        (u : tensor (data3 A)) :
  (0 <= MultiHeadAttention.num_heads self)%Z ->
  (0 <= MultiHeadAttention.head_dim self)%Z ->
  MultiHeadAttention.d_out self
  = (MultiHeadAttention.num_heads self * MultiHeadAttention.head_dim self)%Z ->
  has_shape3 b n (Z.to_nat (MultiHeadAttention.d_out self)) u ->
  (v <- MultiHeadAttention.split_heads self b n u ;;
   MultiHeadAttention.merge_heads self b n v) = Ok u.
Proof.
  intros Hh Hd Ho Hu.
  set (h := Z.to_nat (MultiHeadAttention.num_heads self)).
  set (d := Z.to_nat (MultiHeadAttention.head_dim self)).
  assert (Eh : MultiHeadAttention.num_heads self = Z.of_nat h)
    by (subst h; rewrite Z2Nat.id; auto).
  assert (Ed : MultiHeadAttention.head_dim self = Z.of_nat d)
    by (subst d; rewrite Z2Nat.id; auto).
  assert (Eo : MultiHeadAttention.d_out self = Z.of_nat (h * d))
    by (rewrite Ho, Eh, Ed; lia).
  rewrite Eo, Nat2Z.id in Hu.
  rewrite (split_heads_eval self b n h d u Eh Ed Hu). simpl.
  rewrite (merge_heads_eval self b n h d _ Eo (split_heads_shape b n h d u Hu)). simpl.
  destruct Hu as [Hs [Hb Hr]]. destruct u as [su du]. simpl in *. subst su.
  f_equal. f_equal.
  rewrite map_map.
  apply map_id_Forall with (P := rect2 n (h * d)); [|exact Hr].
  intros m [Hn Hm].
  assert (Hc : rect2 n h (map (chunks d h) m)).
  { split; [rewrite length_map; exact Hn|].
    apply Forall_map. eapply Forall_impl; [|exact Hm].
    intros r _. apply chunks_length. }
  rewrite (transposeLL_involutive _ _ _ Hc), map_map.
  apply map_id_Forall with (P := rect1 (h * d)); [|exact Hm].
  intros r Hr'. apply concat_chunks. exact Hr'.
Qed.

(* ================================================================== *)
(** * Facts about sums and softmax *)

Lemma Rsum_app u v : Rsum (u ++ v) = Rsum u + Rsum v.
Proof. induction u as [|a u IH]; simpl; [lra | rewrite IH; lra]. Qed.

Lemma Rsum_repeat_0 k : Rsum (repeat 0 k) = 0.
Proof. induction k as [|k IH]; simpl; [reflexivity | rewrite IH; lra]. Qed.

Lemma Rsum_map_div s l : Rsum (map (fun a => a / s) l) = Rsum l / s.
Proof.
  induction l as [|a l IH]; simpl; [unfold Rdiv; lra | rewrite IH].
  unfold Rdiv. lra.
Qed.

Lemma Rsum_nonneg l : Forall (fun a => 0 <= a) l -> 0 <= Rsum l.
Proof. induction 1 as [|a l Ha Hl IH]; simpl; lra. Qed.

Lemma Rsum_ge_each l :
  Forall (fun a => 0 <= a) l -> Forall (fun a => a <= Rsum l) l.
Proof.
  induction 1 as [|a l Ha Hl IH]; simpl; constructor.
  - pose proof (Rsum_nonneg _ Hl). lra.
  - eapply Forall_impl; [|exact IH]. simpl. intros; lra.
Qed.

Lemma eexp_nonneg c e : 0 <= eexp c e.
Proof. destruct e; simpl; [left; apply exp_pos | lra]. Qed.

Lemma eexp_row_nonneg c l : Forall (fun a => 0 <= a) (map (eexp c) l).
Proof. apply Forall_map, Forall_forall. intros e _. apply eexp_nonneg. Qed.

(** A row with a finite score has a positive sum of exponentials. *)
Lemma eexp_row_pos c l :
  Exists (fun e => e <> NegInf) l -> 0 < Rsum (map (eexp c) l).
Proof.
  induction 1 as [e l He | e l Hl IH]; simpl.
  - pose proof (Rsum_nonneg _ (eexp_row_nonneg c l)).
    destruct e as [x|]; [|congruence]. simpl. pose proof (exp_pos (x - c)). lra.
  - pose proof (eexp_nonneg c e). lra.
Qed.

Lemma softmax_row_length l : length (softmax_row l) = length l.
Proof. unfold softmax_row. now rewrite !length_map. Qed.

Lemma softmax_row_sum l :
  Exists (fun e => e <> NegInf) l -> Rsum (softmax_row l) = 1.
Proof.
  intros H. unfold softmax_row.
  set (c := match row_max l with Fin m => m | NegInf => 0 end).
  rewrite Rsum_map_div. pose proof (eexp_row_pos c _ H). field. lra.
Qed.

Lemma softmax_row_range l :
  Exists (fun e => e <> NegInf) l ->
  Forall (fun v => 0 <= v <= 1) (softmax_row l).
Proof.
  intros H. unfold softmax_row.
  set (c := match row_max l with Fin m => m | NegInf => 0 end).
  pose proof (eexp_row_pos c _ H) as Hpos.
  apply Forall_map.
  pose proof (eexp_row_nonneg c l) as Hn.
  pose proof (Rsum_ge_each _ Hn) as Hle.
  rewrite Forall_forall in *. intros a Ha.
  specialize (Hn a Ha). specialize (Hle a Ha). simpl in Hle. split.
  - apply Rmult_le_pos; [exact Hn | left; apply Rinv_0_lt_compat; exact Hpos].
  - apply Rmult_le_reg_r with (r := Rsum (map (eexp c) l)); [exact Hpos|].
    unfold Rdiv. rewrite Rmult_assoc, Rinv_l by lra. lra.
Qed.

Lemma row_max_app_neginf l k : row_max (l ++ repeat NegInf k) = row_max l.
Proof.
  unfold row_max. induction l as [|e l IH]; simpl.
  - induction k as [|k IHk]; simpl; auto.
  - rewrite IH. reflexivity.
Qed.

(** Masked scores at the end of a row get weight 0 and do not change the
    other weights. *)
Lemma softmax_row_app_neginf l k :
  softmax_row (l ++ repeat NegInf k) = softmax_row l ++ repeat 0 k.
Proof.
  unfold softmax_row. rewrite row_max_app_neginf.
  set (c := match row_max l with Fin m => m | NegInf => 0 end).
  rewrite !map_app.
  replace (map (eexp c) (repeat NegInf k)) with (repeat 0 k)
    by (induction k as [|k IH]; simpl; congruence).
  rewrite Rsum_app, Rsum_repeat_0, Rplus_0_r. f_equal.
  induction k as [|k IH]; simpl; [reflexivity|].
  rewrite IH. f_equal. unfold Rdiv. lra.
Qed.

Lemma ediv_row_app s l k :
  map (ediv s) (l ++ repeat NegInf k) = map (ediv s) l ++ repeat NegInf k.
Proof.
  rewrite map_app. f_equal. induction k as [|k IH]; simpl; congruence.
Qed.

(* ================================================================== *)
(** * Facts about elementwise operations *)

Lemma map2_length {A B C} (f : A -> B -> C) u v :
  length (map2 f u v) = Nat.min (length u) (length v).
Proof. unfold map2. now rewrite length_map, length_combine. Qed.

Lemma map2_cons {A B C} (f : A -> B -> C) a u b v :
  map2 f (a :: u) (b :: v) = f a b :: map2 f u v.
Proof. reflexivity. Qed.

Lemma map2_nil_r {A B C} (f : A -> B -> C) u : map2 f u [] = [].
Proof. destruct u; reflexivity. Qed.

Lemma map2_map_same {A B C D} (F : B -> C -> D) (f : A -> B) (g : A -> C) l :
  map2 F (map f l) (map g l) = map (fun x => F (f x) (g x)) l.
Proof.
  induction l as [|a l IH]; [reflexivity|].
  simpl map. rewrite map2_cons, IH. reflexivity.
Qed.

Lemma map2_map_r {A B C D} (F : A -> C -> D) (g : B -> C) u v :
  map2 F u (map g v) = map2 (fun a b => F a (g b)) u v.
Proof.
  revert v; induction u as [|a u IH]; intros [|b v]; try reflexivity.
  simpl map. rewrite !map2_cons, IH. reflexivity.
Qed.

Lemma map_map2 {A B C D} (g : C -> D) (F : A -> B -> C) u v :
  map g (map2 F u v) = map2 (fun a b => g (F a b)) u v.
Proof. unfold map2. rewrite map_map. reflexivity. Qed.

Lemma map2_firstn {A B C} (F : A -> B -> C) j u v :
  firstn j (map2 F u v) = map2 F (firstn j u) (firstn j v).
Proof.
  unfold map2. rewrite firstn_map. f_equal.
  revert u v; induction j as [|j IH]; intros [|a u] [|b v]; simpl; auto.
  now rewrite IH.
Qed.

Lemma Forall2_same_length_Forall {A B} (P : A -> Prop) (Q : B -> Prop) u v :
  length u = length v -> Forall P u -> Forall Q v ->
  Forall2 (fun a b => P a /\ Q b) u v.
Proof.
  revert v; induction u as [|a u IH]; intros [|b v] Hl Hu Hv;
    try discriminate; constructor.
  - inversion Hu; inversion Hv; subst; auto.
  - inversion Hu; inversion Hv; subst. apply IH; auto.
Qed.

Lemma Forall2_impl {A B} (P Q : A -> B -> Prop) u v :
  (forall a b, P a b -> Q a b) -> Forall2 P u v -> Forall2 Q u v.
Proof. intros H. induction 1; constructor; auto. Qed.

Lemma map2_Forall {A B C} (F : A -> B -> C) (P : C -> Prop) u v :
  Forall2 (fun a b => P (F a b)) u v -> Forall P (map2 F u v).
Proof.
  induction 1 as [|a b u v H Hl IH]; [constructor|].
  rewrite map2_cons. constructor; auto.
Qed.

Lemma tabulate_length {A} n (f : nat -> A) : length (tabulate n f) = n.
Proof. unfold tabulate. now rewrite length_map, length_seq. Qed.

Lemma firstn_seq_min j s n : firstn j (seq s n) = seq s (Nat.min j n).
Proof.
  revert s n; induction j as [|j IH]; intros s [|n]; simpl; auto.
  now rewrite IH.
Qed.

Lemma firstn_tabulate {A} j n (f : nat -> A) :
  firstn j (tabulate n f) = tabulate (Nat.min j n) f.
Proof. unfold tabulate. now rewrite firstn_map, firstn_seq_min. Qed.

Lemma mapi_repeat {A B} (f : nat -> A -> B) a n :
  mapi f (repeat a n) = tabulate n (fun i => f i a).
Proof.
  unfold mapi, map2, tabulate. rewrite repeat_length.
  generalize 0%nat as s. induction n as [|n IH]; intros s; simpl; [reflexivity|].
  now rewrite IH.
Qed.

(** Pairing with a table is indexing. *)
Lemma map2_tabulate {A B C} (F : A -> B -> C) (g : nat -> A) n l :
  length l = n -> map2 F (tabulate n g) l = mapi (fun i b => F (g i) b) l.
Proof.
  intros Hl. unfold mapi, tabulate. rewrite Hl. unfold map2.
  generalize 0%nat as s. revert n Hl.
  induction l as [|b l IH]; intros n Hl s; subst n; simpl; [reflexivity|].
  now rewrite IH.
Qed.

Lemma mapi_ext_in {A B} (f g : nat -> A -> B) l :
  (forall i a, nth_error l i = Some a -> f i a = g i a) -> mapi f l = mapi g l.
Proof.
  unfold mapi, map2.
  assert (G : forall s, (forall i a, nth_error l i = Some a ->
                                     f (s + i)%nat a = g (s + i)%nat a) ->
            map (fun p => f (fst p) (snd p)) (combine (seq s (length l)) l)
            = map (fun p => g (fst p) (snd p)) (combine (seq s (length l)) l)).
  { induction l as [|a l IH]; intros s Hs; simpl; [reflexivity|].
    f_equal.
    - specialize (Hs 0%nat a eq_refl). now rewrite Nat.add_0_r in Hs.
    - apply IH. intros i b Hi. specialize (Hs (S i) b Hi).
      now rewrite Nat.add_succ_r in Hs. }
  intros H. apply (G 0%nat). intros i a. apply H.
Qed.

Lemma nth_error_mapi {A B} (f : nat -> A -> B) l i :
  nth_error (mapi f l) i = option_map (f i) (nth_error l i).
Proof.
  unfold mapi, map2.
  assert (G : forall s,
            nth_error (map (fun p => f (fst p) (snd p))
                           (combine (seq s (length l)) l)) i
            = option_map (f (s + i)%nat) (nth_error l i)).
  { revert i. induction l as [|a l IH]; intros i s.
    - destruct i; reflexivity.
    - destruct i; simpl.
      + now rewrite Nat.add_0_r.
      + rewrite IH. now rewrite Nat.add_succ_r. }
  apply (G 0%nat).
Qed.

(* ================================================================== *)
(** * The registered mask *)

Lemma map_tabulate {A B} (g : A -> B) n (f : nat -> A) :
  map g (tabulate n f) = tabulate n (fun i => g (f i)).
Proof. unfold tabulate. now rewrite map_map. Qed.

Lemma tabulate_ext {A} n (f g : nat -> A) :
  (forall i, (i < n)%nat -> f i = g i) -> tabulate n f = tabulate n g.
Proof.
  intros H. unfold tabulate. apply map_ext_in. intros i Hi.
  apply in_seq in Hi. apply H. lia.
Qed.

Lemma triu_ones_bool ctx :
  to_bool (triu 1 (Tensor [ctx; ctx] (repeat (repeat 1%Z ctx) ctx)))
  = Tensor [ctx; ctx] (causal_mask ctx).
Proof.
  unfold to_bool, tmap2, triu, causal_mask. simpl.
  apply (f_equal (Tensor [ctx; ctx])).
  rewrite mapi_repeat, map_tabulate. apply tabulate_ext. intros i _.
  rewrite mapi_repeat, map_tabulate. apply tabulate_ext. intros j _.
  destruct (Nat.ltb_spec i j) as [H | H].
  - replace (1 <=? Z.of_nat j - Z.of_nat i)%Z with true
      by (symmetry; apply Z.leb_le; lia).
    reflexivity.
  - replace (1 <=? Z.of_nat j - Z.of_nat i)%Z with false
      by (symmetry; apply Z.leb_gt; lia).
    reflexivity.
Qed.

Lemma causal_mask_firstn ctx n :
  (n <= ctx)%nat -> map (firstn n) (firstn n (causal_mask ctx)) = causal_mask n.
Proof.
  intros H. unfold causal_mask.
  rewrite firstn_tabulate, map_tabulate, Nat.min_l by exact H.
  apply tabulate_ext. intros i _. rewrite firstn_tabulate, Nat.min_l by exact H.
  reflexivity.
Qed.

Lemma causal_mask_rect n : rect2 n n (causal_mask n).
Proof.
  unfold causal_mask. split; [apply tabulate_length|].
  unfold tabulate. apply Forall_map, Forall_forall. intros i _.
  apply tabulate_length.
Qed.

Lemma stretch_same {A} n (l : list A) : length l = n -> stretch n l = l.
Proof. intros H. unfold stretch. rewrite H, Nat.eqb_refl. reflexivity. Qed.

(** For [num_tokens <= context_length] the sliced mask has the size of
    the scores and expands to itself. *)
Lemma mask_expand ctx n :
  (n <= ctx)%nat ->
  expand2 n n (slice2 n n (to_bool (triu 1 (Tensor [ctx; ctx]
                                                  (repeat (repeat 1%Z ctx) ctx)))))
  = Ok (causal_mask n).
Proof.
  intros H. rewrite triu_ones_bool. unfold slice2, expand2. simpl.
  rewrite !Nat.min_l, Nat.eqb_refl by exact H. simpl.
  rewrite causal_mask_firstn by exact H.
  destruct (causal_mask_rect n) as [Hn Hr].
  rewrite (map_id_Forall (stretch n) (rect1 n)); auto using stretch_same.
  rewrite stretch_same; auto.
Qed.

(* ================================================================== *)
(** * Facts about the layers *)

Lemma mm_rect n m (a b : data2 R) :
  length a = n -> length (transposeLL m b) = m -> rect2 n m (mm m a b).
Proof.
  intros Ha Hb. unfold mm. split.
  - rewrite length_map. exact Ha.
  - apply Forall_map, Forall_forall. intros r _. unfold rect1.
    rewrite length_map. exact Hb.
Qed.

Lemma linear_rows_rect d_in d_out n (l : Linear) (X : data2 R) :
  Linear_wf d_in d_out l -> length X = n -> rect2 n d_out (linear_rows l X).
Proof.
  intros [Hi Ho Hw Hb] HX. unfold linear_rows. rewrite Hi, Ho.
  assert (Hm : rect2 n d_out (mm d_out X (transposeLL d_in (weight l)))).
  { apply mm_rect; [exact HX|].
    pose proof (transposeLL_rect _ _ _ Hw) as Ht.
    apply (transposeLL_rect _ _ _ Ht). }
  destruct (bias l) as [bv|]; [|exact Hm].
  destruct Hm as [Hn Hr]. split.
  - rewrite length_map. exact Hn.
  - apply Forall_map. eapply Forall_impl; [|exact Hr].
    intros r Hr'. unfold rect1 in *. rewrite map2_length, Hr', Hb.
    apply Nat.min_id.
Qed.

Lemma linear_rows_firstn j (l : Linear) (X : data2 R) :
  linear_rows l (firstn j X) = firstn j (linear_rows l X).
Proof.
  unfold linear_rows, mm. destruct (bias l); rewrite ?firstn_map; reflexivity.
Qed.

Lemma Linear_forward_eval b n d (l : Linear) (x : tensor (data3 R)) :
  shape x = [b; n; d] -> in_features l = d ->
  Linear_forward l x = Ok (Tensor [b; n; out_features l]
                                  (map (linear_rows l) (data x))).
Proof.
  intros Hs Hi. unfold Linear_forward. rewrite Hs, Hi, Nat.eqb_refl. reflexivity.
Qed.

Lemma Linear_forward_shape b n d_in d_out (l : Linear) (x : tensor (data3 R)) :
  Linear_wf d_in d_out l -> has_shape3 b n d_in x ->
  has_shape3 b n d_out
    (Tensor [b; n; out_features l] (map (linear_rows l) (data x))).
Proof.
  intros Hl [Hs [Hb Hr]]. split; [simpl; now rewrite (wf_out_features Hl)|].
  simpl. split; [rewrite length_map; exact Hb|].
  apply Forall_map. eapply Forall_impl; [|exact Hr].
  intros m [Hn _]. eapply linear_rows_rect; eassumption.
Qed.

Lemma transpose_2_3_eval {A} b h n d (t : tensor (data4 A)) :
  shape t = [b; h; n; d] ->
  transpose_2_3 t = Ok (Tensor [b; h; d; n] (map (map (transposeLL d)) (data t))).
Proof. intros Hs. unfold transpose_2_3. rewrite Hs. reflexivity. Qed.

Lemma matmul4_eval b h n k m (u v : tensor (data4 R)) :
  shape u = [b; h; n; k] -> shape v = [b; h; k; m] ->
  matmul4 u v = Ok (Tensor [b; h; n; m] (map2 (map2 (mm m)) (data u) (data v))).
Proof.
  intros Hu Hv. unfold matmul4. rewrite Hu, Hv, !Nat.eqb_refl. reflexivity.
Qed.

Lemma heads_rect3 {A} n h d (m : data2 A) :
  rect2 n (h * d) m -> rect3 h n d (heads h d m).
Proof.
  intros [Hn Hm]. unfold heads. apply transposeLL_rect3. split.
  - rewrite length_map. exact Hn.
  - apply Forall_map. eapply Forall_impl; [|exact Hm].
    intros r Hr. split; [apply chunks_length | apply chunks_rect1; exact Hr].
Qed.

Section AttentionWeights.
Import MultiHeadAttention.
Variables (self : MultiHeadAttention.t) (d_in ctx : nat).
Hypothesis Hwf : wf d_in ctx self.

Let h := Z.to_nat (num_heads self).
Let d := Z.to_nat (head_dim self).

Lemma wf_num_heads_nat : num_heads self = Z.of_nat h.
Proof. subst h. pose proof (wf_num_heads Hwf). rewrite Z2Nat.id; lia. Qed.

Lemma wf_head_dim_nat : head_dim self = Z.of_nat d.
Proof. subst d. pose proof (wf_head_dim Hwf). rewrite Z2Nat.id; lia. Qed.

Lemma wf_d_out_nat : d_out self = Z.of_nat (h * d).
Proof.
  rewrite (wf_d_out Hwf), wf_num_heads_nat, wf_head_dim_nat. lia.
Qed.

Lemma wf_d_out_to_nat : Z.to_nat (d_out self) = (h * d)%nat.
Proof. rewrite wf_d_out_nat. apply Nat2Z.id. Qed.

(** Lines 55-82 succeed for every input of at most [context_length]
    tokens, and compute [batch_values] and [batch_weights] for every batch
    element. *)
Lemma attn_weights_eval b n (x : tensor (data3 R)) :
  has_shape3 b n d_in x -> (n <= ctx)%nat ->
  attn_weights self x
  = Ok (Tensor [b; h; n; d] (map (batch_values self) (data x)),
        Tensor [b; h; n; n] (map (batch_weights self n) (data x))).
Proof.
  intros Hx Hn. pose proof Hx as [Hs _]. unfold attn_weights. rewrite Hs.
  pose proof (wf_W_query Hwf) as Wq. pose proof (wf_W_key Hwf) as Wk.
  pose proof (wf_W_value Hwf) as Wv.
  rewrite wf_d_out_to_nat in Wq, Wk, Wv.
  rewrite (Linear_forward_eval b n d_in _ x Hs (wf_in_features Wq)),
          (Linear_forward_eval b n d_in _ x Hs (wf_in_features Wk)),
          (Linear_forward_eval b n d_in _ x Hs (wf_in_features Wv)).
  cbn [rbind].
  rewrite (split_heads_eval self b n h d _ wf_num_heads_nat wf_head_dim_nat
                            (Linear_forward_shape b n d_in _ _ x Wq Hx)),
          (split_heads_eval self b n h d _ wf_num_heads_nat wf_head_dim_nat
                            (Linear_forward_shape b n d_in _ _ x Wk Hx)),
          (split_heads_eval self b n h d _ wf_num_heads_nat wf_head_dim_nat
                            (Linear_forward_shape b n d_in _ _ x Wv Hx)).
  cbn [rbind data shape].
  erewrite (transpose_2_3_eval b h n d) by reflexivity. cbn [rbind data shape].
  erewrite (matmul4_eval b h n d n) by reflexivity. cbn [rbind data shape].
  unfold mask_then_scale, masked_fill_. cbn [shape data].
  rewrite (wf_mask Hwf), (mask_expand ctx n Hn). cbn [rbind].
  unfold softmax4, tmap4. cbn [shape data last].
  apply f_equal. apply f_equal2; apply (f_equal (Tensor _)).
  - rewrite map_map. reflexivity.
  - unfold batch_weights. fold h. fold d.
    rewrite !map_map, map2_map_same, !map_map.
    apply map_ext. intros X. unfold heads, head_weights.
    rewrite map2_map_r, !map_map2. reflexivity.
Qed.

End AttentionWeights.

(* ================================================================== *)
(** * Masked rows *)

Lemma mapi_cons {A B} (f : nat -> A -> B) a l :
  mapi f (a :: l) = f 0%nat a :: mapi (fun i => f (S i)) l.
Proof.
  unfold mapi. simpl length. simpl seq. rewrite map2_cons. f_equal.
  rewrite <- seq_shift. unfold map2.
  generalize (seq 0 (length l)) as s. revert l.
  induction l as [|b l IH]; intros [|i s]; simpl; auto.
  now rewrite IH.
Qed.

Lemma mapi_const {A B} (c : B) (l : list A) :
  mapi (fun _ _ => c) l = repeat c (length l).
Proof.
  induction l as [|a l IH]; [reflexivity|].
  rewrite mapi_cons, IH. reflexivity.
Qed.

(** Row [i] after masking: the scores up to position [i], then minus
    infinity. *)
Lemma masked_row i (row : list R) :
  (i < length row)%nat ->
  mapi (fun j x => fill (i <? j)%nat x) row
  = map Fin (firstn (S i) row) ++ repeat NegInf (length row - S i).
Proof.
  revert i. induction row as [|x row IH]; intros i Hi; simpl in Hi; [lia|].
  rewrite mapi_cons. destruct i as [|i].
  - simpl. rewrite Nat.sub_0_r. f_equal. apply (mapi_const NegInf).
  - change (fill (S i <? 0)%nat x) with (Fin x).
    rewrite (mapi_ext_in _ (fun j x => fill (i <? j)%nat x))
      by (intros; reflexivity).
    rewrite IH by lia. reflexivity.
Qed.

Lemma masked_rows n (S : data2 R) :
  rect2 n n S ->
  map2 (map2 fill) (causal_mask n) S
  = mapi (fun i row =>
            map Fin (firstn (Datatypes.S i) row)
            ++ repeat NegInf (n - Datatypes.S i)) S.
Proof.
  intros [Hn Hr]. unfold causal_mask.
  rewrite map2_tabulate by exact Hn.
  apply mapi_ext_in. intros i row Hi.
  assert (Hl : length row = n).
  { rewrite Forall_forall in Hr. apply Hr. eapply nth_error_In; eauto. }
  assert (Hlt : (i < n)%nat).
  { rewrite <- Hn. apply nth_error_Some. congruence. }
  rewrite map2_tabulate by exact Hl.
  rewrite masked_row by lia. now rewrite Hl.
Qed.

Lemma nth_app_repeat_0 (u : list R) k j :
  (length u <= j)%nat -> nth j (u ++ repeat 0 k) 0 = 0.
Proof.
  intros H. rewrite app_nth2 by exact H.
  destruct (Nat.lt_ge_cases (j - length u) k) as [Hlt | Hge].
  - apply nth_repeat_lt. exact Hlt.
  - apply nth_overflow. rewrite repeat_length. exact Hge.
Qed.

(** Masking followed by scaling and softmax gives a causal row-stochastic
    matrix. *)
Lemma masked_softmax_stochastic s n (S : data2 R) :
  rect2 n n S ->
  causal_row_stochastic
    (map softmax_row
         (map (map (ediv s)) (map2 (map2 fill) (causal_mask n) S))).
Proof.
  intros HS. rewrite (masked_rows n S HS). destruct HS as [Hn Hr].
  intros i row Hi.
  rewrite !nth_error_map, nth_error_mapi in Hi.
  destruct (nth_error S i) as [srow|] eqn:Es; [|discriminate].
  cbn [option_map] in Hi.
  pose proof (f_equal (fun o => match o with Some r => r | None => [] end) Hi)
    as Hrow.
  cbv beta iota in Hrow. subst row. clear Hi.
  assert (Hl : length srow = n).
  { rewrite Forall_forall in Hr. apply Hr. eapply nth_error_In; eauto. }
  assert (Hlt : (i < n)%nat).
  { rewrite <- Hn. apply nth_error_Some. congruence. }
  rewrite ediv_row_app, softmax_row_app_neginf.
  assert (Hex : Exists (fun e => e <> NegInf)
                       (map (ediv s) (map Fin (firstn (Datatypes.S i) srow)))).
  { destruct srow as [|x srow]; [simpl in Hl; lia|].
    simpl. left. discriminate. }
  split; [|split].
  - rewrite Rsum_app, Rsum_repeat_0, (softmax_row_sum _ Hex). lra.
  - apply Forall_app. split; [apply softmax_row_range; exact Hex|].
    apply Forall_forall. intros v Hv. apply repeat_spec in Hv. subst v. lra.
  - intros j Hj. apply nth_app_repeat_0.
    rewrite softmax_row_length, !length_map, length_firstn. lia.
Qed.

Lemma rect2_map2 {A B C} (F : A -> B -> C) n m (U : data2 A) (V : data2 B) :
  rect2 n m U -> rect2 n m V -> rect2 n m (map2 (map2 F) U V).
Proof.
  intros [Hu Hru] [Hv Hrv]. split.
  - rewrite map2_length, Hu, Hv. apply Nat.min_id.
  - apply map2_Forall.
    eapply Forall2_impl;
      [|apply (Forall2_same_length_Forall (rect1 m) (rect1 m)); eauto; congruence].
    intros a b [Ha Hb]. unfold rect1 in *. simpl.
    rewrite map2_length, Ha, Hb. apply Nat.min_id.
Qed.

Lemma rect2_map_map {A B} (f : A -> B) n m (U : data2 A) :
  rect2 n m U -> rect2 n m (map (map f) U).
Proof.
  intros [Hu Hr]. split; [rewrite length_map; exact Hu|].
  apply Forall_map. eapply Forall_impl; [|exact Hr].
  intros r Hr'. unfold rect1 in *. now rewrite length_map.
Qed.

Lemma rect2_softmax n m (U : data2 ext) :
  rect2 n m U -> rect2 n m (map softmax_row U).
Proof.
  intros [Hu Hr]. split; [rewrite length_map; exact Hu|].
  apply Forall_map. eapply Forall_impl; [|exact Hr].
  intros r Hr'. unfold rect1 in *. now rewrite softmax_row_length.
Qed.

(** The scores of one head: [q @ k.T] for two matrices of [n] rows. *)
Lemma head_scores_rect n d (q k : data2 R) :
  rect2 n d q -> rect2 n d k -> rect2 n n (mm n q (transposeLL d k)).
Proof.
  intros [Hq _] Hk. apply mm_rect; [exact Hq|].
  pose proof (transposeLL_rect _ _ _ Hk) as Ht.
  apply (transposeLL_rect _ _ _ Ht).
Qed.

Lemma head_scores_eq n d (q k : data2 R) :
  rect2 n d k ->
  mm n q (transposeLL d k) = map (fun r => map (dot r) k) q.
Proof.
  intros Hk. unfold mm. now rewrite (transposeLL_involutive _ _ _ Hk).
Qed.

Section BatchFacts.
Import MultiHeadAttention.
Variables (self : MultiHeadAttention.t) (d_in ctx : nat).
Hypothesis Hwf : wf d_in ctx self.

Let h := Z.to_nat (num_heads self).
Let d := Z.to_nat (head_dim self).

Lemma batch_heads_rect n (l : Linear) (X : data2 R) :
  Linear_wf d_in (h * d) l -> length X = n ->
  rect3 h n d (heads h d (linear_rows l X)).
Proof.
  intros Hl HX. apply heads_rect3. eapply linear_rows_rect; eassumption.
Qed.

Lemma wf_query_nat : Linear_wf d_in (h * d) (W_query self).
Proof.
  pose proof (wf_d_out_to_nat self d_in ctx Hwf) as E. cbv zeta in E.
  unfold h, d. rewrite <- E. apply (wf_W_query Hwf).
Qed.

Lemma wf_key_nat : Linear_wf d_in (h * d) (W_key self).
Proof.
  pose proof (wf_d_out_to_nat self d_in ctx Hwf) as E. cbv zeta in E.
  unfold h, d. rewrite <- E. apply (wf_W_key Hwf).
Qed.

Lemma wf_value_nat : Linear_wf d_in (h * d) (W_value self).
Proof.
  pose proof (wf_d_out_to_nat self d_in ctx Hwf) as E. cbv zeta in E.
  unfold h, d. rewrite <- E. apply (wf_W_value Hwf).
Qed.

Lemma wf_out_nat : Linear_wf (h * d) (h * d) (out_proj self).
Proof.
  pose proof (wf_d_out_to_nat self d_in ctx Hwf) as E. cbv zeta in E.
  unfold h, d. rewrite <- E. apply (wf_out_proj Hwf).
Qed.

(** Every head of every batch element satisfies a property of its query
    and key matrices. *)
Lemma batch_weights_Forall n (X : data2 R) (P : data2 R -> Prop) :
  length X = n ->
  (forall q k, rect2 n d q -> rect2 n d k ->
     P (head_weights (sqrt (INR d)) n d q k)) ->
  Forall P (batch_weights self n X).
Proof.
  intros HX HP. unfold batch_weights. fold h. fold d.
  destruct (batch_heads_rect n _ X wf_query_nat HX) as [Hq Hrq].
  destruct (batch_heads_rect n _ X wf_key_nat HX) as [Hk Hrk].
  apply map2_Forall.
  eapply Forall2_impl;
    [|apply (Forall2_same_length_Forall (rect2 n d) (rect2 n d));
      eauto; congruence].
  intros q k [Hq' Hk']. apply HP; assumption.
Qed.

Lemma batch_weights_rect n (X : data2 R) :
  length X = n -> rect3 h n n (batch_weights self n X).
Proof.
  intros HX. split.
  - destruct (batch_heads_rect n _ X wf_query_nat HX) as [Hq _].
    destruct (batch_heads_rect n _ X wf_key_nat HX) as [Hk _].
    unfold batch_weights. cbv zeta. unfold h, d, data2, data3 in *.
    rewrite map2_length, Hq, Hk. apply Nat.min_id.
  - apply batch_weights_Forall; [exact HX|]. intros q k Hq Hk.
    unfold head_weights. apply rect2_softmax, rect2_map_map, rect2_map2.
    + apply causal_mask_rect.
    + eapply head_scores_rect; eassumption.
Qed.

Lemma batch_values_rect n (X : data2 R) :
  length X = n -> rect3 h n d (batch_values self X).
Proof. intros HX. apply (batch_heads_rect n _ X wf_value_nat HX). Qed.

End BatchFacts.

(* ================================================================== *)
(** * C1: the attention weights *)

(** C1. For every input of [sequence_length <= context_length], lines
    55-82 of [MultiHeadAttention.forward] produce an attention-weight
    tensor of shape [[batch, num_heads, sequence_length, sequence_length]]
    in which every row sums to 1, every entry lies in [[0, 1]] and every
    entry at (row i, column j) with [j > i] is exactly 0.  (Real-number
    arithmetic: the sum is exactly 1.) *)
Theorem attention_weights_row_stochastic
        (self : MultiHeadAttention.t) (d_in ctx b n : nat)
        (x : tensor (data3 R)) :
  MultiHeadAttention.wf d_in ctx self ->
  has_shape3 b n d_in x ->
  (n <= ctx)%nat ->
  exists values w,
    MultiHeadAttention.attn_weights self x = Ok (values, w) /\
    has_shape4 b (Z.to_nat (MultiHeadAttention.num_heads self)) n n w /\
    Forall (Forall causal_row_stochastic) (data w).
Proof.
  intros Hwf Hx Hn.
  eexists. eexists. split; [apply (attn_weights_eval self d_in ctx Hwf b n x Hx Hn)|].
  destruct Hx as [Hs [Hb Hr]]. split.
  - split; [reflexivity|]. simpl. split; [rewrite length_map; exact Hb|].
    apply Forall_map. eapply Forall_impl; [|exact Hr].
    intros X [HX _]. apply (batch_weights_rect self d_in ctx Hwf n X HX).
  - simpl. apply Forall_map. eapply Forall_impl; [|exact Hr].
    intros X [HX _].
    apply (batch_weights_Forall self d_in ctx Hwf n X _ HX).
    intros q k Hq Hk. unfold head_weights. apply masked_softmax_stochastic.
    eapply head_scores_rect; eassumption.
Qed.

(* ================================================================== *)
(** * Dropout *)

Lemma dropout_flat_disabled (dr : Dropout) (xs : list R) (g : rng) :
  dropout_disabled dr = true -> dropout_flat dr xs g = (Ok xs, g).
Proof.
  unfold dropout_disabled, dropout_flat. intros H. rewrite H. reflexivity.
Qed.

(** Dropout always returns, with as many elements as it was given. *)
Lemma dropout_flat_total (dr : Dropout) (xs : list R) (g : rng) :
  exists ys g', dropout_flat dr xs g = (Ok ys, g') /\ length ys = length xs.
Proof.
  unfold dropout_flat.
  destruct (negb (drop_training dr) || Qeq_bool (p dr) 0
            || (length xs =? 0)%nat)%bool.
  - eauto.
  - destruct (Qeq_bool (p dr) 1).
    + eexists. eexists. split; [reflexivity|]. apply length_map.
    + eexists. eexists. split; [reflexivity|].
      rewrite map2_length, tabulate_length. apply Nat.min_id.
Qed.

Lemma Dropout_forward3_total (dr : Dropout) b n d (x : tensor (data3 R)) g :
  has_shape3 b n d x ->
  exists y g', Dropout_forward3 dr x g = (Ok y, g') /\ has_shape3 b n d y.
Proof.
  intros [Hs Hr]. unfold Dropout_forward3, bind, ret. rewrite Hs.
  destruct (dropout_flat_total dr (flatten3 (data x)) g) as (ys & g' & E & L).
  rewrite E. eexists. eexists. split; [reflexivity|].
  split; [reflexivity|]. simpl. apply group3_rect.
  rewrite L. apply flatten3_length. exact Hr.
Qed.

Lemma Dropout_forward4_total (dr : Dropout) b h n d (x : tensor (data4 R)) g :
  has_shape4 b h n d x ->
  exists y g', Dropout_forward4 dr x g = (Ok y, g') /\ has_shape4 b h n d y.
Proof.
  intros [Hs Hr]. unfold Dropout_forward4, bind, ret. rewrite Hs.
  destruct (dropout_flat_total dr (flatten4 (data x)) g) as (ys & g' & E & L).
  rewrite E. eexists. eexists. split; [reflexivity|].
  split; [reflexivity|]. simpl. apply group4_rect.
  rewrite L. apply flatten4_length. exact Hr.
Qed.

Lemma Dropout_forward4_disabled (dr : Dropout) b h n d (x : tensor (data4 R)) g :
  dropout_disabled dr = true -> has_shape4 b h n d x ->
  Dropout_forward4 dr x g = (Ok x, g).
Proof.
  intros Hd [Hs Hr]. unfold Dropout_forward4, bind, ret. rewrite Hs.
  rewrite dropout_flat_disabled by exact Hd.
  rewrite group4_flatten4 by exact Hr. destruct x; simpl in *. subst. reflexivity.
Qed.

(* ================================================================== *)
(** * The second half of [MultiHeadAttention.forward] *)

Lemma map2_rect {A B C} (F : A -> B -> C) (P : A -> Prop) (Q : B -> Prop)
      (S : C -> Prop) n (U : list A) (V : list B) :
  length U = n -> length V = n -> Forall P U -> Forall Q V ->
  (forall a b, P a -> Q b -> S (F a b)) ->
  length (map2 F U V) = n /\ Forall S (map2 F U V).
Proof.
  intros HU HV HP HQ HF. split.
  - rewrite map2_length, HU, HV. apply Nat.min_id.
  - apply map2_Forall.
    eapply Forall2_impl;
      [|apply (Forall2_same_length_Forall P Q); eauto; congruence].
    intros a b [Ha Hb]. apply HF; assumption.
Qed.

Lemma matmul4_shape b h n k m (u v : tensor (data4 R)) :
  has_shape4 b h n k u -> has_shape4 b h k m v ->
  has_shape4 b h n m
    (Tensor [b; h; n; m] (map2 (map2 (mm m)) (data u) (data v))).
Proof.
  intros [_ [Hu Hru]] [_ [Hv Hrv]]. split; [reflexivity|]. simpl.
  apply (map2_rect _ (rect3 h n k) (rect3 h k m) (rect3 h n m) b); auto.
  intros a c [Ha Hra] [Hc Hrc].
  apply (map2_rect _ (rect2 n k) (rect2 k m) (rect2 n m) h); auto.
  intros q w [Hq _] Hw. apply mm_rect; [exact Hq|].
  apply (transposeLL_rect _ _ _ Hw).
Qed.

Lemma merge_shape b h n d (u : tensor (data4 R)) :
  has_shape4 b h n d u ->
  has_shape3 b n (h * d)
    (Tensor [b; n; (h * d)%nat]
            (map (fun m => map (@concat R) (transposeLL n m)) (data u))).
Proof.
  intros [_ [Hb Hr]]. split; [reflexivity|]. simpl.
  split; [rewrite length_map; exact Hb|].
  apply Forall_map. eapply Forall_impl; [|exact Hr].
  intros m Hm. destruct (transposeLL_rect3 _ _ _ _ Hm) as [Hn Hrows].
  split; [rewrite length_map; exact Hn|].
  apply Forall_map. eapply Forall_impl; [|exact Hrows].
  intros r [Hh Hd]. apply concat_length_rect; assumption.
Qed.

Section Forward.
Import MultiHeadAttention.
Variables (self : MultiHeadAttention.t) (d_in ctx : nat).
Hypothesis Hwf : wf d_in ctx self.

Let h := Z.to_nat (num_heads self).
Let d := Z.to_nat (head_dim self).

Lemma attn_values_shape b n (x : tensor (data3 R)) :
  has_shape3 b n d_in x ->
  has_shape4 b h n d (Tensor [b; h; n; d] (map (batch_values self) (data x))).
Proof.
  intros [_ [Hb Hr]]. split; [reflexivity|]. simpl.
  split; [rewrite length_map; exact Hb|].
  apply Forall_map. eapply Forall_impl; [|exact Hr].
  intros X [HX _]. apply (batch_values_rect self d_in ctx Hwf n X HX).
Qed.

Lemma attn_weights_shape b n (x : tensor (data3 R)) :
  has_shape3 b n d_in x ->
  has_shape4 b h n n (Tensor [b; h; n; n] (map (batch_weights self n) (data x))).
Proof.
  intros [_ [Hb Hr]]. split; [reflexivity|]. simpl.
  split; [rewrite length_map; exact Hb|].
  apply Forall_map. eapply Forall_impl; [|exact Hr].
  intros X [HX _]. apply (batch_weights_rect self d_in ctx Hwf n X HX).
Qed.

(** Lines 83-92 for attention weights [w] of the right shape. *)
Lemma forward_tail b n (w : tensor (data4 R)) (x : tensor (data3 R)) :
  has_shape3 b n d_in x -> has_shape4 b h n n w ->
  let y := Tensor [b; n; out_features (out_proj self)]
             (map (fun m => linear_rows (out_proj self)
                              (map (@concat R) (transposeLL n m)))
                  (map2 (map2 (mm d)) (data w)
                        (map (batch_values self) (data x)))) in
  (av <- matmul4 w (Tensor [b; h; n; d] (map (batch_values self) (data x))) ;;
   context_vec <- merge_heads self b n av ;;
   Linear_forward (out_proj self) context_vec) = Ok y
  /\ has_shape3 b n (h * d) y.
Proof.
  intros Hx Hw y. pose proof Hw as [Hsw _].
  pose proof (attn_values_shape b n x Hx) as Hv.
  pose proof (matmul4_shape b h n n d _ _ Hw Hv) as Hav.
  pose proof (merge_shape b h n d _ Hav) as Hm.
  pose proof (wf_out_nat self d_in ctx Hwf) as Wo. cbv zeta in Wo.
  erewrite (matmul4_eval b h n n d) by (try exact Hsw; reflexivity).
  cbn [rbind].
  rewrite (merge_heads_eval self b n h d _ (wf_d_out_nat self d_in ctx Hwf) Hav).
  cbn [rbind].
  erewrite (Linear_forward_eval b n (h * d))
    by (try reflexivity; apply (wf_in_features Wo)).
  split.
  - subst y. cbn [data]. rewrite !map_map. reflexivity.
  - pose proof (Linear_forward_shape b n _ _ _ _ Wo Hm) as Hy.
    cbn [data] in Hy. rewrite map_map in Hy. subst y. exact Hy.
Qed.

(** [forward] returns for every input of at most [context_length] tokens,
    whatever the dropout draws, and its output has [d_out] features. *)
Lemma forward_total b n (x : tensor (data3 R)) (g : rng) :
  has_shape3 b n d_in x -> (n <= ctx)%nat ->
  exists y g', forward self x g = (Ok y, g') /\ has_shape3 b n (h * d) y.
Proof.
  intros Hx Hn. pose proof Hx as [Hs _]. unfold forward. rewrite Hs.
  unfold bind, lift, ret.
  rewrite (attn_weights_eval self d_in ctx Hwf b n x Hx Hn). cbn [fst snd].
  destruct (Dropout_forward4_total (dropout self) b h n n _ g
              (attn_weights_shape b n x Hx)) as (w & g' & E & Hw).
  destruct (forward_tail b n w x Hx Hw) as [Et Hy].
  unfold h, d in *. rewrite E.
  unfold rbind in Et.
  destruct (matmul4 w _) as [av|]; [|discriminate].
  destruct (merge_heads self b n av) as [cv|]; [|discriminate].
  rewrite Et. eexists. eexists. split; [reflexivity | exact Hy].
Qed.

(** With dropout disabled, [forward] computes [batch_forward] for every
    batch element and draws nothing. *)
Lemma forward_disabled b n (x : tensor (data3 R)) (g : rng) :
  dropout_disabled (dropout self) = true ->
  has_shape3 b n d_in x -> (n <= ctx)%nat ->
  forward self x g
  = (Ok (Tensor [b; n; (h * d)%nat] (map (batch_forward self n) (data x))), g).
Proof.
  intros Hd Hx Hn. pose proof Hx as [Hs _]. unfold forward. rewrite Hs.
  unfold bind, lift, ret.
  rewrite (attn_weights_eval self d_in ctx Hwf b n x Hx Hn). cbn [fst snd].
  pose proof (attn_weights_shape b n x Hx) as Hw.
  destruct (forward_tail b n _ x Hx Hw) as [Et _].
  pose proof (Dropout_forward4_disabled _ b h n n _ g Hd Hw) as E.
  unfold h, d in *. rewrite E.
  unfold rbind in Et.
  destruct (matmul4 _ _) as [av|]; [|discriminate].
  destruct (merge_heads self b n av) as [cv|]; [|discriminate].
  rewrite Et. f_equal. f_equal.
  pose proof (wf_out_nat self d_in ctx Hwf) as Wo.
  rewrite (wf_out_features Wo). apply (f_equal (Tensor _)).
  cbn [data]. rewrite map2_map_same, map_map. reflexivity.
Qed.

End Forward.

(* ================================================================== *)
(** * Causality: attention on a prefix is the prefix of attention *)

Lemma map_mapi {A B C} (f : B -> C) (g : nat -> A -> B) l :
  map f (mapi g l) = mapi (fun i a => f (g i a)) l.
Proof. unfold mapi. apply map_map2. Qed.

Lemma mapi_map {A B C} (g : nat -> B -> C) (f : A -> B) l :
  mapi g (map f l) = mapi (fun i a => g i (f a)) l.
Proof. unfold mapi. rewrite length_map. apply map2_map_r. Qed.

Lemma firstn_mapi {A B} j (g : nat -> A -> B) l :
  firstn j (mapi g l) = mapi g (firstn j l).
Proof.
  unfold mapi. rewrite map2_firstn, firstn_seq_min, length_firstn. reflexivity.
Qed.

Lemma dot_nil_r u : dot u [] = 0.
Proof. unfold dot. rewrite map2_nil_r. reflexivity. Qed.

Lemma dot_cons a u b v : dot (a :: u) (b :: v) = a * b + dot u v.
Proof. reflexivity. Qed.

Lemma dot_zeros k c : dot (repeat 0 k) c = 0.
Proof.
  revert c. induction k as [|k IH]; intros [|b c]; try reflexivity.
  simpl repeat. rewrite dot_cons, IH. lra.
Qed.

(** Trailing zeros of a weight row contribute nothing. *)
Lemma dot_app_zeros u k c : dot (u ++ repeat 0 k) c = dot u c.
Proof.
  revert c. induction u as [|a u IH]; intros c.
  - simpl app. rewrite dot_zeros. reflexivity.
  - destruct c as [|b c]; [now rewrite !dot_nil_r|].
    simpl app. rewrite !dot_cons, IH. reflexivity.
Qed.

Lemma dot_firstn_r u j c : (length u <= j)%nat -> dot u (firstn j c) = dot u c.
Proof.
  revert j c. induction u as [|a u IH]; intros j c Hj; [reflexivity|].
  destruct c as [|b c]; [now rewrite firstn_nil|].
  destruct j as [|j]; [simpl in Hj; lia|].
  simpl firstn. rewrite !dot_cons, IH by (simpl in Hj; lia). reflexivity.
Qed.

Lemma head_weights_closed s n d (q k : data2 R) :
  rect2 n d q -> rect2 n d k ->
  head_weights s n d q k
  = mapi (fun i row =>
            softmax_row (map (ediv s) (map Fin (firstn (S i) row)))
            ++ repeat 0 (n - S i))
         (mm n q (transposeLL d k)).
Proof.
  intros Hq Hk. unfold head_weights.
  rewrite (masked_rows n _ (head_scores_rect n d q k Hq Hk)), !map_mapi.
  apply mapi_ext_in. intros i row _.
  now rewrite ediv_row_app, softmax_row_app_neginf.
Qed.

Lemma head_scores_prefix n d j (q k : data2 R) :
  rect2 n d k -> (j <= n)%nat ->
  mm j (firstn j q) (transposeLL d (firstn j k))
  = map (firstn j) (firstn j (mm n q (transposeLL d k))).
Proof.
  intros Hk Hj. pose proof (firstn_rect2 _ _ j _ Hk) as Hkj.
  rewrite Nat.min_l in Hkj by exact Hj.
  rewrite (head_scores_eq j d _ _ Hkj), (head_scores_eq n d _ _ Hk).
  rewrite firstn_map, map_map. apply map_ext. intros r.
  now rewrite firstn_map.
Qed.

(** The output of one head on the first [j] tokens is the first [j] rows
    of its output on all [n] tokens. *)
Lemma head_output_prefix s n d j (q k v : data2 R) :
  rect2 n d q -> rect2 n d k -> rect2 n d v -> (j <= n)%nat ->
  mm d (head_weights s j d (firstn j q) (firstn j k)) (firstn j v)
  = firstn j (mm d (head_weights s n d q k) v).
Proof.
  intros Hq Hk Hv Hj.
  pose proof (firstn_rect2 _ _ j _ Hq) as Hqj.
  pose proof (firstn_rect2 _ _ j _ Hk) as Hkj.
  rewrite Nat.min_l in Hqj, Hkj by exact Hj.
  rewrite (head_weights_closed s j d _ _ Hqj Hkj),
          (head_weights_closed s n d _ _ Hq Hk).
  rewrite (head_scores_prefix n d j q k Hk Hj).
  pose proof (head_scores_rect n d q k Hq Hk) as [HSn HSr].
  set (Sc := mm n q (transposeLL d k)) in *.
  unfold mm.
  rewrite (transposeLL_firstn _ _ j _ Hv).
  rewrite mapi_map, !map_mapi, firstn_mapi.
  apply mapi_ext_in. intros i row Hi.
  assert (Hij : (i < j)%nat).
  { assert (H : nth_error (firstn j Sc) i <> None) by congruence.
    apply nth_error_Some in H. rewrite length_firstn in H. lia. }
  rewrite map_map. apply map_ext. intros c.
  rewrite !dot_app_zeros, firstn_firstn, Nat.min_l by lia.
  apply dot_firstn_r.
  rewrite softmax_row_length, !length_map, length_firstn. lia.
Qed.

Lemma heads_firstn {A} n h d j (m : data2 A) :
  rect2 n (h * d) m -> heads h d (firstn j m) = map (firstn j) (heads h d m).
Proof.
  intros [Hn Hm]. unfold heads. rewrite <- firstn_map.
  apply (transposeLL_firstn n h j). split.
  - rewrite length_map. exact Hn.
  - apply Forall_map. eapply Forall_impl; [|exact Hm].
    intros r _. apply chunks_length.
Qed.

Lemma nth_error_map2 {A B C} (F : A -> B -> C) u v i :
  nth_error (map2 F u v) i
  = match nth_error u i, nth_error v i with
    | Some a, Some b => Some (F a b)
    | _, _ => None
    end.
Proof.
  revert v i. induction u as [|a u IH]; intros v i.
  - destruct i; reflexivity.
  - destruct v as [|b v].
    + rewrite map2_nil_r. destruct i; simpl; [reflexivity|].
      destruct (nth_error u i); reflexivity.
    + rewrite map2_cons. destruct i; simpl; [reflexivity | apply IH].
Qed.

Lemma nth_error_Forall {A} (P : A -> Prop) l i a :
  Forall P l -> nth_error l i = Some a -> P a.
Proof.
  intros H Hi. rewrite Forall_forall in H. apply H.
  eapply nth_error_In; eauto.
Qed.

Section Causality.
Import MultiHeadAttention.
Variables (self : MultiHeadAttention.t) (d_in ctx : nat).
Hypothesis Hwf : wf d_in ctx self.

(** Running the attention of one batch element on its first [j] tokens
    gives the first [j] rows of the full result. *)
Lemma batch_forward_prefix n j (X : data2 R) :
  length X = n -> (j <= n)%nat ->
  batch_forward self j (firstn j X) = firstn j (batch_forward self n X).
Proof.
  intros HX Hj. unfold batch_forward. cbv zeta.
  rewrite <- linear_rows_firstn, firstn_map. f_equal. f_equal.
  pose proof (batch_heads_rect self d_in n _ X
                (wf_query_nat self d_in ctx Hwf) HX) as [Lq Rq].
  pose proof (batch_heads_rect self d_in n _ X
                (wf_key_nat self d_in ctx Hwf) HX) as [Lk Rk].
  pose proof (batch_heads_rect self d_in n _ X
                (wf_value_nat self d_in ctx Hwf) HX) as [Lv Rv].
  pose proof (linear_rows_rect _ _ n _ X (wf_query_nat self d_in ctx Hwf) HX)
    as Hq.
  pose proof (linear_rows_rect _ _ n _ X (wf_key_nat self d_in ctx Hwf) HX)
    as Hk.
  pose proof (linear_rows_rect _ _ n _ X (wf_value_nat self d_in ctx Hwf) HX)
    as Hv.
  cbv zeta in *.
  set (h := Z.to_nat (num_heads self)) in *.
  set (d := Z.to_nat (head_dim self)) in *.
  assert (E : map2 (mm d) (batch_weights self j (firstn j X))
                   (batch_values self (firstn j X))
              = map (firstn j)
                    (map2 (mm d) (batch_weights self n X) (batch_values self X))).
  { unfold batch_weights, batch_values. cbv zeta. fold h. fold d.
    rewrite !linear_rows_firstn.
    rewrite (heads_firstn n h d j _ Hq), (heads_firstn n h d j _ Hk),
            (heads_firstn n h d j _ Hv).
    apply nth_error_ext. intros i.
    rewrite nth_error_map, !nth_error_map2, !nth_error_map.
    unfold data2, data3 in *.
    destruct (nth_error (heads h d (linear_rows (W_query self) X)) i)
      as [q|] eqn:Eq; [|reflexivity].
    destruct (nth_error (heads h d (linear_rows (W_key self) X)) i)
      as [k|] eqn:Ek; [|reflexivity].
    destruct (nth_error (heads h d (linear_rows (W_value self) X)) i)
      as [v|] eqn:Ev; [|reflexivity].
    cbn [option_map]. f_equal.
    apply head_output_prefix; [| | |exact Hj].
    - apply (nth_error_Forall _ _ _ _ Rq Eq).
    - apply (nth_error_Forall _ _ _ _ Rk Ek).
    - apply (nth_error_Forall _ _ _ _ Rv Ev). }
  rewrite E.
  apply (transposeLL_map_firstn h n j).
  - destruct (batch_weights_rect self d_in ctx Hwf n X HX) as [Lw Rw].
    destruct (batch_values_rect self d_in ctx Hwf n X HX) as [Lv' Rv'].
    cbv zeta in *. fold h in Lw, Rw, Lv', Rv'. fold d in Rv'.
    apply (map2_rect _ (rect2 n n) (rect2 n d) (rect1 n) h); auto.
    intros w v [Hw _] Hv'. unfold rect1, mm. rewrite length_map. exact Hw.
  - exact Hj.
Qed.

End Causality.

(* ================================================================== *)
(** * C2: changing later tokens does not change earlier outputs *)

(** C2 (amended). With dropout disabled, for two inputs of at most
    [context_length] tokens that agree on all rows at positions [<= i],
    [MultiHeadAttention.forward] returns for both, draws nothing, and the
    output rows at all positions [<= i] are identical. *)
Theorem forward_causal (self : MultiHeadAttention.t) (d_in ctx b n i : nat)
        (x x' : tensor (data3 R)) (g g' : rng) :
  MultiHeadAttention.wf d_in ctx self ->
  dropout_disabled (MultiHeadAttention.dropout self) = true ->
  has_shape3 b n d_in x ->
  has_shape3 b n d_in x' ->
  (n <= ctx)%nat ->
  (i < n)%nat ->
  map (firstn (S i)) (data x) = map (firstn (S i)) (data x') ->
  exists y y',
    MultiHeadAttention.forward self x g = (Ok y, g) /\
    MultiHeadAttention.forward self x' g' = (Ok y', g') /\
    shape y = shape y' /\
    map (firstn (S i)) (data y) = map (firstn (S i)) (data y').
Proof.
  intros Hwf Hd Hx Hx' Hn Hi Hagree.
  eexists. eexists.
  split; [apply (forward_disabled self d_in ctx Hwf b n x g Hd Hx Hn)|].
  split; [apply (forward_disabled self d_in ctx Hwf b n x' g' Hd Hx' Hn)|].
  split; [reflexivity|]. cbn [data].
  assert (P : forall t : tensor (data3 R), has_shape3 b n d_in t ->
            map (firstn (S i)) (map (MultiHeadAttention.batch_forward self n) (data t))
            = map (MultiHeadAttention.batch_forward self (S i))
                  (map (firstn (S i)) (data t))).
  { intros t [_ [_ Hr]]. rewrite !map_map. apply map_ext_in. intros X HX.
    rewrite Forall_forall in Hr. destruct (Hr X HX) as [HX' _].
    symmetry. apply (batch_forward_prefix self d_in ctx Hwf n (S i) X HX'). lia. }
  rewrite (P x Hx), (P x' Hx'), Hagree. reflexivity.
Qed.

(* ================================================================== *)
(** * The other layers of the block *)

Lemma bdim_same n : bdim n n = Ok n.
Proof. unfold bdim. now rewrite Nat.eqb_refl. Qed.

Lemma bzip_same {A B C} (F : A -> B -> C) u v :
  length u = length v -> bzip F u v = map2 F u v.
Proof.
  intros H. unfold bzip. rewrite !stretch_same; auto.
Qed.

Lemma bzip_rect {A B C} (F : A -> B -> C) (P : A -> Prop) (Q : B -> Prop)
      (S : C -> Prop) n (U : list A) (V : list B) :
  length U = n -> length V = n -> Forall P U -> Forall Q V ->
  (forall a b, P a -> Q b -> S (F a b)) ->
  length (bzip F U V) = n /\ Forall S (bzip F U V).
Proof.
  intros HU HV HP HQ HF. rewrite bzip_same by congruence.
  apply (map2_rect F P Q S n); assumption.
Qed.

Lemma add3_total b n d (x y : tensor (data3 R)) :
  has_shape3 b n d x -> has_shape3 b n d y ->
  exists z, add3 x y = Ok z /\ has_shape3 b n d z.
Proof.
  intros [Hsx [Hx Hrx]] [Hsy [Hy Hry]]. unfold add3.
  rewrite Hsx, Hsy, !bdim_same. cbn [rbind].
  eexists. split; [reflexivity|]. split; [reflexivity|]. cbn [data].
  apply (bzip_rect _ (rect2 n d) (rect2 n d) (rect2 n d) b); auto.
  intros a c [Ha Hra] [Hc Hrc].
  apply (bzip_rect _ (rect1 d) (rect1 d) (rect1 d) n); auto.
  intros u v Hu Hv. unfold rect1 in *.
  rewrite bzip_same, map2_length, Hu, Hv by congruence. apply Nat.min_id.
Qed.

Lemma norm_x_length e d row : length (LayerNorm.norm_x e d row) = length row.
Proof. unfold LayerNorm.norm_x. apply length_map. Qed.

Lemma LayerNorm_forward_total emb b n (self : LayerNorm.t) (x : tensor (data3 R)) :
  LayerNorm.wf emb self -> has_shape3 b n emb x ->
  exists y, LayerNorm.forward self x = Ok y /\ has_shape3 b n emb y.
Proof.
  intros [Hsc Hsh] [Hs [Hb Hr]]. unfold LayerNorm.forward.
  rewrite Hs, Hsc, bdim_same. cbn [rbind]. rewrite Hsh, bdim_same. cbn [rbind].
  eexists. split; [reflexivity|]. split; [reflexivity|]. cbn [data].
  split; [rewrite length_map; exact Hb|].
  apply Forall_map. eapply Forall_impl; [|exact Hr].
  intros m [Hn Hm]. split; [rewrite length_map; exact Hn|].
  apply Forall_map. eapply Forall_impl; [|exact Hm].
  intros row Hrow. unfold rect1 in *.
  assert (L1 : length (bzip Rmult (LayerNorm.scale self)
                            (LayerNorm.norm_x (LayerNorm.eps self) emb row)) = emb).
  { rewrite bzip_same, map2_length, norm_x_length, Hsc, Hrow
      by (rewrite norm_x_length; congruence).
    apply Nat.min_id. }
  rewrite bzip_same, map2_length, L1, Hsh by congruence. apply Nat.min_id.
Qed.

Lemma Linear_forward_total b n d_in d_out (l : Linear) (x : tensor (data3 R)) :
  Linear_wf d_in d_out l -> has_shape3 b n d_in x ->
  exists y, Linear_forward l x = Ok y /\ has_shape3 b n d_out y.
Proof.
  intros Hl Hx. pose proof Hx as [Hs _].
  rewrite (Linear_forward_eval b n d_in l x Hs (wf_in_features Hl)).
  eexists. split; [reflexivity|].
  apply (Linear_forward_shape b n d_in d_out l x Hl Hx).
Qed.

Lemma FeedForward_forward_total emb b n (self : FeedForward.t)
      (x : tensor (data3 R)) :
  FeedForward.wf emb self -> has_shape3 b n emb x ->
  exists y, FeedForward.forward self x = Ok y /\ has_shape3 b n emb y.
Proof.
  intros [H0 H2] Hx. unfold FeedForward.forward.
  destruct (Linear_forward_total b n _ _ _ x H0 Hx) as (hdn & E & [Hs [Hb Hr]]).
  rewrite E. cbn [rbind].
  apply (Linear_forward_total b n (4 * emb) emb). { exact H2. }
  split; [exact Hs|]. cbn [data]. split; [rewrite length_map; exact Hb|].
  apply Forall_map. eapply Forall_impl; [|exact Hr].
  apply rect2_map_map.
Qed.

(* ================================================================== *)
(** * C5: the transformer block *)

(** C5 (amended). For every input [x] of shape
    [[batch, sequence_length, d_model]] with
    [sequence_length <= context_length], [TransformerBlock.forward]
    returns a tensor of the same shape, computed by: [norm1], attention,
    dropout, addition of the saved input; then [norm2], feed-forward,
    dropout, addition of the saved intermediate result. *)
Theorem block_forward_shape (self : TransformerBlock.t) (emb ctx b n : nat)
        (x : tensor (data3 R)) (g : rng) :
  TransformerBlock.wf emb ctx self ->
  has_shape3 b n emb x ->
  (n <= ctx)%nat ->
  exists x1 a g1 d1 g2 s x2 f d2 g3 y,
    LayerNorm.forward (TransformerBlock.norm1 self) x = Ok x1 /\
    MultiHeadAttention.forward (TransformerBlock.att self) x1 g = (Ok a, g1) /\
    Dropout_forward3 (TransformerBlock.drop_shortcut self) a g1 = (Ok d1, g2) /\
    add3 d1 x = Ok s /\
    LayerNorm.forward (TransformerBlock.norm2 self) s = Ok x2 /\
    FeedForward.forward (TransformerBlock.ff self) x2 = Ok f /\
    Dropout_forward3 (TransformerBlock.drop_shortcut self) f g2 = (Ok d2, g3) /\
    add3 d2 s = Ok y /\
    TransformerBlock.forward self x g = (Ok y, g3) /\
    has_shape3 b n emb y /\
    shape y = shape x.
Proof.
  intros [Ha Ho Hf H1 H2] Hx Hn.
  destruct (LayerNorm_forward_total emb b n _ x H1 Hx) as (x1 & E1 & S1).
  destruct (forward_total _ emb ctx Ha b n x1 g S1 Hn) as (a & g1 & E2 & S2).
  cbv zeta in S2.
  rewrite <- (wf_d_out_to_nat _ emb ctx Ha), Ho in S2.
  destruct (Dropout_forward3_total (TransformerBlock.drop_shortcut self)
              b n emb a g1 S2) as (d1 & g2 & E3 & S3).
  destruct (add3_total b n emb d1 x S3 Hx) as (s & E4 & S4).
  destruct (LayerNorm_forward_total emb b n _ s H2 S4) as (x2 & E5 & S5).
  destruct (FeedForward_forward_total emb b n _ x2 Hf S5) as (f & E6 & S6).
  destruct (Dropout_forward3_total (TransformerBlock.drop_shortcut self)
              b n emb f g2 S6) as (d2 & g3 & E7 & S7).
  destruct (add3_total b n emb d2 s S7 S4) as (y & E8 & S8).
  exists x1, a, g1, d1, g2, s, x2, f, d2, g3, y.
  repeat (split; [assumption|]).
  split; [|split; [exact S8|]].
  - unfold TransformerBlock.forward, bind, lift, ret.
    rewrite E1, E2, E3, E4, E5, E6, E7, E8. reflexivity.
  - destruct S8 as [-> _]. destruct Hx as [-> _]. reflexivity.
Qed.

(* ================================================================== *)
(** * C8: inputs longer than the mask *)

Lemma split_heads_ok {A} (self : MultiHeadAttention.t) b n h d
      (u : tensor (data3 A)) :
  MultiHeadAttention.num_heads self = Z.of_nat h ->
  MultiHeadAttention.head_dim self = Z.of_nat d ->
  shape u = [b; n; (h * d)%nat] ->
  exists v, MultiHeadAttention.split_heads self b n u = Ok v /\
            shape v = [b; h; n; d].
Proof.
  intros Hh Hd Hs. unfold MultiHeadAttention.split_heads, view4.
  rewrite Hh, Hd, negative_sizes_of_nat4, !Nat2Z.id, Hs, numel3, numel4.
  rewrite Nat.eqb_refl. cbn [rbind]. unfold transpose_1_2. cbn [shape].
  eexists. split; reflexivity.
Qed.

(** The sliced mask of a module registered for [ctx] positions does not
    expand to [n > ctx] positions, unless [ctx = 1]. *)
Lemma mask_expand_fails ctx n :
  (ctx < n)%nat -> ctx <> 1%nat ->
  expand2 n n (slice2 n n (to_bool (triu 1 (Tensor [ctx; ctx]
                                                  (repeat (repeat 1%Z ctx) ctx)))))
  = Raise RuntimeError.
Proof.
  intros Hlt Hne. rewrite triu_ones_bool. unfold slice2, expand2. cbn [shape].
  rewrite Nat.min_r by lia.
  replace (ctx =? n)%nat with false by (symmetry; apply Nat.eqb_neq; lia).
  replace (ctx =? 1)%nat with false by (symmetry; apply Nat.eqb_neq; lia).
  reflexivity.
Qed.

(** C8 (amended). For every input whose sequence length exceeds
    [context_length], when [context_length] is not 1,
    [MultiHeadAttention.forward] raises the shape-mismatch error of
    [masked_fill_]: nothing is returned (no truncated result), and the
    random generator is left as it was. *)
Theorem forward_too_long (self : MultiHeadAttention.t) (d_in ctx b n : nat)
        (x : tensor (data3 R)) (g : rng) :
  MultiHeadAttention.wf d_in ctx self ->
  shape x = [b; n; d_in] ->
  (ctx < n)%nat ->
  ctx <> 1%nat ->
  MultiHeadAttention.forward self x g = (Raise RuntimeError, g).
Proof.
  intros Hwf Hs Hlt Hne.
  pose proof (wf_num_heads_nat self d_in ctx Hwf) as Hh.
  pose proof (wf_head_dim_nat self d_in ctx Hwf) as Hd.
  pose proof (wf_query_nat self d_in ctx Hwf) as Wq.
  pose proof (wf_key_nat self d_in ctx Hwf) as Wk.
  pose proof (wf_value_nat self d_in ctx Hwf) as Wv.
  cbv zeta in *.
  set (h := Z.to_nat (MultiHeadAttention.num_heads self)) in *.
  set (d := Z.to_nat (MultiHeadAttention.head_dim self)) in *.
  unfold MultiHeadAttention.forward, MultiHeadAttention.attn_weights.
  rewrite Hs. unfold bind, lift.
  rewrite (Linear_forward_eval b n d_in _ x Hs (wf_in_features Wq)),
          (Linear_forward_eval b n d_in _ x Hs (wf_in_features Wk)),
          (Linear_forward_eval b n d_in _ x Hs (wf_in_features Wv)).
  rewrite (wf_out_features Wq), (wf_out_features Wk), (wf_out_features Wv).
  cbn [rbind].
  destruct (split_heads_ok self b n h d
              (Tensor [b; n; (h * d)%nat]
                      (map (linear_rows (MultiHeadAttention.W_query self)) (data x)))
              Hh Hd eq_refl) as (q & Eq & Sq).
  destruct (split_heads_ok self b n h d
              (Tensor [b; n; (h * d)%nat]
                      (map (linear_rows (MultiHeadAttention.W_key self)) (data x)))
              Hh Hd eq_refl) as (k & Ek & Sk).
  destruct (split_heads_ok self b n h d
              (Tensor [b; n; (h * d)%nat]
                      (map (linear_rows (MultiHeadAttention.W_value self)) (data x)))
              Hh Hd eq_refl) as (v & Ev & Sv).
  rewrite Eq, Ek, Ev. cbn [rbind].
  rewrite (transpose_2_3_eval b h n d k Sk). cbn [rbind].
  erewrite (matmul4_eval b h n d n) by (try exact Sq; reflexivity).
  cbn [rbind]. unfold mask_then_scale, masked_fill_. cbn [shape].
  rewrite (MultiHeadAttention.wf_mask Hwf), (mask_expand_fails ctx n Hlt Hne).
  reflexivity.
Qed.

(* ================================================================== *)
(** * C7: construction *)

Lemma nn_Linear_wf src i o bias_flag l :
  nn_Linear src i o bias_flag = Ok l -> Linear_wf (Z.to_nat i) (Z.to_nat o) l.
Proof.
  unfold nn_Linear. destruct ((i <? 0) || (o <? 0))%Z; [discriminate|].
  intros H. injection H as <-. constructor; cbn.
  - reflexivity.
  - reflexivity.
  - split; [apply tabulate_length|].
    unfold tabulate at 1. apply Forall_map, Forall_forall. intros k _.
    apply tabulate_length.
  - destruct bias_flag; [apply tabulate_length | exact I].
Qed.

(** What [init] guarantees when it returns, for a positive number of heads
    and a positive width. *)
Lemma init_wf src d_in d_out ctx prob H bias_flag self :
  MultiHeadAttention.init src d_in d_out ctx prob H bias_flag = Ok self ->
  (0 < H)%Z -> (0 < d_out)%Z ->
  MultiHeadAttention.wf (Z.to_nat d_in) (Z.to_nat ctx) self.
Proof.
  unfold MultiHeadAttention.init, py_mod, py_floordiv. intros E HH Hd.
  destruct (Z.eqb_spec H 0) as [?|_]; [lia|]. cbn [rbind] in E.
  destruct (Z.eqb_spec (d_out mod H) 0) as [Hm|_]; [|discriminate].
  cbn [negb rbind] in E.
  destruct (nn_Linear _ d_in d_out bias_flag) as [wq|] eqn:Eq; [|discriminate].
  cbn [rbind] in E.
  destruct (nn_Linear (MultiHeadAttention.src_key src) d_in d_out bias_flag)
    as [wk|] eqn:Ek; [|discriminate].
  cbn [rbind] in E.
  destruct (nn_Linear (MultiHeadAttention.src_value src) d_in d_out bias_flag)
    as [wv|] eqn:Ev; [|discriminate].
  cbn [rbind] in E.
  destruct (nn_Linear _ d_out d_out true) as [wo|] eqn:Eo; [|discriminate].
  cbn [rbind] in E.
  destruct (nn_Dropout prob) as [dr|]; [|discriminate]. cbn [rbind] in E.
  unfold torch_ones in E.
  destruct ((ctx <? 0) || (ctx <? 0))%Z; [discriminate|]. cbn [rbind] in E.
  injection E as <-.
  assert (Hdiv : d_out = (H * (d_out / H))%Z).
  { apply Z.div_exact; lia. }
  constructor; cbn.
  - exact HH.
  - apply Z.div_str_pos. split; [lia|].
    assert (0 < d_out / H)%Z by nia. nia.
  - exact Hdiv.
  - apply (nn_Linear_wf _ _ _ _ _ Eq).
  - apply (nn_Linear_wf _ _ _ _ _ Ek).
  - apply (nn_Linear_wf _ _ _ _ _ Ev).
  - apply (nn_Linear_wf _ _ _ _ _ Eo).
  - reflexivity.
Qed.

(** C7 (amended). Construction raises, and no module is built, whenever
    [d_out % num_heads != 0] (the assertion; a zero [num_heads] fails in
    the modulo itself), and whenever [d_in], [d_out] or [context_length]
    is negative. *)
Theorem init_rejects (src : MultiHeadAttention.source)
        (d_in d_out ctx : Z) (prob : Q) (H : Z) (bias_flag : bool) :
  (H = 0 \/ d_out mod H <> 0 \/ d_in < 0 \/ d_out < 0 \/ ctx < 0)%Z ->
  exists e,
    MultiHeadAttention.init src d_in d_out ctx prob H bias_flag = Raise e /\
    (H = 0%Z -> e = ZeroDivisionError) /\
    (H <> 0%Z -> (d_out mod H)%Z <> 0%Z -> e = AssertionError).
Proof.
  intros Hbad. unfold MultiHeadAttention.init, py_mod, py_floordiv.
  destruct (Z.eqb_spec H 0) as [H0|H0].
  { eexists. split; [reflexivity|]. split; [reflexivity | intros; contradiction]. }
  cbn [rbind].
  destruct (Z.eqb_spec (d_out mod H) 0) as [Hm|Hm]; cbn [negb].
  2:{ eexists. split; [reflexivity|].
      split; [intros; contradiction | reflexivity]. }
  cbn [rbind]. unfold nn_Linear.
  destruct (Z.ltb_spec d_in 0) as [Hi|Hi]; cbn [orb rbind].
  { eexists. split; [reflexivity|]. split; intros; contradiction. }
  destruct (Z.ltb_spec d_out 0) as [Ho|Ho]; cbn [orb rbind].
  { eexists. split; [reflexivity|]. split; intros; contradiction. }
  destruct (nn_Dropout prob) as [dr|e]; cbn [rbind].
  2:{ eexists. split; [reflexivity|]. split; intros; contradiction. }
  unfold torch_ones.
  destruct (Z.ltb_spec ctx 0) as [Hc|Hc]; cbn [orb rbind].
  { eexists. split; [reflexivity|]. split; intros; contradiction. }
  exfalso. lia.
Qed.

(* ================================================================== *)
(** * C6: the normalized value of LayerNorm *)

Lemma Rsum_map_sub_div m s row :
  Rsum (map (fun v => (v - m) / s) row)
  = (Rsum row - INR (length row) * m) / s.
Proof.
  induction row as [|v row IH].
  - simpl. unfold Rdiv. lra.
  - cbn [map Rsum fold_right length]. unfold Rsum in IH. rewrite IH, S_INR.
    unfold Rdiv. lra.
Qed.

Lemma Rsum_map_scale {A} (f : A -> R) c l :
  Rsum (map (fun v => f v * c) l) = Rsum (map f l) * c.
Proof.
  induction l as [|a l IH]; [simpl; lra|].
  cbn [map Rsum fold_right]. unfold Rsum in IH. rewrite IH. lra.
Qed.

Lemma Rsum_squares_nonneg {A} (f : A -> R) l :
  0 <= Rsum (map (fun v => f v * f v) l).
Proof.
  apply Rsum_nonneg, Forall_map, Forall_forall. intros a _. nra.
Qed.

Lemma var_row_nonneg d row : (0 < d)%nat -> 0 <= var_row d row.
Proof.
  intros Hd. unfold var_row.
  pose proof (Rsum_squares_nonneg (fun v => v - mean_row d row) row) as H.
  assert (0 < INR d) by (apply lt_0_INR; exact Hd).
  apply Rmult_le_pos; [exact H | left; apply Rinv_0_lt_compat; assumption].
Qed.

(** The mean of the normalized row is 0. *)
Lemma norm_x_mean e d row :
  length row = d -> (0 < d)%nat ->
  mean_row d (LayerNorm.norm_x e d row) = 0.
Proof.
  intros Hl Hd. unfold mean_row at 1, LayerNorm.norm_x.
  rewrite Rsum_map_sub_div, Hl. unfold mean_row.
  assert (INR d <> 0) by (apply not_0_INR; lia).
  unfold Rdiv. replace (Rsum row - INR d * (Rsum row * / INR d)) with 0
    by (field; assumption).
  lra.
Qed.

(** The variance of the normalized row is [var / (var + eps)]. *)
Lemma norm_x_var e d row :
  length row = d -> (0 < d)%nat -> 0 < e ->
  var_row d (LayerNorm.norm_x e d row)
  = var_row d row / (var_row d row + e).
Proof.
  intros Hl Hd He.
  pose proof (var_row_nonneg d row Hd) as Hv.
  assert (Hs : sqrt (var_row d row + e) * sqrt (var_row d row + e)
               = var_row d row + e) by (apply sqrt_sqrt; lra).
  assert (Hpos : 0 < sqrt (var_row d row + e)) by (apply sqrt_lt_R0; lra).
  assert (Hn : INR d <> 0) by (apply not_0_INR; lia).
  unfold var_row at 1. rewrite (norm_x_mean e d row Hl Hd).
  unfold LayerNorm.norm_x. rewrite map_map.
  rewrite (map_ext _ (fun v => (v - mean_row d row) * (v - mean_row d row)
                               * / (var_row d row + e))).
  - rewrite Rsum_map_scale.
    set (V := var_row d row) in *.
    assert (Ev : V = Rsum (map (fun v => (v - mean_row d row)
                                         * (v - mean_row d row)) row) / INR d)
      by reflexivity.
    rewrite Ev at 2. field. split; [exact Hn | lra].
  - intros v. set (r := sqrt (var_row d row + e)) in *.
    rewrite <- Hs. field. lra.
Qed.

(** For a row whose variance is below [e * (1 - tol) / tol], the variance
    of the normalized row is further than [tol] from 1. *)
Lemma norm_x_var_below e d row tol :
  length row = d -> (0 < d)%nat -> 0 < e -> 0 < tol < 1 ->
  var_row d row < e * (1 - tol) / tol ->
  tol < Rabs (var_row d (LayerNorm.norm_x e d row) - 1).
Proof.
  intros Hl Hd He [Ht0 Ht1] Hlt.
  pose proof (var_row_nonneg d row Hd) as Hv.
  rewrite (norm_x_var e d row Hl Hd He).
  set (v := var_row d row) in *.
  assert (Hp : 0 < v + e) by lra.
  replace (v / (v + e) - 1) with (- (e / (v + e))) by (field; lra).
  rewrite Rabs_Ropp, Rabs_right
    by (apply Rle_ge; apply Rmult_le_pos; [lra|left; apply Rinv_0_lt_compat; lra]).
  apply Rmult_lt_reg_r with (r := v + e); [exact Hp|].
  unfold Rdiv at 1. rewrite Rmult_assoc, Rinv_l, Rmult_1_r by lra.
  assert (Hb : v * tol < e * (1 - tol)).
  { apply Rmult_lt_compat_r with (r := tol) in Hlt; [|exact Ht0].
    unfold Rdiv in Hlt. rewrite Rmult_assoc, Rinv_l, Rmult_1_r in Hlt by lra.
    exact Hlt. }
  nra.
Qed.


(* ================================================================== *)
(** * C4: masking and scaling commute *)

Lemma ediv_fill s b x : ediv s (fill b x) = fill b (x / s).
Proof. destruct b; reflexivity. Qed.

Lemma map2_ext {A B C} (F G : A -> B -> C) u v :
  (forall a b, F a b = G a b) -> map2 F u v = map2 G u v.
Proof. intros H. unfold map2. apply map_ext. intros [a b]. apply H. Qed.

Lemma fill_row_scale s (mk : list bool) (row : list R) :
  map (ediv s) (map2 fill mk row) = map2 fill mk (map (fun v => v / s) row).
Proof.
  rewrite map_map2, map2_map_r. apply map2_ext. intros b x. apply ediv_fill.
Qed.

Lemma fill_rows_scale s (mk : data2 bool) (m : data2 R) :
  map (map (ediv s)) (map2 (map2 fill) mk m)
  = map2 (map2 fill) mk (map (map (fun v => v / s)) m).
Proof.
  rewrite map_map2, map2_map_r. apply map2_ext. intros b x.
  apply fill_row_scale.
Qed.

(** C4. For every score tensor, every mask and every positive scale
    factor, masking and then dividing by the scale gives the same softmax
    output (and the same error, when the mask does not fit) as dividing
    first and then masking.  The common output is the softmax of the
    tensor that holds minus infinity at every masked position and the
    score divided by the scale at every other position: a masked entry is
    still minus infinity after the division.  Dividing by the positive
    scale keeps the order of the entries, minus infinity below every
    score. *)
Theorem mask_scale_order (s : R) (scores : tensor (data4 R))
        (mask : tensor (data2 bool)) :
  0 < s ->
  mask_then_scale s scores mask = scale_then_mask s scores mask /\
  (forall d0 d1 n m (mk : data2 bool),
      shape scores = [d0; d1; n; m] ->
      expand2 n m mask = Ok mk ->
      mask_then_scale s scores mask
      = Ok (softmax4
              (Tensor [d0; d1; n; m]
                 (map (map (map2 (map2 (fun (b : bool) x =>
                                          if b then NegInf else Fin (x / s))) mk))
                      (data scores))))) /\
  (forall a b : ext, ext_le a b -> ext_le (ediv s a) (ediv s b)).
Proof.
  intros Hs. split; [|split].
  - unfold mask_then_scale, scale_then_mask, masked_fill_, tmap4.
    cbn [shape data].
    destruct (shape scores) as [|d0 [|d1 [|n [|m [|? ?]]]]]; try reflexivity.
    destruct (expand2 n m mask) as [mk|e]; [|reflexivity].
    cbn [rbind]. unfold softmax4. cbn [shape data].
    apply f_equal. apply (f_equal (Tensor _)).
    rewrite !map_map. apply map_ext. intros bt.
    rewrite !map_map. apply map_ext. intros hm.
    now rewrite fill_rows_scale.
  - intros d0 d1 n m mk Hsh Hmk.
    unfold mask_then_scale, masked_fill_. rewrite Hsh, Hmk. cbn [rbind].
    unfold tmap4. cbn [shape data].
    apply f_equal. apply f_equal. apply (f_equal (Tensor _)).
    rewrite !map_map. apply map_ext. intros bt.
    rewrite !map_map. apply map_ext. intros hm.
    rewrite map_map2. apply map2_ext. intros mrow row.
    rewrite map_map2. apply map2_ext. intros b x.
    destruct b; reflexivity.
  - intros [x|] [y|] H; cbn in *; auto.
    apply Rmult_le_compat_r; [left; apply Rinv_0_lt_compat; exact Hs | exact H].
Qed.

(* ================================================================== *)
(** * C9: the masking script on an all-ones score matrix *)

Lemma Rsum_repeat_1 j : Rsum (repeat 1 j) = INR j.
Proof.
  induction j as [|j IH]; [reflexivity|].
  simpl repeat. cbn [Rsum fold_right]. unfold Rsum in IH. rewrite IH, S_INR. lra.
Qed.

Lemma row_max_repeat a k : row_max (repeat (Fin a) (S k)) = Fin a.
Proof.
  induction k as [|k IH]; [reflexivity|].
  change (emax (Fin a) (row_max (repeat (Fin a) (S k))) = Fin a).
  rewrite IH. simpl. unfold Rmax. destruct (Rle_dec a a); reflexivity.
Qed.

(** Equal scores followed by masked positions: equal weights, then 0. *)
Lemma softmax_uniform a k r :
  softmax_row (repeat (Fin a) (S k) ++ repeat NegInf r)
  = repeat (1 / INR (S k)) (S k) ++ repeat 0 r.
Proof.
  rewrite softmax_row_app_neginf. f_equal.
  unfold softmax_row. rewrite row_max_repeat.
  assert (He : map (eexp a) (repeat (Fin a) (S k)) = repeat 1 (S k)).
  { rewrite map_repeat. simpl eexp. now rewrite Rminus_diag, exp_0. }
  rewrite He, Rsum_repeat_1, map_repeat. reflexivity.
Qed.

(** C9. With [context_length = 6] and a 6 x 6 all-ones score matrix, the
    mask [torch.triu(ones, diagonal=1)] with minus-infinity fill sets
    exactly the 15 entries above the diagonal to minus infinity and leaves
    the 21 others unchanged; after the row-wise softmax, row [i] gives
    [1 / (i + 1)] to each of its [i + 1] valid positions and 0 elsewhere. *)
Theorem masking_scenario (kd : data2 R) :
  let attn_scores := Tensor [6; 6]%nat (repeat (repeat 1 6) 6) in
  let keys := Tensor [6; 2]%nat kd in
  MaskingScript.context_length attn_scores = 6%Z /\
  exists m w,
    MaskingScript.masked attn_scores = Ok m /\
    data m = tabulate 6 (fun i => repeat (Fin 1) (i + 1)
                                  ++ repeat NegInf (5 - i)) /\
    length (filter is_neginf (concat (data m))) = 15%nat /\
    length (filter (fun e => negb (is_neginf e)) (concat (data m))) = 21%nat /\
    MaskingScript.attn_weights attn_scores keys = Ok w /\
    data w = tabulate 6 (fun i => repeat (1 / INR (i + 1)) (i + 1)
                                  ++ repeat 0 (5 - i)).
Proof.
  intros attn_scores keys. split; [reflexivity|].
  assert (Em : MaskingScript.masked attn_scores
               = Ok (Tensor [6; 6]%nat
                       (tabulate 6 (fun i => repeat (Fin 1) (i + 1)
                                             ++ repeat NegInf (5 - i))))).
  { subst attn_scores.
    unfold MaskingScript.masked, MaskingScript.mask,
      MaskingScript.context_length, torch_ones.
    cbn [shape nth].
    change ((Z.of_nat 6 <? 0)%Z || (Z.of_nat 6 <? 0)%Z) with false.
    change (Z.to_nat (Z.of_nat 6)) with 6%nat. cbv beta iota. cbn [rbind].
    rewrite triu_ones_bool. unfold masked_fill. cbn [shape].
    rewrite !bdim_same. cbn [rbind]. unfold expand2. cbn [shape data].
    rewrite Nat.eqb_refl. cbn [orb andb rbind].
    reflexivity. }
  eexists. eexists. split; [exact Em|]. cbn [data].
  split; [reflexivity|]. split; [reflexivity|]. split; [reflexivity|].
  split.
  - unfold MaskingScript.attn_weights. rewrite Em. cbn [rbind]. reflexivity.
  - unfold softmax2, tmap2. cbn [data shape last].
    rewrite !map_tabulate. apply tabulate_ext. intros i _.
    rewrite map_app, !map_repeat. cbn [ediv].
    rewrite Nat.add_1_r. apply softmax_uniform.
Qed.

(* ================================================================== *)
(** * C10: SelfAttention_v1 and SelfAttention_v2 *)

(** A bias-free linear layer whose weight is the transpose of [W] maps
    every input like [x @ W], errors included. *)
Lemma Linear_forward2_transpose d_in d_out (l : Linear) (W x : tensor (data2 R)) :
  is_transpose_of d_in d_out l W -> Linear_forward2 l x = matmul2 x W.
Proof.
  intros (Hi & Ho & Hb & [Hs Hr] & Ht).
  unfold T2 in Ht. rewrite Hs in Ht. injection Ht as Hw.
  unfold Linear_forward2, matmul2. rewrite Hs, Hi, Ho.
  destruct (shape x) as [|n [|k [|? ?]]]; try reflexivity.
  destruct (k =? d_in)%nat; [|reflexivity].
  unfold linear_rows. rewrite Hb, Hi, Ho, <- Hw.
  now rewrite (transposeLL_involutive _ _ _ Hr).
Qed.

(** C10. When every [Linear] of [SelfAttention_v2], built with
    [qkv_bias = False], holds the transpose of the corresponding parameter
    of [SelfAttention_v1], the two [forward] functions compute the same
    result on every input. *)
Theorem self_attention_v1_v2 (d_in d_out : nat) (v1 : SelfAttention_v1.t)
        (v2 : SelfAttention_v2.t) (x : tensor (data2 R)) :
  is_transpose_of d_in d_out (SelfAttention_v2.W_query v2)
                  (SelfAttention_v1.W_query v1) ->
  is_transpose_of d_in d_out (SelfAttention_v2.W_key v2)
                  (SelfAttention_v1.W_key v1) ->
  is_transpose_of d_in d_out (SelfAttention_v2.W_value v2)
                  (SelfAttention_v1.W_value v1) ->
  SelfAttention_v2.forward v2 x = SelfAttention_v1.forward v1 x.
Proof.
  intros Hq Hk Hv. unfold SelfAttention_v2.forward, SelfAttention_v1.forward.
  rewrite (Linear_forward2_transpose d_in d_out _ _ x Hq),
          (Linear_forward2_transpose d_in d_out _ _ x Hk),
          (Linear_forward2_transpose d_in d_out _ _ x Hv).
  reflexivity.
Qed.

(* ================================================================== *)
(** * What the constructors establish *)

Lemma LayerNorm_init_wf emb self :
  LayerNorm.init emb = Ok self -> LayerNorm.wf (Z.to_nat emb) self.
Proof.
  unfold LayerNorm.init. destruct (emb <? 0)%Z; [discriminate|].
  intros E. injection E as <-. constructor; cbn; apply repeat_length.
Qed.

Lemma FeedForward_init_wf src cfg self :
  FeedForward.init src cfg = Ok self ->
  (0 <= emb_dim cfg)%Z ->
  FeedForward.wf (Z.to_nat (emb_dim cfg)) self.
Proof.
  unfold FeedForward.init. intros E He.
  destruct (nn_Linear _ (emb_dim cfg) (4 * emb_dim cfg) true) as [l0|] eqn:E0;
    [|discriminate].
  cbn [rbind] in E.
  destruct (nn_Linear _ (4 * emb_dim cfg) (emb_dim cfg) true) as [l2|] eqn:E2;
    [|discriminate].
  cbn [rbind] in E. injection E as <-.
  apply nn_Linear_wf in E0. apply nn_Linear_wf in E2.
  replace (Z.to_nat (4 * emb_dim cfg)) with (4 * Z.to_nat (emb_dim cfg))%nat
    in E0, E2 by lia.
  constructor; assumption.
Qed.

Lemma init_d_out src d_in d_out ctx prob H bias_flag self :
  MultiHeadAttention.init src d_in d_out ctx prob H bias_flag = Ok self ->
  MultiHeadAttention.d_out self = d_out.
Proof.
  unfold MultiHeadAttention.init. intros E.
  destruct (py_mod d_out H); [|discriminate]. cbn [rbind] in E.
  destruct (negb _); [discriminate|].
  destruct (py_floordiv d_out H); [|discriminate]. cbn [rbind] in E.
  repeat (match type of E with
          | context [rbind ?r _] =>
              destruct r; [|discriminate]; cbn [rbind] in E
          end).
  injection E as <-. reflexivity.
Qed.

Lemma TransformerBlock_init_wf src cfg self :
  TransformerBlock.init src cfg = Ok self ->
  (0 < emb_dim cfg)%Z -> (0 < n_heads cfg)%Z ->
  TransformerBlock.wf (Z.to_nat (emb_dim cfg)) (Z.to_nat (context_length cfg)) self.
Proof.
  unfold TransformerBlock.init. intros E He Hh.
  destruct (MultiHeadAttention.init _ _ _ _ _ _ _) as [a|] eqn:Ea; [|discriminate].
  cbn [rbind] in E.
  destruct (FeedForward.init _ cfg) as [f|] eqn:Ef; [|discriminate].
  cbn [rbind] in E.
  destruct (LayerNorm.init (emb_dim cfg)) as [n1|] eqn:En; [|discriminate].
  cbn [rbind] in E.
  destruct (nn_Dropout (drop_rate cfg)) as [ds|]; [|discriminate].
  cbn [rbind] in E. injection E as <-.
  constructor; cbn.
  - apply (init_wf _ _ _ _ _ _ _ _ Ea Hh He).
  - now rewrite (init_d_out _ _ _ _ _ _ _ _ Ea).
  - apply (FeedForward_init_wf _ _ _ Ef). lia.
  - apply (LayerNorm_init_wf _ _ En).
  - apply (LayerNorm_init_wf _ _ En).
Qed.

(* ================================================================== *)
(** * The concrete modules *)

Lemma mha_init :
  MultiHeadAttention.init Examples.mha_src 1 2 2 0 2 false = Ok Examples.mha.
Proof. reflexivity. Qed.

Lemma mha_ctx1_init :
  MultiHeadAttention.init Examples.mha_src 1 1 1 0 1 false = Ok Examples.mha_ctx1.
Proof. reflexivity. Qed.

Lemma block_init :
  TransformerBlock.init Examples.block_src Examples.cfg = Ok Examples.block.
Proof. reflexivity. Qed.

Lemma norm3_init : LayerNorm.init 3 = Ok Examples.norm3.
Proof. reflexivity. Qed.

Lemma mha_wf : MultiHeadAttention.wf 1 2 Examples.mha.
Proof. apply (init_wf _ 1 2 2 0 2 false _ mha_init); lia. Qed.

Lemma block_wf : TransformerBlock.wf 2 2 Examples.block.
Proof.
  apply (TransformerBlock_init_wf _ Examples.cfg _ block_init); cbn; lia.
Qed.

Lemma x2_shape : has_shape3 1 2 1 Examples.x2.
Proof. split; [reflexivity|]. repeat constructor. Qed.

Lemma x2'_shape : has_shape3 1 2 1 Examples.x2'.
Proof. split; [reflexivity|]. repeat constructor. Qed.

Lemma xb_shape : has_shape3 1 2 2 Examples.xb.
Proof. split; [reflexivity|]. repeat constructor. Qed.

Lemma u22_shape : has_shape3 1 2 2 Examples.u22.
Proof. split; [reflexivity|]. repeat constructor. Qed.

(* ================================================================== *)
(** * The theorems at concrete inputs *)

(** C1 for the two-head module on a two-token input. *)
Lemma attention_weights_row_stochastic_witness :
  MultiHeadAttention.wf 1 2 Examples.mha /\
  has_shape3 1 2 1 Examples.x2 /\
  (2 <= 2)%nat /\
  exists values w,
    MultiHeadAttention.attn_weights Examples.mha Examples.x2 = Ok (values, w) /\
    has_shape4 1 2 2 2 w /\
    Forall (Forall causal_row_stochastic) (data w).
Proof.
  split; [exact mha_wf|]. split; [exact x2_shape|]. split; [apply le_n|].
  apply (attention_weights_row_stochastic Examples.mha 1 2 1 2 Examples.x2
           mha_wf x2_shape (le_n 2)).
Defined.

(** C2 for two inputs that differ in the last token only. *)
Lemma forward_causal_witness :
  MultiHeadAttention.wf 1 2 Examples.mha /\
  dropout_disabled (MultiHeadAttention.dropout Examples.mha) = true /\
  has_shape3 1 2 1 Examples.x2 /\
  has_shape3 1 2 1 Examples.x2' /\
  (2 <= 2)%nat /\
  (0 < 2)%nat /\
  map (firstn 1) (data Examples.x2) = map (firstn 1) (data Examples.x2') /\
  exists y y',
    MultiHeadAttention.forward Examples.mha Examples.x2 Examples.keep_all
    = (Ok y, Examples.keep_all) /\
    MultiHeadAttention.forward Examples.mha Examples.x2' Examples.keep_all
    = (Ok y', Examples.keep_all) /\
    shape y = shape y' /\
    map (firstn 1) (data y) = map (firstn 1) (data y').
Proof.
  split; [exact mha_wf|]. split; [reflexivity|]. split; [exact x2_shape|].
  split; [exact x2'_shape|]. split; [apply le_n|]. split; [apply Nat.lt_0_2|].
  split; [reflexivity|].
  apply (forward_causal Examples.mha 1 2 1 2 0 Examples.x2 Examples.x2'
           Examples.keep_all Examples.keep_all
           mha_wf eq_refl x2_shape x2'_shape (le_n 2) Nat.lt_0_2 eq_refl).
Defined.

(** C3 for a tensor of shape [[1, 2, 2]] and two heads. *)
Lemma split_merge_roundtrip_witness :
  (0 <= MultiHeadAttention.num_heads Examples.mha)%Z /\
  (0 <= MultiHeadAttention.head_dim Examples.mha)%Z /\
  MultiHeadAttention.d_out Examples.mha
  = (MultiHeadAttention.num_heads Examples.mha
     * MultiHeadAttention.head_dim Examples.mha)%Z /\
  has_shape3 1 2 (Z.to_nat (MultiHeadAttention.d_out Examples.mha)) Examples.u22 /\
  (v <- MultiHeadAttention.split_heads Examples.mha 1 2 Examples.u22 ;;
   MultiHeadAttention.merge_heads Examples.mha 1 2 v)%result = Ok Examples.u22.
Proof.
  assert (H1 : (0 <= MultiHeadAttention.num_heads Examples.mha)%Z)
    by (cbn; lia).
  assert (H2 : (0 <= MultiHeadAttention.head_dim Examples.mha)%Z)
    by (cbn; lia).
  split; [exact H1|]. split; [exact H2|]. split; [reflexivity|].
  split; [exact u22_shape|].
  apply (split_merge_roundtrip Examples.mha 1 2 Examples.u22
           H1 H2 eq_refl u22_shape).
Defined.

(** C4 for two tokens, the causal mask and the scale 2: the score of
    token 0 for token 1 is masked, and every other score is halved. *)
Lemma mask_scale_order_witness :
  0 < 2 /\
  mask_then_scale 2 GPTExamples.scores22 GPTExamples.mask22
  = scale_then_mask 2 GPTExamples.scores22 GPTExamples.mask22 /\
  mask_then_scale 2 GPTExamples.scores22 GPTExamples.mask22
  = Ok (softmax4
          (Tensor [1; 1; 2; 2]%nat
             [[[[Fin (1 / 2); NegInf]; [Fin (3 / 2); Fin (4 / 2)]]]])) /\
  ext_le (Fin 1) (Fin 3) /\
  ext_le (ediv 2 (Fin 1)) (ediv 2 (Fin 3)).
Proof.
  assert (H2 : 0 < 2) by lra. split; [exact H2|].
  destruct (mask_scale_order 2 GPTExamples.scores22 GPTExamples.mask22 H2)
    as (Heq & Hform & Hmono).
  split; [exact Heq|]. split.
  - exact (Hform 1%nat 1%nat 2%nat 2%nat [[false; true]; [false; false]]
             eq_refl eq_refl).
  - assert (H13 : ext_le (Fin 1) (Fin 3)) by (cbn; lra).
    split; [exact H13 | apply Hmono; exact H13].
Defined.

(** C5 for the block of width 2 with dropout rate 0.1. *)
Lemma block_forward_shape_witness :
  TransformerBlock.wf 2 2 Examples.block /\
  has_shape3 1 2 2 Examples.xb /\
  (2 <= 2)%nat /\
  exists y g',
    TransformerBlock.forward Examples.block Examples.xb Examples.keep_all
    = (Ok y, g') /\
    has_shape3 1 2 2 y /\
    shape y = shape Examples.xb.
Proof.
  split; [exact block_wf|]. split; [exact xb_shape|]. split; [apply le_n|].
  destruct (block_forward_shape Examples.block 2 2 1 2 Examples.xb
              Examples.keep_all block_wf xb_shape (le_n 2))
    as (x1 & a & g1 & d1 & g2 & s & x2 & f & d2 & g3 & y & H).
  exists y, g3. apply H.
Defined.


(** C7 for [d_out = 768] and [num_heads = 11]. *)
Lemma init_rejects_witness :
  (768 mod 11 <> 0)%Z /\
  MultiHeadAttention.init Examples.mha_src 768 768 1024 (1 # 10) 11 false
  = Raise AssertionError.
Proof.
  assert (Hm : (768 mod 11 <> 0)%Z) by (intros H; discriminate H).
  split; [exact Hm|].
  destruct (init_rejects Examples.mha_src 768 768 1024 (1 # 10) 11 false
              (or_intror (or_introl Hm))) as (e & E & _ & He).
  rewrite E. f_equal. apply He; [intros H; discriminate H | exact Hm].
Defined.

(** C8 for three tokens and a mask registered for two. *)
Lemma forward_too_long_witness :
  MultiHeadAttention.wf 1 2 Examples.mha /\
  shape Examples.x3 = [1; 3; 1]%nat /\
  (2 < 3)%nat /\
  2%nat <> 1%nat /\
  MultiHeadAttention.forward Examples.mha Examples.x3 Examples.keep_all
  = (Raise RuntimeError, Examples.keep_all).
Proof.
  assert (Hne : 2%nat <> 1%nat) by (intros H; discriminate H).
  split; [exact mha_wf|]. split; [reflexivity|]. split; [apply Nat.lt_succ_diag_r|].
  split; [exact Hne|].
  apply (forward_too_long Examples.mha 1 2 1 3 Examples.x3 Examples.keep_all
           mha_wf eq_refl (Nat.lt_succ_diag_r 2) Hne).
Defined.

Lemma v1_v2_query :
  is_transpose_of 2 1 (SelfAttention_v2.W_query Examples.v2)
                  (SelfAttention_v1.W_query Examples.v1).
Proof.
  repeat split; try reflexivity. repeat constructor.
Qed.

Lemma v1_v2_key :
  is_transpose_of 2 1 (SelfAttention_v2.W_key Examples.v2)
                  (SelfAttention_v1.W_key Examples.v1).
Proof.
  repeat split; try reflexivity. repeat constructor.
Qed.

Lemma v1_v2_value :
  is_transpose_of 2 1 (SelfAttention_v2.W_value Examples.v2)
                  (SelfAttention_v1.W_value Examples.v1).
Proof.
  repeat split; try reflexivity. repeat constructor.
Qed.

(** C10 for the two modules of [Examples]. *)
Lemma self_attention_v1_v2_witness :
  is_transpose_of 2 1 (SelfAttention_v2.W_query Examples.v2)
                  (SelfAttention_v1.W_query Examples.v1) /\
  is_transpose_of 2 1 (SelfAttention_v2.W_key Examples.v2)
                  (SelfAttention_v1.W_key Examples.v1) /\
  is_transpose_of 2 1 (SelfAttention_v2.W_value Examples.v2)
                  (SelfAttention_v1.W_value Examples.v1) /\
  SelfAttention_v2.forward Examples.v2 Examples.inputs
  = SelfAttention_v1.forward Examples.v1 Examples.inputs.
Proof.
  split; [exact v1_v2_query|]. split; [exact v1_v2_key|].
  split; [exact v1_v2_value|].
  apply (self_attention_v1_v2 2 1 Examples.v1 Examples.v2 Examples.inputs
           v1_v2_query v1_v2_key v1_v2_value).
Defined.

(* ================================================================== *)
(** * Where the claims fail *)

(** C8 as stated fails for [context_length = 1]: the 1 x 1 mask (a single
    [False]) expands to any number of tokens, nothing is masked and
    [forward] returns for a two-token input. *)
Lemma forward_ctx1_accepts_longer_input :
  MultiHeadAttention.init Examples.mha_src 1 1 1 0 1 false
  = Ok Examples.mha_ctx1 /\
  shape Examples.x2 = [1; 2; 1]%nat /\
  (1 < 2)%nat /\
  exists y,
    MultiHeadAttention.forward Examples.mha_ctx1 Examples.x2 Examples.keep_all
    = (Ok y, Examples.keep_all).
Proof.
  split; [reflexivity|]. split; [reflexivity|]. split; [apply Nat.lt_1_2|].
  eexists. eval_forward. reflexivity.
Qed.

(** C2 as stated fails for the same module: the two inputs agree on
    token 0 and differ on token 1, and the outputs at token 0 differ (0
    for the first input, 1/2 for the second). *)
Lemma forward_ctx1_not_causal :
  MultiHeadAttention.init Examples.mha_src 1 1 1 0 1 false
  = Ok Examples.mha_ctx1 /\
  dropout_disabled (MultiHeadAttention.dropout Examples.mha_ctx1) = true /\
  has_shape3 1 2 1 Examples.x2 /\
  has_shape3 1 2 1 Examples.x2' /\
  map (firstn 1) (data Examples.x2) = map (firstn 1) (data Examples.x2') /\
  exists y y',
    MultiHeadAttention.forward Examples.mha_ctx1 Examples.x2 Examples.keep_all
    = (Ok y, Examples.keep_all) /\
    MultiHeadAttention.forward Examples.mha_ctx1 Examples.x2' Examples.keep_all
    = (Ok y', Examples.keep_all) /\
    map (firstn 1) (data y) = [[[0]]] /\
    map (firstn 1) (data y') = [[[1 / 2]]] /\
    map (firstn 1) (data y) <> map (firstn 1) (data y').
Proof.
  split; [reflexivity|]. split; [reflexivity|]. split; [exact x2_shape|].
  split; [exact x2'_shape|]. split; [reflexivity|].
  eexists. eexists.
  split; [eval_forward; reflexivity|].
  split; [eval_forward; reflexivity|].
  cbn [data map firstn].
  assert (E0 : forall c, ((0 * 1 + 0) * c + 0) / sqrt (INR 1) = 0)
    by (intros; unfold Rdiv; ring).
  rewrite !E0.
  assert (Em : Rmax 0 0 = 0) by (apply Rmax_left; lra).
  rewrite Em, Rminus_diag, exp_0.
  assert (A : (1 / (1 + (1 + 0)) * (0 * 1 + 0)
               + (1 / (1 + (1 + 0)) * (0 * 1 + 0) + 0)) * 1 + 0 + 0 = 0) by lra.
  assert (B : (1 / (1 + (1 + 0)) * (0 * 1 + 0)
               + (1 / (1 + (1 + 0)) * (1 * 1 + 0) + 0)) * 1 + 0 + 0 = 1 / 2)
    by lra.
  rewrite A, B.
  split; [reflexivity|]. split; [reflexivity|].
  intros H. injection H as H. lra.
Qed.


(** C7 as stated fails for [context_length = 0]: nothing checks it and an
    empty mask is registered. *)
Lemma init_accepts_zero_context_length :
  (0 <= 0)%Z /\
  exists self,
    MultiHeadAttention.init Examples.mha_src 3 2 0 0 2 false = Ok self /\
    shape (MultiHeadAttention.mask self) = [0; 0]%nat.
Proof.
  split; [apply Z.le_refl|]. eexists. split; reflexivity.
Qed.

(** C5 as stated fails for an input longer than [context_length]: the
    block built for two positions raises on three tokens. *)
Lemma block_rejects_longer_input :
  TransformerBlock.init Examples.block_src Examples.cfg = Ok Examples.block /\
  context_length Examples.cfg = 2%Z /\
  has_shape3 1 3 2 Examples.xb3 /\
  TransformerBlock.forward Examples.block Examples.xb3 Examples.keep_all
  = (Raise RuntimeError, Examples.keep_all).
Proof.
  split; [reflexivity|]. split; [reflexivity|].
  split; [split; [reflexivity | repeat constructor]|].
  eval_forward. reflexivity.
Qed.

(* ================================================================== *)
(** * Prefixes along the token axis *)

Lemma map2_map_lr {A A' B B' C} (F : A' -> B' -> C) (f : A -> A') (g : B -> B')
      u v :
  map2 F (map f u) (map g v) = map2 (fun a b => F (f a) (g b)) u v.
Proof.
  revert v; induction u as [|a u IH]; intros [|b v]; try reflexivity.
  simpl map. rewrite !map2_cons, IH. reflexivity.
Qed.

Lemma take_tokens_eval {A} j b n d (x : tensor (data3 A)) :
  shape x = [b; n; d] -> (j <= n)%nat ->
  take_tokens j x = Tensor [b; j; d] (map (firstn j) (data x)).
Proof.
  intros Hs Hj. unfold take_tokens. rewrite Hs, Nat.min_l by exact Hj.
  reflexivity.
Qed.

Lemma firstn_rect3 {A} b n d j (t : data3 A) :
  rect3 b n d t -> (j <= n)%nat -> rect3 b j d (map (firstn j) t).
Proof.
  intros [Hb Hr] Hj. split; [rewrite length_map; exact Hb|].
  apply Forall_map. eapply Forall_impl; [|exact Hr].
  intros m Hm. pose proof (firstn_rect2 n d j m Hm) as H.
  rewrite Nat.min_l in H by exact Hj. exact H.
Qed.

Lemma take_tokens_shape {A} j b n d (x : tensor (data3 A)) :
  has_shape3 b n d x -> (j <= n)%nat -> has_shape3 b j d (take_tokens j x).
Proof.
  intros [Hs Hr] Hj. rewrite (take_tokens_eval j b n d x Hs Hj).
  split; [reflexivity|]. apply (firstn_rect3 b n d j _ Hr Hj).
Qed.

Lemma take_tokens_all {A} b n d (x : tensor (data3 A)) :
  has_shape3 b n d x -> take_tokens n x = x.
Proof.
  intros [Hs [Hb Hr]]. rewrite (take_tokens_eval n b n d x Hs (le_n n)).
  destruct x as [sh dt]. cbn in *. subst sh. f_equal.
  apply map_id_Forall with (P := rect2 n d); [|exact Hr].
  intros m [Hm _]. rewrite <- Hm. apply firstn_all.
Qed.

(** Layers that work on every token by itself. *)
Lemma tokenwise_prefix {A B} (f : list A -> list B) j (t : data3 A) :
  map (firstn j) (map (map f) t) = map (map f) (map (firstn j) t).
Proof.
  rewrite !map_map. apply map_ext. intros m. apply firstn_map.
Qed.

Lemma LayerNorm_forward_eval emb b n (self : LayerNorm.t) (x : tensor (data3 R)) :
  LayerNorm.wf emb self -> shape x = [b; n; emb] ->
  LayerNorm.forward self x
  = Ok (Tensor [b; n; emb]
          (map (map (fun row =>
                       bzip Rplus
                            (bzip Rmult (LayerNorm.scale self)
                                  (LayerNorm.norm_x (LayerNorm.eps self) emb row))
                            (LayerNorm.shift self)))
               (data x))).
Proof.
  intros [Hsc Hsh] Hs. unfold LayerNorm.forward.
  rewrite Hs, Hsc, bdim_same. cbn [rbind]. rewrite Hsh, bdim_same. reflexivity.
Qed.

Lemma LayerNorm_forward_prefix emb b n (self : LayerNorm.t)
      (x : tensor (data3 R)) :
  LayerNorm.wf emb self -> has_shape3 b n emb x ->
  exists y, LayerNorm.forward self x = Ok y /\ has_shape3 b n emb y /\
    forall j, (j <= n)%nat ->
      LayerNorm.forward self (take_tokens j x) = Ok (take_tokens j y).
Proof.
  intros Hwf Hx.
  destruct (LayerNorm_forward_total emb b n self x Hwf Hx) as (y & E & Hy).
  exists y. split; [exact E|]. split; [exact Hy|]. intros j Hj.
  pose proof Hx as [Hs _].
  rewrite (LayerNorm_forward_eval emb b n self x Hwf Hs) in E.
  injection E as <-.
  rewrite (take_tokens_eval j b n emb x Hs Hj).
  erewrite (LayerNorm_forward_eval emb b j self _ Hwf) by reflexivity.
  erewrite (take_tokens_eval j b n emb) by (reflexivity || exact Hj). cbn [data].
  rewrite tokenwise_prefix. reflexivity.
Qed.

Lemma Linear_forward_prefix b n d_in d_out (l : Linear) (x : tensor (data3 R)) :
  Linear_wf d_in d_out l -> has_shape3 b n d_in x ->
  exists y, Linear_forward l x = Ok y /\ has_shape3 b n d_out y /\
    forall j, (j <= n)%nat ->
      Linear_forward l (take_tokens j x) = Ok (take_tokens j y).
Proof.
  intros Hl Hx.
  destruct (Linear_forward_total b n d_in d_out l x Hl Hx) as (y & E & Hy).
  exists y. split; [exact E|]. split; [exact Hy|]. intros j Hj.
  pose proof Hx as [Hs _].
  rewrite (Linear_forward_eval b n d_in l x Hs (wf_in_features Hl)) in E.
  injection E as <-.
  rewrite (take_tokens_eval j b n d_in x Hs Hj).
  erewrite (Linear_forward_eval b j d_in l)
    by (reflexivity || exact (wf_in_features Hl)).
  erewrite (take_tokens_eval j b n) by (reflexivity || exact Hj). cbn [data].
  rewrite !map_map. f_equal. apply (f_equal (Tensor _)).
  apply map_ext. intros X. apply linear_rows_firstn.
Qed.

Lemma gelu_prefix b n d j (h : tensor (data3 R)) :
  shape h = [b; n; d] -> (j <= n)%nat ->
  Tensor (shape (take_tokens j h))
         (map (map (map GELU.forward)) (data (take_tokens j h)))
  = take_tokens j (Tensor (shape h) (map (map (map GELU.forward)) (data h))).
Proof.
  intros Hs Hj.
  rewrite (take_tokens_eval j b n d h Hs Hj).
  erewrite (take_tokens_eval j b n d) by (exact Hs || exact Hj).
  cbn [shape data].
  rewrite tokenwise_prefix. reflexivity.
Qed.

Lemma FeedForward_forward_prefix emb b n (self : FeedForward.t)
      (x : tensor (data3 R)) :
  FeedForward.wf emb self -> has_shape3 b n emb x ->
  exists y, FeedForward.forward self x = Ok y /\ has_shape3 b n emb y /\
    forall j, (j <= n)%nat ->
      FeedForward.forward self (take_tokens j x) = Ok (take_tokens j y).
Proof.
  intros [H0 H2] Hx. unfold FeedForward.forward.
  destruct (Linear_forward_prefix b n _ _ _ x H0 Hx)
    as (hdn & E & [Hs [Hb Hr]] & P0).
  rewrite E. cbn [rbind].
  assert (Hg : has_shape3 b n (4 * emb)
                 (Tensor (shape hdn) (map (map (map GELU.forward)) (data hdn)))).
  { split; [exact Hs|]. cbn [data]. split; [rewrite length_map; exact Hb|].
    apply Forall_map. eapply Forall_impl; [|exact Hr]. apply rect2_map_map. }
  destruct (Linear_forward_prefix b n _ _ _ _ H2 Hg) as (y & E2 & Hy & P2).
  exists y. split; [exact E2|]. split; [exact Hy|]. intros j Hj.
  rewrite (P0 j Hj). cbn [rbind].
  rewrite (gelu_prefix b n (4 * emb) j hdn Hs Hj). apply (P2 j Hj).
Qed.

Lemma map2_ext_Forall {A B C} (F G : A -> B -> C) (P : A -> Prop)
      (Q : B -> Prop) u v :
  Forall P u -> Forall Q v ->
  (forall a b, P a -> Q b -> F a b = G a b) ->
  map2 F u v = map2 G u v.
Proof.
  intros Hu Hv H. revert v Hv.
  induction Hu as [|a u Ha Hu IH]; intros [|b v] Hv; try reflexivity.
  inversion Hv; subst. rewrite !map2_cons, IH, H; auto.
Qed.

Lemma bzip3_map2 b n d (X Y : data3 R) :
  rect3 b n d X -> rect3 b n d Y ->
  bzip (bzip (bzip Rplus)) X Y = map2 (map2 (map2 Rplus)) X Y.
Proof.
  intros [HX RX] [HY RY]. rewrite bzip_same by congruence.
  apply (map2_ext_Forall _ _ (rect2 n d) (rect2 n d)); auto.
  intros U V [HU RU] [HV RV]. rewrite bzip_same by congruence.
  apply (map2_ext_Forall _ _ (rect1 d) (rect1 d)); auto.
  intros u v Hu Hv. unfold rect1 in *. apply bzip_same. congruence.
Qed.

Lemma add3_eval b n d (x y : tensor (data3 R)) :
  has_shape3 b n d x -> has_shape3 b n d y ->
  add3 x y = Ok (Tensor [b; n; d] (map2 (map2 (map2 Rplus)) (data x) (data y))).
Proof.
  intros [Hsx Hrx] [Hsy Hry]. unfold add3.
  rewrite Hsx, Hsy, !bdim_same. cbn [rbind].
  rewrite (bzip3_map2 b n d _ _ Hrx Hry). reflexivity.
Qed.

Lemma add3_prefix b n d (x y : tensor (data3 R)) :
  has_shape3 b n d x -> has_shape3 b n d y ->
  exists z, add3 x y = Ok z /\ has_shape3 b n d z /\
    forall j, (j <= n)%nat ->
      add3 (take_tokens j x) (take_tokens j y) = Ok (take_tokens j z).
Proof.
  intros Hx Hy.
  destruct (add3_total b n d x y Hx Hy) as (z & E & Hz).
  exists z. split; [exact E|]. split; [exact Hz|]. intros j Hj.
  rewrite (add3_eval b n d x y Hx Hy) in E. injection E as <-.
  rewrite (add3_eval b j d _ _ (take_tokens_shape j b n d x Hx Hj)
                     (take_tokens_shape j b n d y Hy Hj)).
  destruct Hx as [Hsx _], Hy as [Hsy _].
  rewrite (take_tokens_eval j b n d x Hsx Hj),
          (take_tokens_eval j b n d y Hsy Hj).
  erewrite (take_tokens_eval j b n d) by (reflexivity || exact Hj). cbn [data].
  apply f_equal. apply (f_equal (Tensor _)).
  rewrite map2_map_lr, map_map2. apply map2_ext. intros X Y.
  symmetry. apply map2_firstn.
Qed.

Lemma Dropout_forward3_disabled (dr : Dropout) b n d (x : tensor (data3 R)) g :
  dropout_disabled dr = true -> has_shape3 b n d x ->
  Dropout_forward3 dr x g = (Ok x, g).
Proof.
  intros Hd [Hs Hr]. unfold Dropout_forward3, bind, ret. rewrite Hs.
  rewrite dropout_flat_disabled by exact Hd.
  rewrite group3_flatten3 by exact Hr. destruct x; simpl in *. subst. reflexivity.
Qed.

Lemma MultiHeadAttention_forward_prefix (self : MultiHeadAttention.t)
      d_in ctx b n (x : tensor (data3 R)) :
  MultiHeadAttention.wf d_in ctx self ->
  dropout_disabled (MultiHeadAttention.dropout self) = true ->
  has_shape3 b n d_in x -> (n <= ctx)%nat ->
  exists y,
    (forall g, MultiHeadAttention.forward self x g = (Ok y, g)) /\
    has_shape3 b n (Z.to_nat (MultiHeadAttention.d_out self)) y /\
    forall j g, (j <= n)%nat ->
      MultiHeadAttention.forward self (take_tokens j x) g
      = (Ok (take_tokens j y), g).
Proof.
  intros Hwf Hd Hx Hn.
  pose proof (forward_disabled self d_in ctx Hwf b n x) as F. cbv zeta in F.
  destruct (forward_total self d_in ctx Hwf b n x (fun _ => true) Hx Hn)
    as (y0 & g0 & E0 & Hy0). cbv zeta in Hy0.
  rewrite (F _ Hd Hx Hn) in E0. injection E0 as <- _.
  rewrite <- (wf_d_out_to_nat self d_in ctx Hwf) in *.
  eexists. split; [intros g; apply (F g Hd Hx Hn)|].
  split; [exact Hy0|]. intros j g Hj.
  pose proof (forward_disabled self d_in ctx Hwf b j (take_tokens j x) g Hd
                (take_tokens_shape j b n d_in x Hx Hj)) as Fj.
  cbv zeta in Fj. rewrite <- (wf_d_out_to_nat self d_in ctx Hwf) in Fj.
  rewrite Fj by lia.
  destruct Hx as [Hs [_ Hr]].
  rewrite (take_tokens_eval j b n d_in x Hs Hj).
  erewrite (take_tokens_eval j b n) by (reflexivity || exact Hj). cbn [data].
  apply (f_equal (fun t => (Ok t, g))). apply (f_equal (Tensor _)).
  rewrite !map_map. apply map_ext_in. intros X HX.
  rewrite Forall_forall in Hr. destruct (Hr X HX) as [HX' _].
  apply (batch_forward_prefix self d_in ctx Hwf n j X HX' Hj).
Qed.

(* ================================================================== *)
(** * The block on a prefix, and a stack of blocks *)

Lemma block_dropout_disabled_split (self : TransformerBlock.t) :
  block_dropout_disabled self = true ->
  dropout_disabled (MultiHeadAttention.dropout (TransformerBlock.att self)) = true
  /\ dropout_disabled (TransformerBlock.drop_shortcut self) = true.
Proof. unfold block_dropout_disabled. apply andb_prop. Qed.

Lemma TransformerBlock_forward_total (self : TransformerBlock.t) emb ctx b n
      (x : tensor (data3 R)) (g : rng) :
  TransformerBlock.wf emb ctx self -> has_shape3 b n emb x -> (n <= ctx)%nat ->
  exists y g', TransformerBlock.forward self x g = (Ok y, g') /\
               has_shape3 b n emb y.
Proof.
  intros [Ha Ho Hf H1 H2] Hx Hn.
  destruct (LayerNorm_forward_total emb b n _ x H1 Hx) as (x1 & E1 & S1).
  destruct (forward_total _ emb ctx Ha b n x1 g S1 Hn) as (a & g1 & E2 & S2).
  cbv zeta in S2.
  rewrite <- (wf_d_out_to_nat _ emb ctx Ha), Ho in S2.
  destruct (Dropout_forward3_total (TransformerBlock.drop_shortcut self)
              b n emb a g1 S2) as (d1 & g2 & E3 & S3).
  destruct (add3_total b n emb d1 x S3 Hx) as (s & E4 & S4).
  destruct (LayerNorm_forward_total emb b n _ s H2 S4) as (x2 & E5 & S5).
  destruct (FeedForward_forward_total emb b n _ x2 Hf S5) as (f & E6 & S6).
  destruct (Dropout_forward3_total (TransformerBlock.drop_shortcut self)
              b n emb f g2 S6) as (d2 & g3 & E7 & S7).
  destruct (add3_total b n emb d2 s S7 S4) as (y & E8 & S8).
  exists y, g3. split; [|exact S8].
  unfold TransformerBlock.forward, bind, lift, ret.
  rewrite E1, E2, E3, E4, E5, E6, E7, E8. reflexivity.
Qed.

Lemma TransformerBlock_forward_prefix (self : TransformerBlock.t) emb ctx b n
      (x : tensor (data3 R)) :
  TransformerBlock.wf emb ctx self ->
  block_dropout_disabled self = true ->
  has_shape3 b n emb x -> (n <= ctx)%nat ->
  exists y,
    (forall g, TransformerBlock.forward self x g = (Ok y, g)) /\
    has_shape3 b n emb y /\
    forall j g, (j <= n)%nat ->
      TransformerBlock.forward self (take_tokens j x) g
      = (Ok (take_tokens j y), g).
Proof.
  intros [Ha Ho Hf H1 H2] Hd Hx Hn.
  destruct (block_dropout_disabled_split self Hd) as [Hda Hds].
  destruct (LayerNorm_forward_prefix emb b n _ x H1 Hx) as (x1 & E1 & S1 & P1).
  destruct (MultiHeadAttention_forward_prefix _ emb ctx b n x1 Ha Hda S1 Hn)
    as (a & E2 & S2 & P2).
  rewrite Ho in S2.
  pose proof (fun g => Dropout_forward3_disabled _ b n emb a g Hds S2) as E3.
  destruct (add3_prefix b n emb a x S2 Hx) as (s & E4 & S4 & P4).
  destruct (LayerNorm_forward_prefix emb b n _ s H2 S4) as (x2 & E5 & S5 & P5).
  destruct (FeedForward_forward_prefix emb b n _ x2 Hf S5) as (f & E6 & S6 & P6).
  pose proof (fun g => Dropout_forward3_disabled _ b n emb f g Hds S6) as E7.
  destruct (add3_prefix b n emb f s S6 S4) as (y & E8 & S8 & P8).
  exists y. split; [|split; [exact S8|]].
  - intros g. unfold TransformerBlock.forward, bind, lift, ret.
    rewrite E1, E2, E3, E4, E5, E6, E7, E8. reflexivity.
  - intros j g Hj. unfold TransformerBlock.forward, bind, lift, ret.
    rewrite (P1 j Hj), (P2 j g Hj).
    rewrite (Dropout_forward3_disabled _ b j emb _ g Hds
               (take_tokens_shape j b n emb a S2 Hj)).
    rewrite (P4 j Hj), (P5 j Hj), (P6 j Hj).
    rewrite (Dropout_forward3_disabled _ b j emb _ g Hds
               (take_tokens_shape j b n emb f S6 Hj)).
    rewrite (P8 j Hj). reflexivity.
Qed.

Lemma run_blocks_total (bs : list TransformerBlock.t) emb ctx b n
      (x : tensor (data3 R)) (g : rng) :
  Forall (TransformerBlock.wf emb ctx) bs ->
  has_shape3 b n emb x -> (n <= ctx)%nat ->
  exists y g', GPTModel.run_blocks bs x g = (Ok y, g') /\ has_shape3 b n emb y.
Proof.
  intros Hbs. revert x g. induction Hbs as [|blk bs Hblk Hbs IH]; intros x g Hx Hn.
  - exists x, g. split; [reflexivity | exact Hx].
  - destruct (TransformerBlock_forward_total blk emb ctx b n x g Hblk Hx Hn)
      as (y & g1 & E & Hy).
    destruct (IH y g1 Hy Hn) as (z & g2 & E2 & Hz).
    exists z, g2. split; [|exact Hz].
    cbn [GPTModel.run_blocks]. unfold bind. rewrite E. exact E2.
Qed.

Lemma run_blocks_prefix (bs : list TransformerBlock.t) emb ctx b n
      (x : tensor (data3 R)) :
  Forall (TransformerBlock.wf emb ctx) bs ->
  Forall (fun blk => block_dropout_disabled blk = true) bs ->
  has_shape3 b n emb x -> (n <= ctx)%nat ->
  exists y,
    (forall g, GPTModel.run_blocks bs x g = (Ok y, g)) /\
    has_shape3 b n emb y /\
    forall j g, (j <= n)%nat ->
      GPTModel.run_blocks bs (take_tokens j x) g = (Ok (take_tokens j y), g).
Proof.
  intros Hbs. revert x.
  induction Hbs as [|blk bs Hblk Hbs IH]; intros x Hd Hx Hn.
  - exists x. split; [reflexivity|]. split; [exact Hx|]. reflexivity.
  - inversion Hd as [|? ? Hd1 Hd2]; subst.
    destruct (TransformerBlock_forward_prefix blk emb ctx b n x Hblk Hd1 Hx Hn)
      as (y & E & Hy & P).
    destruct (IH y Hd2 Hy Hn) as (z & E2 & Hz & P2).
    exists z. split; [|split; [exact Hz|]].
    + intros g. cbn [GPTModel.run_blocks]. unfold bind. rewrite E. apply E2.
    + intros j g Hj. cbn [GPTModel.run_blocks]. unfold bind.
      rewrite (P j g Hj). apply (P2 j g Hj).
Qed.

(* ================================================================== *)
(** * nn.Embedding and the input of the model *)

Lemma omapM_map {A B} (f : A -> outcome B) (h : A -> B) l :
  Forall (fun a => f a = Return (h a)) l -> omapM f l = Return (map h l).
Proof.
  induction 1 as [|a l Ha Hl IH]; [reflexivity|].
  cbn [omapM map]. rewrite Ha, IH. reflexivity.
Qed.

Lemma omapM_throw {A B} (f : A -> outcome B) e l :
  Forall (fun a => f a = Throw e \/ exists y, f a = Return y) l ->
  Exists (fun a => f a = Throw e) l ->
  omapM f l = Throw e.
Proof.
  induction 1 as [|a l Ha Hl IH]; intros Hex; [inversion Hex|].
  cbn [omapM]. destruct Ha as [Ha|[y Ha]]; rewrite Ha; [reflexivity|].
  inversion Hex as [? ? Hbad|? ? Hrest]; subst; [congruence|].
  rewrite (IH Hrest). reflexivity.
Qed.

Lemma Embedding_lookup_valid (e : Embedding) i :
  (0 <= i < Z.of_nat (num_embeddings e))%Z ->
  Embedding_lookup e i = Return (nth (Z.to_nat i) (emb_weight e) []).
Proof.
  intros [H0 H1]. unfold Embedding_lookup.
  apply Z.leb_le in H0. apply Z.ltb_lt in H1. rewrite H0, H1. reflexivity.
Qed.

Lemma lookup_error_elements (e : Embedding) :
  (0 < num_embeddings e)%nat -> (0 < embedding_dim e)%nat ->
  lookup_error e = IndexError.
Proof.
  intros Hn Hd. unfold lookup_error.
  destruct (Nat.eqb_spec (num_embeddings e) 0); [lia|].
  destruct (Nat.eqb_spec (embedding_dim e) 0); [lia|]. reflexivity.
Qed.

Lemma lookup_error_no_element (e : Embedding) :
  num_embeddings e = 0%nat \/ embedding_dim e = 0%nat ->
  lookup_error e = Other RuntimeError.
Proof.
  intros H. unfold lookup_error.
  destruct (Nat.eqb_spec (num_embeddings e) 0); [reflexivity|].
  destruct (Nat.eqb_spec (embedding_dim e) 0); [reflexivity|]. lia.
Qed.

Lemma lookup_error_cases (e : Embedding) :
  lookup_error e = IndexError \/ lookup_error e = Other RuntimeError.
Proof.
  unfold lookup_error.
  destruct ((num_embeddings e =? 0) || (embedding_dim e =? 0))%nat; auto.
Qed.

Lemma Embedding_lookup_invalid (e : Embedding) i :
  ~ (0 <= i < Z.of_nat (num_embeddings e))%Z ->
  Embedding_lookup e i = Throw (lookup_error e).
Proof.
  intros H. unfold Embedding_lookup.
  destruct (0 <=? i)%Z eqn:E0; [|reflexivity].
  destruct (i <? Z.of_nat (num_embeddings e))%Z eqn:E1; [|reflexivity].
  apply Z.leb_le in E0. apply Z.ltb_lt in E1. exfalso. apply H. lia.
Qed.

Lemma Embedding_lookup_cases (e : Embedding) i :
  Embedding_lookup e i = Throw (lookup_error e) \/
  exists y, Embedding_lookup e i = Return y.
Proof.
  unfold Embedding_lookup.
  destruct ((0 <=? i)%Z && (i <? Z.of_nat (num_embeddings e))%Z)%bool; eauto.
Qed.

Lemma Embedding_rows_cases (e : Embedding) (row : list Z) :
  omapM (Embedding_lookup e) row = Throw (lookup_error e) \/
  exists y, omapM (Embedding_lookup e) row = Return y.
Proof.
  induction row as [|i row IH]; [right; eexists; reflexivity|].
  cbn [omapM]. destruct (Embedding_lookup_cases e i) as [E|[y E]]; rewrite E.
  - now left.
  - destruct IH as [E2|[ys E2]]; rewrite E2; eauto.
Qed.

Lemma Embedding_forward2_valid (e : Embedding) b n (idx : tensor (data2 Z)) :
  shape idx = [b; n] -> valid_tokens (num_embeddings e) idx ->
  Embedding_forward2 e idx
  = Return (Tensor [b; n; embedding_dim e]
              (map (map (fun i => nth (Z.to_nat i) (emb_weight e) []))
                   (data idx))).
Proof.
  intros Hs Hv. unfold Embedding_forward2.
  rewrite (omapM_map _ (map (fun i => nth (Z.to_nat i) (emb_weight e) []))).
  - rewrite Hs. reflexivity.
  - eapply Forall_impl; [|exact Hv]. intros row Hrow.
    apply omapM_map. eapply Forall_impl; [|exact Hrow].
    intros i Hi. apply Embedding_lookup_valid. exact Hi.
Qed.

Lemma Embedding_forward2_invalid (e : Embedding) (idx : tensor (data2 Z)) :
  ~ valid_tokens (num_embeddings e) idx ->
  Embedding_forward2 e idx = Throw (lookup_error e).
Proof.
  intros Hv. unfold Embedding_forward2.
  rewrite (omapM_throw _ (lookup_error e)); [reflexivity| |].
  - apply Forall_forall. intros row _. apply Embedding_rows_cases.
  - unfold valid_tokens in Hv.
    apply neg_Forall_Exists_neg in Hv.
    + eapply Exists_impl; [|exact Hv]. intros row Hrow.
      apply omapM_throw.
      * apply Forall_forall. intros i _. apply Embedding_lookup_cases.
      * apply neg_Forall_Exists_neg in Hrow.
        -- eapply Exists_impl; [|exact Hrow]. intros i Hi.
           apply Embedding_lookup_invalid. exact Hi.
        -- intros i.
           destruct (Z_le_dec 0 i); [|right; lia].
           destruct (Z_lt_dec i (Z.of_nat (num_embeddings e)));
             [left|right]; lia.
    + intros row. apply Forall_dec. intros i.
      destruct (Z_le_dec 0 i); [|right; lia].
      destruct (Z_lt_dec i (Z.of_nat (num_embeddings e))); [left|right]; lia.
Qed.

Lemma map_nth_seq {A} (d : A) (l : list A) n s :
  (s + n <= length l)%nat ->
  map (fun k => nth k l d) (seq s n) = firstn n (skipn s l).
Proof.
  revert s l. induction n as [|n IH]; intros s l H; [reflexivity|].
  cbn [seq map]. rewrite (IH (S s) l) by lia.
  clear IH. revert l H. induction s as [|s IHs]; intros [|a l] H;
    cbn [length] in H; try lia.
  - reflexivity.
  - cbn [nth skipn]. apply (IHs l). lia.
Qed.

Lemma Embedding_forward1_arange (e : Embedding) n :
  (n <= num_embeddings e)%nat -> length (emb_weight e) = num_embeddings e ->
  Embedding_forward1 e (arange n)
  = Return (Tensor [n; embedding_dim e] (firstn n (emb_weight e))).
Proof.
  intros Hn Hl. unfold Embedding_forward1, arange. cbn [data shape].
  rewrite (omapM_map _ (fun i => nth (Z.to_nat i) (emb_weight e) [])).
  - rewrite map_map.
    rewrite (map_ext _ (fun k => nth k (emb_weight e) [])
               (fun k => f_equal (fun z => nth z (emb_weight e) [])
                                 (Nat2Z.id k))).
    rewrite (map_nth_seq [] (emb_weight e) n 0) by lia. reflexivity.
  - apply Forall_map, Forall_forall. intros k Hk. apply in_seq in Hk.
    apply Embedding_lookup_valid. lia.
Qed.

Lemma Embedding_forward1_arange_too_long (e : Embedding) n :
  (num_embeddings e < n)%nat ->
  Embedding_forward1 e (arange n) = Throw (lookup_error e).
Proof.
  intros Hn. unfold Embedding_forward1, arange. cbn [data shape].
  rewrite (omapM_throw _ (lookup_error e)); [reflexivity| |].
  - apply Forall_forall. intros i _. apply Embedding_lookup_cases.
  - apply Exists_exists. exists (Z.of_nat (num_embeddings e)). split.
    + apply in_map, in_seq. lia.
    + apply Embedding_lookup_invalid. lia.
Qed.

Lemma add3_2_eval b n d (x : tensor (data3 R)) (y : tensor (data2 R)) :
  has_shape3 b n d x -> has_shape2 n d y ->
  add3_2 x y
  = Ok (Tensor [b; n; d] (map (fun m => map2 (map2 Rplus) m (data y)) (data x))).
Proof.
  intros [Hsx [Hb Hrx]] [Hsy [Hn Hry]]. unfold add3_2.
  rewrite Hsx, Hsy, !bdim_same. cbn [rbind].
  apply f_equal. apply (f_equal (Tensor _)).
  apply map_ext_in. intros m Hm. rewrite Forall_forall in Hrx.
  destruct (Hrx m Hm) as [Lm Rm]. rewrite bzip_same by congruence.
  apply (map2_ext_Forall _ _ (rect1 d) (rect1 d)); auto.
  intros u v Hu Hv. unfold rect1 in *. apply bzip_same. congruence.
Qed.

Lemma nth_rect2 {A} n d (W : data2 A) k :
  rect2 n d W -> (k < n)%nat -> length (nth k W []) = d.
Proof.
  intros [Hl Hr] Hk. rewrite Forall_forall in Hr. apply Hr.
  apply nth_In. lia.
Qed.

Section Embeddings.
Import GPTModel.
Variables (self : GPTModel.t) (vocab emb ctx : nat).
Hypothesis Hwf : GPTModel.wf vocab emb ctx self.

Lemma token_rows_rect b n (ids : data2 Z) :
  rect2 b n ids ->
  Forall (Forall (fun i => (0 <= i < Z.of_nat vocab)%Z)) ids ->
  rect3 b n emb
    (map (map (fun i => nth (Z.to_nat i) (emb_weight (tok_emb self)) [])) ids).
Proof.
  intros [Hb Hr] Hv. split; [rewrite length_map; exact Hb|].
  apply Forall_map. rewrite Forall_forall in *. intros row Hrow.
  split; [rewrite length_map; apply (Hr row Hrow)|].
  apply Forall_map. specialize (Hv row Hrow). rewrite Forall_forall in *.
  intros i Hi. apply (nth_rect2 vocab emb _ _ (wf_tok_weight Hwf)).
  specialize (Hv i Hi). lia.
Qed.

Lemma position_rows_rect n :
  (n <= ctx)%nat -> rect2 n emb (firstn n (emb_weight (pos_emb self))).
Proof.
  intros Hn. pose proof (firstn_rect2 ctx emb n _ (wf_pos_weight Hwf)) as H.
  rewrite Nat.min_l in H by exact Hn. exact H.
Qed.

(** Lines 24-29 for valid indices and at most [context_length] tokens. *)
Lemma embeddings_eval b n (idx : tensor (data2 Z)) :
  has_shape2 b n idx -> valid_tokens vocab idx -> (n <= ctx)%nat ->
  exists te pe,
    Embedding_forward2 (tok_emb self) idx = Return te /\
    Embedding_forward1 (pos_emb self) (arange n) = Return pe /\
    add3_2 te pe = Ok (Tensor [b; n; emb] (embeddings self n (data idx))) /\
    has_shape3 b n emb (Tensor [b; n; emb] (embeddings self n (data idx))).
Proof.
  intros [Hs Hr] Hv Hn. eexists. eexists.
  split; [apply (Embedding_forward2_valid _ b n idx Hs);
          rewrite (wf_tok_num Hwf); exact Hv|].
  split; [apply Embedding_forward1_arange;
          [rewrite (wf_pos_num Hwf); exact Hn
          |rewrite (wf_pos_num Hwf); apply (wf_pos_weight Hwf)]|].
  rewrite (wf_tok_dim Hwf), (wf_pos_dim Hwf).
  pose proof (token_rows_rect b n _ Hr Hv) as Ht.
  pose proof (position_rows_rect n Hn) as Hp.
  assert (E : add3_2
                (Tensor [b; n; emb]
                   (map (map (fun i => nth (Z.to_nat i)
                                         (emb_weight (tok_emb self)) []))
                        (data idx)))
                (Tensor [n; emb] (firstn n (emb_weight (pos_emb self))))
              = Ok (Tensor [b; n; emb] (embeddings self n (data idx)))).
  { rewrite (add3_2_eval b n emb) by (split; [reflexivity|assumption]).
    cbn [data]. unfold embeddings. rewrite map_map. reflexivity. }
  split; [exact E|].
  split; [reflexivity|]. cbn [data]. unfold embeddings.
  destruct Ht as [Lt Rt]. split; [rewrite length_map; exact (proj1 Hr)|].
  apply Forall_map. rewrite Forall_map in Rt.
  eapply Forall_impl; [|exact Rt]. intros row Hrow. cbv beta in Hrow.
  apply (map2_rect _ (rect1 emb) (rect1 emb) (rect1 emb) n);
    try apply Hrow; try apply Hp.
  intros u v Hu Hv'. unfold rect1 in *.
  rewrite map2_length, Hu, Hv'. apply Nat.min_id.
Qed.

Lemma embeddings_prefix n j (ids : data2 Z) :
  (j <= n)%nat ->
  embeddings self j (map (firstn j) ids) = map (firstn j) (embeddings self n ids).
Proof.
  intros Hj. unfold embeddings. rewrite !map_map. apply map_ext. intros row.
  rewrite map2_firstn, firstn_map, firstn_firstn, Nat.min_l by exact Hj.
  reflexivity.
Qed.

End Embeddings.

(* ================================================================== *)
(** * GPTModel.forward *)

Lemma GPTModel_forward_total (self : GPTModel.t) vocab emb ctx b n
      (idx : tensor (data2 Z)) (g : rng) :
  GPTModel.wf vocab emb ctx self ->
  has_shape2 b n idx -> valid_tokens vocab idx -> (n <= ctx)%nat ->
  exists logits g',
    GPTModel.forward self idx g = (Return logits, g') /\
    has_shape3 b n vocab logits.
Proof.
  intros Hwf Hidx Hv Hn.
  destruct (embeddings_eval self vocab emb ctx Hwf b n idx Hidx Hv Hn)
    as (te & pe & E1 & E2 & E3 & S3).
  destruct (Dropout_forward3_total (GPTModel.drop_emb self) b n emb _ g S3)
    as (x1 & g1 & E4 & S4).
  destruct (run_blocks_total _ emb ctx b n x1 g1 (GPTModel.wf_blocks Hwf) S4 Hn)
    as (x2 & g2 & E5 & S5).
  destruct (LayerNorm_forward_total emb b n _ x2 (GPTModel.wf_final_norm Hwf) S5)
    as (x3 & E6 & S6).
  destruct (Linear_forward_total b n emb vocab _ x3 (GPTModel.wf_out_head Hwf) S6)
    as (logits & E7 & S7).
  exists logits, g2. split; [|exact S7].
  unfold GPTModel.forward. rewrite (proj1 Hidx).
  unfold gbind, glift, gret, of_M.
  rewrite E1, E2, E3. cbn [of_result]. rewrite E4. cbn [of_result fst snd].
  rewrite E5. cbn [of_result fst snd]. rewrite E6. cbn [of_result].
  rewrite E7. reflexivity.
Qed.

Lemma take_cols_eval {A} j b n (t : tensor (data2 A)) :
  shape t = [b; n] -> (j <= n)%nat ->
  take_cols j t = Tensor [b; j] (map (firstn j) (data t)).
Proof.
  intros Hs Hj. unfold take_cols. rewrite Hs, Nat.min_l by exact Hj.
  reflexivity.
Qed.

Lemma take_cols_shape {A} j b n (t : tensor (data2 A)) :
  has_shape2 b n t -> (j <= n)%nat -> has_shape2 b j (take_cols j t).
Proof.
  intros [Hs [Hb Hr]] Hj. rewrite (take_cols_eval j b n t Hs Hj).
  split; [reflexivity|]. cbn [data]. split; [rewrite length_map; exact Hb|].
  apply Forall_map. eapply Forall_impl; [|exact Hr].
  intros r Hr'. unfold rect1 in *. rewrite length_firstn, Hr'. lia.
Qed.

Lemma take_cols_all {A} b n (t : tensor (data2 A)) :
  has_shape2 b n t -> take_cols n t = t.
Proof.
  intros [Hs [Hb Hr]]. rewrite (take_cols_eval n b n t Hs (le_n n)).
  destruct t as [sh dt]. cbn in *. subst sh. apply (f_equal (Tensor _)).
  apply map_id_Forall with (P := rect1 n); [|exact Hr].
  intros r Hr'. unfold rect1 in Hr'. rewrite <- Hr'. apply firstn_all.
Qed.

Lemma Forall_firstn {A} (P : A -> Prop) j l :
  Forall P l -> Forall P (firstn j l).
Proof.
  intros H. revert j. induction H as [|a l Ha Hl IH]; intros [|j];
    cbn [firstn]; auto.
Qed.

Lemma Forall_skipn {A} (P : A -> Prop) j l :
  Forall P l -> Forall P (skipn j l).
Proof.
  intros H. revert j. induction H as [|a l Ha Hl IH]; intros [|j];
    cbn [skipn]; auto.
Qed.

Lemma take_cols_valid j b n vocab (t : tensor (data2 Z)) :
  shape t = [b; n] -> (j <= n)%nat ->
  valid_tokens vocab t -> valid_tokens vocab (take_cols j t).
Proof.
  intros Hs Hj Hv. rewrite (take_cols_eval j b n t Hs Hj).
  unfold valid_tokens in *. cbn [data]. apply Forall_map.
  eapply Forall_impl; [|exact Hv]. intros r Hr'.
  apply Forall_firstn. exact Hr'.
Qed.

Lemma GPTModel_forward_prefix (self : GPTModel.t) vocab emb ctx b n
      (idx : tensor (data2 Z)) :
  GPTModel.wf vocab emb ctx self -> GPTModel.dropout_off self ->
  has_shape2 b n idx -> valid_tokens vocab idx -> (n <= ctx)%nat ->
  exists logits,
    (forall g, GPTModel.forward self idx g = (Return logits, g)) /\
    has_shape3 b n vocab logits /\
    forall j g, (j <= n)%nat ->
      GPTModel.forward self (take_cols j idx) g
      = (Return (take_tokens j logits), g).
Proof.
  intros Hwf [Hde Hdb] Hidx Hv Hn.
  destruct (embeddings_eval self vocab emb ctx Hwf b n idx Hidx Hv Hn)
    as (te & pe & E1 & E2 & E3 & S3).
  pose proof (fun g => Dropout_forward3_disabled (GPTModel.drop_emb self)
                         b n emb _ g Hde S3) as E4.
  destruct (run_blocks_prefix _ emb ctx b n _ (GPTModel.wf_blocks Hwf) Hdb S3 Hn)
    as (x2 & E5 & S5 & P5).
  destruct (LayerNorm_forward_prefix emb b n _ x2 (GPTModel.wf_final_norm Hwf) S5)
    as (x3 & E6 & S6 & P6).
  destruct (Linear_forward_prefix b n emb vocab _ x3 (GPTModel.wf_out_head Hwf) S6)
    as (logits & E7 & S7 & P7).
  exists logits. split; [|split; [exact S7|]].
  - intros g. unfold GPTModel.forward. rewrite (proj1 Hidx).
    unfold gbind, glift, gret, of_M.
    rewrite E1, E2, E3. cbn [of_result]. rewrite E4. cbn [of_result fst snd].
    rewrite E5. cbn [of_result fst snd]. rewrite E6. cbn [of_result].
    rewrite E7. reflexivity.
  - intros j g Hj.
    pose proof (take_cols_shape j b n idx Hidx Hj) as Hidx'.
    pose proof (take_cols_valid j b n vocab idx (proj1 Hidx) Hj Hv) as Hv'.
    destruct (embeddings_eval self vocab emb ctx Hwf b j _ Hidx' Hv'
                (Nat.le_trans _ _ _ Hj Hn))
      as (te' & pe' & E1' & E2' & E3' & S3').
    assert (Ee : Tensor [b; j; emb]
                   (GPTModel.embeddings self j (data (take_cols j idx)))
                 = take_tokens j
                     (Tensor [b; n; emb]
                        (GPTModel.embeddings self n (data idx)))).
    { rewrite (take_cols_eval j b n idx (proj1 Hidx) Hj).
      erewrite (take_tokens_eval j b n emb) by (reflexivity || exact Hj).
      cbn [data]. rewrite (embeddings_prefix self n j _ Hj). reflexivity. }
    rewrite Ee in E3', S3'.
    unfold GPTModel.forward. rewrite (proj1 Hidx').
    unfold gbind, glift, gret, of_M.
    rewrite E1', E2', E3'. cbn [of_result].
    rewrite (Dropout_forward3_disabled _ b j emb _ g Hde S3').
    cbn [of_result fst snd]. rewrite (P5 j g Hj). cbn [of_result fst snd].
    rewrite (P6 j Hj). cbn [of_result]. rewrite (P7 j Hj). reflexivity.
Qed.

Lemma Embedding_forward2_cases (e : Embedding) b n (idx : tensor (data2 Z)) :
  shape idx = [b; n] ->
  Embedding_forward2 e idx = Throw (lookup_error e) \/
  exists y, Embedding_forward2 e idx = Return y.
Proof.
  intros Hs. unfold Embedding_forward2. rewrite Hs.
  destruct (omapM (omapM (Embedding_lookup e)) (data idx)) as [rows|err] eqn:E.
  - right. eexists. reflexivity.
  - left. f_equal.
    assert (H : omapM (omapM (Embedding_lookup e)) (data idx)
                = Throw (lookup_error e)
                \/ exists y, omapM (omapM (Embedding_lookup e)) (data idx)
                             = Return y).
    { clear E. induction (data idx) as [|row rows' IH];
        [right; eexists; reflexivity|].
      cbn [omapM]. destruct (Embedding_rows_cases e row) as [E|[y E]]; rewrite E.
      - now left.
      - destruct IH as [E2|[ys E2]]; rewrite E2; eauto. }
    destruct H as [H|[y H]]; congruence.
Qed.

(* ================================================================== *)
(** * eval() *)

Lemma Dropout_eval_disabled (d : Dropout) :
  dropout_disabled (Dropout_eval d) = true.
Proof. reflexivity. Qed.

Lemma MultiHeadAttention_eval_wf (m : MultiHeadAttention.t) d_in ctx :
  MultiHeadAttention.wf d_in ctx m ->
  MultiHeadAttention.wf d_in ctx (MultiHeadAttention_eval m).
Proof. intros [H1 H2 H3 H4 H5 H6 H7 H8]. constructor; assumption. Qed.

Lemma TransformerBlock_eval_wf (m : TransformerBlock.t) emb ctx :
  TransformerBlock.wf emb ctx m ->
  TransformerBlock.wf emb ctx (TransformerBlock_eval m).
Proof.
  intros [H1 H2 H3 H4 H5]. constructor; try assumption.
  apply MultiHeadAttention_eval_wf. exact H1.
Qed.

Lemma GPTModel_eval_wf (self : GPTModel.t) vocab emb ctx :
  GPTModel.wf vocab emb ctx self ->
  GPTModel.wf vocab emb ctx (GPTModel.eval self).
Proof.
  intros [H1 H2 H3 H4 H5 H6 H7 H8 H9]. constructor; try assumption.
  cbn. apply Forall_map. eapply Forall_impl; [|exact H7].
  intros blk. apply TransformerBlock_eval_wf.
Qed.

Lemma GPTModel_eval_dropout_off (self : GPTModel.t) :
  GPTModel.dropout_off (GPTModel.eval self).
Proof.
  split; [reflexivity|]. cbn. apply Forall_map, Forall_forall.
  intros blk _. reflexivity.
Qed.

(* ================================================================== *)
(** * The steps of the decoding loop *)

Lemma py_start_crop c n :
  (0 < c)%Z -> py_start (- c) n = (n - Z.to_nat c)%nat.
Proof.
  intros Hc. unfold py_start.
  destruct (- c <? 0)%Z eqn:E; [|apply Z.ltb_ge in E; exfalso; lia].
  destruct (Z.max_spec 0 (Z.of_nat n + - c)) as [[H ->]|[H ->]]; lia.
Qed.

Lemma py_start_le s n : (py_start s n <= n)%nat.
Proof.
  unfold py_start. destruct (s <? 0)%Z eqn:E; [|lia].
  apply Z.ltb_lt in E.
  destruct (Z.max_spec 0 (Z.of_nat n + s)) as [[H ->]|[H ->]]; lia.
Qed.

Lemma skipn_rect2 {A} b n k (m : data2 A) :
  rect2 b n m -> rect2 b (n - k) (map (skipn k) m).
Proof.
  intros [Hb Hr]. split; [rewrite length_map; exact Hb|].
  apply Forall_map. eapply Forall_impl; [|exact Hr].
  intros r Hr'. unfold rect1 in *. rewrite length_skipn, Hr'. reflexivity.
Qed.

Lemma slice_cols_from_ok s b n vocab (idx : tensor (data2 Z)) :
  has_shape2 b n idx -> valid_tokens vocab idx ->
  exists t, slice_cols_from s idx = Return t /\
            has_shape2 b (n - py_start s n) t /\ valid_tokens vocab t.
Proof.
  intros [Hs Hr] Hv. unfold slice_cols_from. rewrite Hs.
  eexists. split; [reflexivity|]. split.
  - split; [reflexivity|]. apply skipn_rect2. exact Hr.
  - unfold valid_tokens in *. cbn [data]. apply Forall_map.
    eapply Forall_impl; [|exact Hv]. intros r. apply Forall_skipn.
Qed.

Lemma last_rect2 {A} n v (m : data2 A) :
  rect2 n v m -> (0 < n)%nat -> length (last m []) = v.
Proof.
  intros [Hn Hr] Hpos. rewrite Forall_forall in Hr. apply Hr.
  destruct m as [|r m]; [simpl in Hn; lia|].
  destruct (exists_last (l := r :: m)) as (m' & a & E); [discriminate|].
  rewrite E, last_last. apply in_or_app. right. now left.
Qed.

Lemma select_last_ok b n v (logits : tensor (data3 R)) :
  has_shape3 b n v logits -> (0 < n)%nat ->
  exists t, select_last logits = Return t /\ has_shape2 b v t.
Proof.
  intros [Hs [Hb Hr]] Hn. unfold select_last. rewrite Hs.
  destruct (n =? 0)%nat eqn:E; [apply Nat.eqb_eq in E; lia|].
  eexists. split; [reflexivity|]. split; [reflexivity|]. cbn [data].
  split; [rewrite length_map; exact Hb|].
  apply Forall_map. eapply Forall_impl; [|exact Hr].
  intros m Hm. apply (last_rect2 n v m Hm Hn).
Qed.

Lemma select_last_empty b v (logits : tensor (data3 R)) :
  shape logits = [b; 0%nat; v] -> select_last logits = Throw IndexError.
Proof. intros Hs. unfold select_last. rewrite Hs. reflexivity. Qed.

Lemma argmax_row_lt (l : list R) : l <> [] -> (argmax_row l < length l)%nat.
Proof.
  induction l as [|a l IH]; [congruence|]. intros _.
  cbn [argmax_row length]. destruct l as [|a' l']; [lia|].
  destruct (Rle_dec _ a); [lia|].
  apply -> Nat.succ_lt_mono. apply IH. discriminate.
Qed.

Lemma softmax2_shape b v (t : tensor (data2 R)) :
  has_shape2 b v t -> has_shape2 b v (softmax2 (tmap2 Fin t)).
Proof.
  intros [Hs [Hb Hr]]. split; [exact Hs|]. cbn [softmax2 tmap2 data].
  split; [rewrite !length_map; exact Hb|].
  apply Forall_map, Forall_map. eapply Forall_impl; [|exact Hr].
  intros r Hr'. unfold rect1 in *.
  rewrite softmax_row_length, length_map. exact Hr'.
Qed.

Lemma argmax_last_ok b v (t : tensor (data2 R)) :
  has_shape2 b v t -> (0 < v)%nat ->
  exists next, argmax_last t = Return next /\
               has_shape2 b 1 next /\ valid_tokens v next.
Proof.
  intros [Hs [Hb Hr]] Hv. unfold argmax_last. rewrite Hs.
  destruct (v =? 0)%nat eqn:E; [apply Nat.eqb_eq in E; lia|].
  eexists. split; [reflexivity|]. split.
  - split; [reflexivity|]. cbn [data]. split; [rewrite length_map; exact Hb|].
    apply Forall_map, Forall_forall. intros r _. reflexivity.
  - unfold valid_tokens. cbn [data]. apply Forall_map.
    eapply Forall_impl; [|exact Hr]. intros r Hr'. constructor; [|constructor].
    unfold rect1 in Hr'.
    pose proof (argmax_row_lt r) as H.
    assert (r <> []) by (intros ->; simpl in Hr'; lia). specialize (H H0). lia.
Qed.

Lemma cat1_ok {A} b n k (x y : tensor (data2 A)) :
  has_shape2 b n x -> has_shape2 b k y ->
  cat1 x y = Ok (Tensor [b; (n + k)%nat] (map2 (@app A) (data x) (data y))) /\
  has_shape2 b (n + k) (Tensor [b; (n + k)%nat]
                               (map2 (@app A) (data x) (data y))).
Proof.
  intros [Hsx [Hbx Hrx]] [Hsy [Hby Hry]]. unfold cat1.
  rewrite Hsx, Hsy, Nat.eqb_refl. split; [reflexivity|].
  split; [reflexivity|]. cbn [data].
  apply (map2_rect _ (rect1 n) (rect1 k) (rect1 (n + k)) b); auto.
  intros u w Hu Hw. unfold rect1 in *. rewrite length_app. congruence.
Qed.

Lemma cat1_prefix {A} b n k (X Y : data2 A) :
  rect2 b n X -> rect2 b k Y ->
  map (firstn n) (map2 (@app A) X Y) = X.
Proof.
  intros [HX RX] [HY RY]. revert b Y HX HY RY.
  induction RX as [|r X Hr RX IH]; intros b [|w Y] HX HY RY;
    simpl in HX, HY; try reflexivity; try lia.
  rewrite map2_cons. cbn [map]. inversion RY; subst.
  unfold rect1 in Hr. f_equal.
  - rewrite <- Hr, firstn_app, Nat.sub_diag, firstn_all.
    cbn [firstn]. apply app_nil_r.
  - apply (IH (length X) Y); auto.
Qed.

Lemma cat1_valid vocab (X Y : data2 Z) :
  Forall (Forall (fun i => (0 <= i < Z.of_nat vocab)%Z)) X ->
  Forall (Forall (fun i => (0 <= i < Z.of_nat vocab)%Z)) Y ->
  Forall (Forall (fun i => (0 <= i < Z.of_nat vocab)%Z)) (map2 (@app Z) X Y).
Proof.
  intros HX. revert Y. induction HX as [|r X Hr HX IH]; intros [|w Y] HY;
    try constructor.
  - inversion HY; subst. apply Forall_app. split; assumption.
  - inversion HY; subst. apply IH. assumption.
Qed.

Section Generate.
Variables (model : tensor (data2 Z) -> G (tensor (data3 R))).
Variables (b vocab c : nat).
Hypothesis Hvocab : (0 < vocab)%nat.
Hypothesis Hc : (0 < c)%nat.
Hypothesis model_ok :
  forall (t : tensor (data2 Z)) (n : nat) (g : rng),
    has_shape2 b n t -> valid_tokens vocab t -> (0 < n <= c)%nat ->
    exists logits g', model t g = (Return logits, g') /\
                      has_shape3 b n vocab logits.

Lemma generate_step_ok n (idx : tensor (data2 Z)) (g : rng) :
  has_shape2 b n idx -> valid_tokens vocab idx -> (0 < n)%nat ->
  exists idx' g',
    generate_step model (Z.of_nat c) idx g = (Return idx', g') /\
    has_shape2 b (S n) idx' /\ valid_tokens vocab idx' /\
    take_cols n idx' = idx.
Proof.
  intros Hidx Hv Hn.
  destruct (slice_cols_from_ok (- Z.of_nat c) b n vocab idx Hidx Hv)
    as (cond & E1 & S1 & V1).
  rewrite py_start_crop in S1 by lia. rewrite Nat2Z.id in S1.
  assert (Hcn : (0 < n - (n - c) <= c)%nat) by lia.
  destruct (model_ok cond _ g S1 V1 Hcn) as (logits & g' & E2 & S2).
  destruct (select_last_ok b _ vocab logits S2 (proj1 Hcn)) as (lst & E3 & S3).
  destruct (argmax_last_ok b vocab _ (softmax2_shape b vocab lst S3) Hvocab)
    as (next & E4 & S4 & V4).
  destruct (cat1_ok b n 1 idx next Hidx S4) as [E5 S5].
  eexists. exists g'. split.
  - unfold generate_step, gbind, glift. rewrite E1, E2, E3, E4, E5. reflexivity.
  - rewrite Nat.add_1_r in *. split; [exact S5|]. split.
    + apply cat1_valid; assumption.
    + erewrite (take_cols_eval n b (S n)) by (reflexivity || lia). cbn [data].
      rewrite (cat1_prefix b n 1 _ _ (proj2 Hidx) (proj2 S4)).
      destruct idx as [sh dt]. destruct Hidx as [Hs _]. cbn in *. now subst.
Qed.

Lemma generate_loop_ok k : forall n (idx : tensor (data2 Z)) (g : rng),
  has_shape2 b n idx -> valid_tokens vocab idx -> (0 < n)%nat ->
  exists idx' g',
    generate_loop model (Z.of_nat c) k idx g = (Return idx', g') /\
    has_shape2 b (n + k) idx' /\ valid_tokens vocab idx' /\
    take_cols n idx' = idx.
Proof.
  induction k as [|k IH]; intros n idx g Hidx Hv Hn.
  - exists idx, g. rewrite Nat.add_0_r. split; [reflexivity|].
    split; [exact Hidx|]. split; [exact Hv|].
    apply (take_cols_all b n idx Hidx).
  - destruct (generate_step_ok n idx g Hidx Hv Hn)
      as (idx1 & g1 & E1 & S1 & V1 & P1).
    destruct (IH (S n) idx1 g1 S1 V1 (Nat.lt_0_succ n))
      as (idx2 & g2 & E2 & S2 & V2 & P2).
    exists idx2, g2. split.
    + cbn [generate_loop]. unfold gbind. rewrite E1. exact E2.
    + replace (n + S k)%nat with (S n + k)%nat by lia.
      split; [exact S2|]. split; [exact V2|].
      rewrite <- P1, <- P2.
      destruct S2 as [Hs2 _].
      rewrite (take_cols_eval (S n) b (S n + k) idx2 Hs2) by lia.
      rewrite (take_cols_eval n b (S n + k) idx2 Hs2) by lia.
      erewrite (take_cols_eval n b (S n)) by (reflexivity || lia).
      cbn [data]. apply (f_equal (Tensor _)).
      rewrite map_map. apply map_ext. intros r.
      rewrite firstn_firstn. f_equal. lia.
Qed.

End Generate.

(* ================================================================== *)
(** * argmax *)





(* ================================================================== *)
(** * LayerNorm on shifted rows and on rows of another width *)

Lemma Rsum_map_add c row :
  Rsum (map (fun v => v + c) row) = Rsum row + INR (length row) * c.
Proof.
  induction row as [|v row IH]; [simpl; lra|].
  cbn [map Rsum fold_right length]. unfold Rsum in IH. rewrite IH, S_INR. lra.
Qed.

Lemma mean_row_add d row c :
  length row = d -> (0 < d)%nat ->
  mean_row d (map (fun v => v + c) row) = mean_row d row + c.
Proof.
  intros Hl Hd. unfold mean_row. rewrite Rsum_map_add, Hl.
  assert (INR d <> 0) by (apply not_0_INR; lia). field. assumption.
Qed.

Lemma var_row_add d row c :
  length row = d -> (0 < d)%nat ->
  var_row d (map (fun v => v + c) row) = var_row d row.
Proof.
  intros Hl Hd. unfold var_row. rewrite (mean_row_add d row c Hl Hd).
  rewrite map_map. f_equal. f_equal. apply map_ext. intros v. ring.
Qed.

Lemma norm_x_add e d row c :
  length row = d ->
  LayerNorm.norm_x e d (map (fun v => v + c) row) = LayerNorm.norm_x e d row.
Proof.
  intros Hl. destruct d as [|d'].
  - destruct row; [reflexivity|discriminate].
  - unfold LayerNorm.norm_x.
    rewrite (mean_row_add _ row c Hl), (var_row_add _ row c Hl) by lia.
    rewrite map_map. apply map_ext. intros v. f_equal. ring.
Qed.

Lemma norm_x_single e v : LayerNorm.norm_x e 1 [v] = [0].
Proof.
  unfold LayerNorm.norm_x, mean_row. cbn [map Rsum fold_right INR].
  f_equal. unfold Rdiv. replace (v - (v + 0) * / 1) with 0 by (field; lra).
  ring.
Qed.

Lemma map2_repeat_r {A B C} (F : A -> B -> C) (u : list A) (c : B) :
  map2 F u (repeat c (length u)) = map (fun a => F a c) u.
Proof.
  induction u as [|a u IH]; [reflexivity|].
  cbn [length repeat map]. rewrite map2_cons, IH. reflexivity.
Qed.

Lemma scale_zero_shift (sc sh : list R) :
  length sc = length sh ->
  bzip Rplus (bzip Rmult sc [0]) sh = sh.
Proof.
  intros Hl.
  assert (E : bzip Rmult sc [0] = map (fun s => s * 0) sc).
  { unfold bzip, stretch. cbn [length].
    destruct (length sc =? 1)%nat eqn:E1.
    - apply Nat.eqb_eq in E1. rewrite Nat.eqb_sym, (proj2 (Nat.eqb_eq _ _) E1).
      destruct sc as [|s [|s' sc]]; try discriminate. reflexivity.
    - rewrite Nat.eqb_sym, E1.
      assert (Es : match sc with [a] => repeat a 1 | _ => sc end = sc).
      { destruct sc as [|s [|s' sc]]; reflexivity. }
      rewrite Es. apply map2_repeat_r. }
  rewrite E, bzip_same by (rewrite length_map; exact Hl).
  clear E. revert sh Hl. induction sc as [|s sc IH]; intros [|t sh] Hl;
    try discriminate; [reflexivity|].
  cbn [map]. rewrite map2_cons. f_equal; [ring|]. apply IH.
  simpl in Hl. lia.
Qed.

(* ================================================================== *)
(** * GELU *)

Lemma tanh_bounds u : -1 < tanh u < 1.
Proof.
  unfold tanh, sinh, cosh.
  pose proof (exp_pos u) as Ha. pose proof (exp_pos (- u)) as Hb.
  set (a := exp u) in *. set (b := exp (- u)) in *.
  replace ((a - b) / 2 / ((a + b) / 2)) with ((a - b) * / (a + b))
    by (field; lra).
  assert (Hs : 0 < / (a + b)) by (apply Rinv_0_lt_compat; lra).
  assert (Hp : (a + b) * / (a + b) = 1) by (field; lra).
  set (s := / (a + b)) in *.
  assert (0 < a * s) by (apply Rmult_lt_0_compat; assumption).
  assert (0 < b * s) by (apply Rmult_lt_0_compat; assumption).
  split; nra.
Qed.

Lemma tanh_nonneg u : 0 <= u -> 0 <= tanh u.
Proof.
  intros Hu. unfold tanh, sinh, cosh.
  pose proof (exp_pos u) as Ha. pose proof (exp_pos (- u)) as Hb.
  assert (Hab : exp (- u) <= exp u).
  { destruct Hu as [Hu| <-]; [left; apply exp_increasing; lra|].
    rewrite Ropp_0. lra. }
  set (a := exp u) in *. set (b := exp (- u)) in *.
  replace ((a - b) / 2 / ((a + b) / 2)) with ((a - b) * / (a + b))
    by (field; lra).
  apply Rmult_le_pos; [lra|]. left. apply Rinv_0_lt_compat. lra.
Qed.

Lemma tanh_nonpos u : u <= 0 -> tanh u <= 0.
Proof.
  intros Hu. unfold tanh, sinh, cosh.
  pose proof (exp_pos u) as Ha. pose proof (exp_pos (- u)) as Hb.
  assert (Hab : exp u <= exp (- u)).
  { destruct Hu as [Hu| ->]; [left; apply exp_increasing; lra|].
    rewrite Ropp_0. lra. }
  set (a := exp u) in *. set (b := exp (- u)) in *.
  replace ((a - b) / 2 / ((a + b) / 2)) with (- ((b - a) * / (a + b)))
    by (field; lra).
  assert (0 <= (b - a) * / (a + b)); [|lra].
  apply Rmult_le_pos; [lra|]. left. apply Rinv_0_lt_compat. lra.
Qed.

(** The argument of [tanh] in GELU has the sign of [x]. *)
Lemma gelu_inner_sign x :
  (0 <= x -> 0 <= sqrt (2 / PI) * (x + 44715 / 1000000 * (x * x * x))) /\
  (x <= 0 -> sqrt (2 / PI) * (x + 44715 / 1000000 * (x * x * x)) <= 0).
Proof.
  pose proof (sqrt_pos (2 / PI)) as Hs.
  assert (Hc : 0 <= x * x) by nra.
  split; intros Hx.
  - apply Rmult_le_pos; [exact Hs|]. nra.
  - assert (0 <= sqrt (2 / PI) * - (x + 44715 / 1000000 * (x * x * x))); [|lra].
    apply Rmult_le_pos; [exact Hs|]. nra.
Qed.

(* ================================================================== *)
(** * Construction of the block and of the model *)

Lemma nn_Linear_ok src i o bias_flag :
  (0 <= i)%Z -> (0 <= o)%Z -> exists l, nn_Linear src i o bias_flag = Ok l.
Proof.
  intros Hi Ho. unfold nn_Linear.
  destruct (Z.ltb_spec i 0); [lia|]. destruct (Z.ltb_spec o 0); [lia|].
  eexists. reflexivity.
Qed.

Lemma nn_Linear_fails src i o bias_flag :
  (i < 0 \/ o < 0)%Z -> nn_Linear src i o bias_flag = Raise RuntimeError.
Proof.
  intros H. unfold nn_Linear.
  destruct (Z.ltb_spec i 0); [reflexivity|].
  destruct (Z.ltb_spec o 0); [reflexivity|]. lia.
Qed.

Lemma nn_Dropout_ok prob :
  (0 <= prob)%Q -> (prob <= 1)%Q -> exists d, nn_Dropout prob = Ok d.
Proof.
  intros H0 H1. unfold nn_Dropout.
  apply Qle_bool_iff in H0. apply Qle_bool_iff in H1. rewrite H0, H1.
  eexists. reflexivity.
Qed.

Lemma nn_Dropout_fails prob :
  ~ ((0 <= prob)%Q /\ (prob <= 1)%Q) -> nn_Dropout prob = Raise ValueError.
Proof.
  intros H. unfold nn_Dropout.
  destruct (Qle_bool 0 prob) eqn:E0; [|reflexivity].
  destruct (Qle_bool prob 1) eqn:E1; [|reflexivity].
  exfalso. apply H. split; apply Qle_bool_iff; assumption.
Qed.

Lemma MultiHeadAttention_init_ok src d_in d_out ctx prob H bias_flag :
  H <> 0%Z -> (d_out mod H = 0)%Z -> (0 <= d_in)%Z -> (0 <= d_out)%Z ->
  (0 <= ctx)%Z -> (0 <= prob)%Q -> (prob <= 1)%Q ->
  exists self, MultiHeadAttention.init src d_in d_out ctx prob H bias_flag
               = Ok self.
Proof.
  intros HH Hm Hi Ho Hc H0 H1.
  unfold MultiHeadAttention.init, py_mod, py_floordiv.
  destruct (Z.eqb_spec H 0) as [?|_]; [contradiction|]. cbn [rbind].
  rewrite Hm. cbn [Z.eqb negb rbind].
  destruct (nn_Linear_ok (MultiHeadAttention.src_query src) d_in d_out
              bias_flag Hi Ho) as [wq ->].
  destruct (nn_Linear_ok (MultiHeadAttention.src_key src) d_in d_out
              bias_flag Hi Ho) as [wk ->].
  destruct (nn_Linear_ok (MultiHeadAttention.src_value src) d_in d_out
              bias_flag Hi Ho) as [wv ->].
  destruct (nn_Linear_ok (MultiHeadAttention.src_out src) d_out d_out
              true Ho Ho) as [wo ->].
  destruct (nn_Dropout_ok prob H0 H1) as [dr ->]. cbn [rbind].
  unfold torch_ones. destruct (Z.ltb_spec ctx 0); [lia|]. cbn [orb rbind].
  eexists. reflexivity.
Qed.

Lemma MultiHeadAttention_init_fails src d_in d_out ctx prob H bias_flag :
  H = 0%Z \/ (d_out mod H)%Z <> 0%Z \/ (d_in < 0)%Z \/ (d_out < 0)%Z \/
  (ctx < 0)%Z \/ ~ ((0 <= prob)%Q /\ (prob <= 1)%Q) ->
  exists e, MultiHeadAttention.init src d_in d_out ctx prob H bias_flag
            = Raise e.
Proof.
  intros Hbad. unfold MultiHeadAttention.init, py_mod, py_floordiv.
  destruct (Z.eqb_spec H 0) as [H0|H0]; [eexists; reflexivity|].
  cbn [rbind].
  destruct (Z.eqb_spec (d_out mod H) 0) as [Hm|Hm]; cbn [negb];
    [|eexists; reflexivity].
  cbn [rbind]. unfold nn_Linear.
  destruct (Z.ltb_spec d_in 0) as [Hi|Hi]; cbn [orb rbind];
    [eexists; reflexivity|].
  destruct (Z.ltb_spec d_out 0) as [Ho|Ho]; cbn [orb rbind];
    [eexists; reflexivity|].
  destruct (nn_Dropout prob) as [dr|e] eqn:Ed; cbn [rbind];
    [|eexists; reflexivity].
  unfold torch_ones.
  destruct (Z.ltb_spec ctx 0) as [Hc|Hc]; cbn [orb rbind];
    [eexists; reflexivity|].
  exfalso. destruct Hbad as [?|[?|[?|[?|[?|Hp]]]]]; try lia; try contradiction.
  rewrite (nn_Dropout_fails prob Hp) in Ed. discriminate.
Qed.

Lemma LayerNorm_init_ok emb :
  (0 <= emb)%Z -> exists n, LayerNorm.init emb = Ok n.
Proof.
  intros H. unfold LayerNorm.init. destruct (Z.ltb_spec emb 0); [lia|].
  eexists. reflexivity.
Qed.

Lemma TransformerBlock_init_ok src cfg :
  n_heads cfg <> 0%Z -> (emb_dim cfg mod n_heads cfg = 0)%Z ->
  (0 <= emb_dim cfg)%Z -> (0 <= context_length cfg)%Z ->
  (0 <= drop_rate cfg)%Q -> (drop_rate cfg <= 1)%Q ->
  exists blk, TransformerBlock.init src cfg = Ok blk.
Proof.
  intros HH Hm He Hc H0 H1. unfold TransformerBlock.init.
  destruct (MultiHeadAttention_init_ok (TransformerBlock.src_att src)
              (emb_dim cfg) (emb_dim cfg) (context_length cfg) (drop_rate cfg)
              (n_heads cfg) (qkv_bias cfg) HH Hm He He Hc H0 H1) as [a ->].
  cbn [rbind]. unfold FeedForward.init.
  destruct (nn_Linear_ok (FeedForward.src_layers_0 (TransformerBlock.src_ff src))
              (emb_dim cfg) (4 * emb_dim cfg) true) as [l0 ->]; try lia.
  destruct (nn_Linear_ok (FeedForward.src_layers_2 (TransformerBlock.src_ff src))
              (4 * emb_dim cfg) (emb_dim cfg) true) as [l2 ->]; try lia.
  cbn [rbind].
  destruct (LayerNorm_init_ok (emb_dim cfg) He) as [n1 ->]. cbn [rbind].
  destruct (nn_Dropout_ok (drop_rate cfg) H0 H1) as [ds ->]. cbn [rbind].
  eexists. reflexivity.
Qed.

Lemma TransformerBlock_init_fails src cfg :
  n_heads cfg = 0%Z \/ (emb_dim cfg mod n_heads cfg)%Z <> 0%Z \/
  (emb_dim cfg < 0)%Z \/ (context_length cfg < 0)%Z \/
  ~ ((0 <= drop_rate cfg)%Q /\ (drop_rate cfg <= 1)%Q) ->
  exists e, TransformerBlock.init src cfg = Raise e.
Proof.
  intros Hbad. unfold TransformerBlock.init.
  destruct (MultiHeadAttention_init_fails (TransformerBlock.src_att src)
              (emb_dim cfg) (emb_dim cfg) (context_length cfg) (drop_rate cfg)
              (n_heads cfg) (qkv_bias cfg)) as [e ->].
  { destruct Hbad as [?|[?|[?|[?|?]]]]; auto 10. }
  eexists. reflexivity.
Qed.

Lemma nn_Embedding_wf f num dim e :
  nn_Embedding f num dim = Ok e ->
  num_embeddings e = Z.to_nat num /\ embedding_dim e = Z.to_nat dim /\
  rect2 (Z.to_nat num) (Z.to_nat dim) (emb_weight e).
Proof.
  unfold nn_Embedding. destruct ((num <? 0) || (dim <? 0))%Z; [discriminate|].
  intros H. injection H as <-. cbn. split; [reflexivity|].
  split; [reflexivity|]. split; [apply tabulate_length|].
  unfold tabulate at 1. apply Forall_map, Forall_forall. intros k _.
  apply tabulate_length.
Qed.

Lemma nn_Embedding_ok f num dim :
  (0 <= num)%Z -> (0 <= dim)%Z -> exists e, nn_Embedding f num dim = Ok e.
Proof.
  intros Hn Hd. unfold nn_Embedding.
  destruct (Z.ltb_spec num 0); [lia|]. destruct (Z.ltb_spec dim 0); [lia|].
  eexists. reflexivity.
Qed.

Lemma nn_Embedding_fails f num dim :
  (num < 0 \/ dim < 0)%Z -> nn_Embedding f num dim = Raise RuntimeError.
Proof.
  intros H. unfold nn_Embedding.
  destruct (Z.ltb_spec num 0); [reflexivity|].
  destruct (Z.ltb_spec dim 0); [reflexivity|]. lia.
Qed.

Lemma init_blocks_wf src cfg n : forall first bs,
  GPTModel.init_blocks src cfg first n = Ok bs ->
  (0 < emb_dim cfg)%Z -> (0 < n_heads cfg)%Z ->
  length bs = n /\
  Forall (TransformerBlock.wf (Z.to_nat (emb_dim cfg))
                              (Z.to_nat (context_length cfg))) bs.
Proof.
  induction n as [|n IH]; intros first bs E He Hh; cbn [GPTModel.init_blocks] in E.
  - injection E as <-. split; [reflexivity | constructor].
  - destruct (TransformerBlock.init (src first) cfg) as [blk|] eqn:Eb;
      [|discriminate].
    cbn [rbind] in E.
    destruct (GPTModel.init_blocks src cfg (S first) n) as [bs'|] eqn:Ebs;
      [|discriminate].
    cbn [rbind] in E. injection E as <-.
    destruct (IH _ _ Ebs He Hh) as [Hl Hf].
    split; [cbn; now rewrite Hl|]. constructor; [|exact Hf].
    apply (TransformerBlock_init_wf _ _ _ Eb He Hh).
Qed.

Lemma init_blocks_ok src cfg n : forall first,
  (n <> 0%nat -> forall s, exists b0, TransformerBlock.init s cfg = Ok b0) ->
  exists bs, GPTModel.init_blocks src cfg first n = Ok bs.
Proof.
  induction n as [|n IH]; intros first H; cbn [GPTModel.init_blocks].
  - eexists. reflexivity.
  - specialize (H ltac:(discriminate)).
    destruct (H (src first)) as [b0 ->]. cbn [rbind].
    destruct (IH (S first)) as [bs ->]; [intros _; exact H|].
    eexists. reflexivity.
Qed.

Lemma init_blocks_fails src cfg n first :
  n <> 0%nat -> (forall s, exists e, TransformerBlock.init s cfg = Raise e) ->
  exists e, GPTModel.init_blocks src cfg first n = Raise e.
Proof.
  intros Hn H. destruct n as [|n]; [contradiction|].
  cbn [GPTModel.init_blocks]. destruct (H (src first)) as [e ->].
  eexists. reflexivity.
Qed.

Lemma GPTModel_init_wf src cfg self :
  GPTModel.init src cfg = Ok self ->
  (0 < emb_dim (block_cfg cfg))%Z -> (0 < n_heads (block_cfg cfg))%Z ->
  GPTModel.wf (Z.to_nat (vocab_size cfg))
              (Z.to_nat (emb_dim (block_cfg cfg)))
              (Z.to_nat (context_length (block_cfg cfg))) self /\
  length (GPTModel.trf_blocks self) = Z.to_nat (n_layers cfg).
Proof.
  unfold GPTModel.init. intros E He Hh.
  destruct (nn_Embedding _ (vocab_size cfg) _) as [te|] eqn:Et; [|discriminate].
  cbn [rbind] in E.
  destruct (nn_Embedding _ (context_length (block_cfg cfg)) _) as [pe|] eqn:Ep;
    [|discriminate].
  cbn [rbind] in E.
  destruct (nn_Dropout _) as [de|]; [|discriminate]. cbn [rbind] in E.
  destruct (GPTModel.init_blocks _ _ _ _) as [bs|] eqn:Eb; [|discriminate].
  cbn [rbind] in E.
  destruct (LayerNorm.init _) as [fn|] eqn:En; [|discriminate].
  cbn [rbind] in E.
  destruct (nn_Linear _ _ _ _) as [oh|] eqn:Eo; [|discriminate].
  cbn [rbind] in E. injection E as <-.
  destruct (nn_Embedding_wf _ _ _ _ Et) as (T1 & T2 & T3).
  destruct (nn_Embedding_wf _ _ _ _ Ep) as (P1 & P2 & P3).
  destruct (init_blocks_wf _ _ _ _ _ Eb He Hh) as [Hl Hf].
  split; [|exact Hl].
  constructor; cbn; try assumption.
  - apply (LayerNorm_init_wf _ _ En).
  - apply (nn_Linear_wf _ _ _ _ _ Eo).
Qed.

(* ================================================================== *)
(** * The concrete model *)

Lemma gpt_init :
  GPTModel.init GPTExamples.src GPTExamples.cfg = Ok GPTExamples.gpt.
Proof. reflexivity. Qed.

Lemma gpt_wf : GPTModel.wf 3 2 2 GPTExamples.gpt.
Proof.
  apply (GPTModel_init_wf _ GPTExamples.cfg _ gpt_init); cbn; lia.
Qed.

Lemma prompt_shape : has_shape2 1 2 GPTExamples.prompt.
Proof. split; [reflexivity|]. repeat constructor. Qed.

Lemma prompt_valid : valid_tokens 3 GPTExamples.prompt.
Proof. repeat constructor; cbn; lia. Qed.

Lemma eval_block_wf :
  TransformerBlock.wf 2 2 (TransformerBlock_eval Examples.block).
Proof. apply TransformerBlock_eval_wf, block_wf. Qed.

(* ================================================================== *)
(** * Further properties: attention and the block (chapter 4.5) *)

(** X1. For a well-formed module and every input of shape
    [[b, n, d_in]] with [n <= context_length],
    [MultiHeadAttention.forward] returns, whatever the dropout draws, a
    tensor of shape [[b, n, d_out]]. *)
Theorem attention_forward_shape (self : MultiHeadAttention.t)
        (d_in ctx b n : nat) (x : tensor (data3 R)) (g : rng) :
  MultiHeadAttention.wf d_in ctx self ->
  has_shape3 b n d_in x ->
  (n <= ctx)%nat ->
  exists y g',
    MultiHeadAttention.forward self x g = (Ok y, g') /\
    has_shape3 b n (Z.to_nat (MultiHeadAttention.d_out self)) y.
Proof.
  intros Hwf Hx Hn.
  destruct (forward_total self d_in ctx Hwf b n x g Hx Hn) as (y & g' & E & Hy).
  cbv zeta in Hy. rewrite <- (wf_d_out_to_nat self d_in ctx Hwf) in Hy.
  exists y, g'. split; assumption.
Qed.

Lemma MultiHeadAttention_forward_width (self : MultiHeadAttention.t)
      d_in ctx b n d (x : tensor (data3 R)) (g : rng) :
  MultiHeadAttention.wf d_in ctx self -> shape x = [b; n; d] -> d <> d_in ->
  MultiHeadAttention.forward self x g = (Raise RuntimeError, g).
Proof.
  intros Hwf Hs Hd. unfold MultiHeadAttention.forward. rewrite Hs.
  unfold bind, lift, MultiHeadAttention.attn_weights. rewrite Hs.
  unfold Linear_forward at 1. rewrite Hs.
  rewrite (wf_in_features (MultiHeadAttention.wf_W_query Hwf)).
  destruct (Nat.eqb_spec d d_in); [contradiction|]. reflexivity.
Qed.

(** X2. An input whose last size is not [d_in] makes
    [MultiHeadAttention.forward] raise [RuntimeError] in the query
    projection, before anything is drawn. *)
Theorem attention_forward_wrong_width (self : MultiHeadAttention.t)
        (d_in ctx b n d : nat) (x : tensor (data3 R)) (g : rng) :
  MultiHeadAttention.wf d_in ctx self ->
  shape x = [b; n; d] ->
  d <> d_in ->
  MultiHeadAttention.forward self x g = (Raise RuntimeError, g).
Proof. apply MultiHeadAttention_forward_width. Qed.

Lemma take_tokens_agree {A} j b n d (x x' : tensor (data3 A)) :
  shape x = [b; n; d] -> shape x' = [b; n; d] -> (j <= n)%nat ->
  (agree_upto j x x' <-> take_tokens j x = take_tokens j x').
Proof.
  intros Hs Hs' Hj. unfold agree_upto.
  rewrite (take_tokens_eval j b n d x Hs Hj),
          (take_tokens_eval j b n d x' Hs' Hj).
  split.
  - intros H. rewrite H. reflexivity.
  - intros H. injection H as H. exact H.
Qed.

(** X3. With both dropouts of the block disabled,
    [TransformerBlock.forward] is causal: later tokens never change
    earlier outputs.  For two inputs of the same shape, of at most
    [context_length] tokens, that agree on the tokens at positions
    [< j], it returns for both without drawing, and the two outputs agree
    on the tokens at positions [< j]. *)
Theorem block_forward_causal (self : TransformerBlock.t)
        (emb ctx b n j : nat) (x x' : tensor (data3 R)) (g g' : rng) :
  TransformerBlock.wf emb ctx self ->
  block_dropout_disabled self = true ->
  has_shape3 b n emb x ->
  has_shape3 b n emb x' ->
  (n <= ctx)%nat ->
  (j <= n)%nat ->
  agree_upto j x x' ->
  exists y y',
    TransformerBlock.forward self x g = (Ok y, g) /\
    TransformerBlock.forward self x' g' = (Ok y', g') /\
    has_shape3 b n emb y /\
    has_shape3 b n emb y' /\
    agree_upto j y y'.
Proof.
  intros Hwf Hd Hx Hx' Hn Hj Hagree.
  destruct (TransformerBlock_forward_prefix self emb ctx b n x Hwf Hd Hx Hn)
    as (y & E & Hy & P).
  destruct (TransformerBlock_forward_prefix self emb ctx b n x' Hwf Hd Hx' Hn)
    as (y' & E' & Hy' & P').
  exists y, y'. split; [apply E|]. split; [apply E'|].
  split; [exact Hy|]. split; [exact Hy'|].
  apply (take_tokens_agree j b n emb y y' (proj1 Hy) (proj1 Hy') Hj).
  apply (take_tokens_agree j b n emb x x' (proj1 Hx) (proj1 Hx') Hj) in Hagree.
  specialize (P j g Hj). specialize (P' j g Hj).
  rewrite Hagree, P' in P. injection P as P. symmetry. exact P.
Qed.

(** X4. [FeedForward.forward] works on every token by itself: there is a
    function [f] on rows, fixed by the parameters, such that every input
    of shape [[b, n, emb_dim]] is mapped to the tensor of the same shape
    whose rows are [f] of the input rows. *)
Theorem feed_forward_tokenwise (self : FeedForward.t) (emb : nat) :
  FeedForward.wf emb self ->
  exists f : list R -> list R,
    forall b n (x : tensor (data3 R)),
      has_shape3 b n emb x ->
      FeedForward.forward self x
      = Ok (Tensor [b; n; emb] (map (map f) (data x))).
Proof.
  intros [H0 H2].
  assert (Hrow : forall l : Linear, exists fl, forall X : data2 R,
                   linear_rows l X = map fl X).
  { intros l. unfold linear_rows, mm. destruct (bias l) as [bv|].
    - eexists. intros X. rewrite map_map. reflexivity.
    - eexists. intros X. reflexivity. }
  destruct (Hrow (FeedForward.layers_0 self)) as [f0 E0].
  destruct (Hrow (FeedForward.layers_2 self)) as [f2 E2].
  exists (fun r => f2 (map GELU.forward (f0 r))).
  intros b n x Hx. pose proof Hx as [Hs _]. unfold FeedForward.forward.
  rewrite (Linear_forward_eval b n emb _ x Hs (wf_in_features H0)).
  cbn [rbind shape data].
  erewrite (Linear_forward_eval b n)
    by (reflexivity || (rewrite (wf_out_features H0);
                        exact (wf_in_features H2))).
  cbn [data]. rewrite (wf_out_features H2).
  apply f_equal. apply (f_equal (Tensor _)).
  rewrite !map_map. apply map_ext. intros X.
  rewrite E2, E0, !map_map. reflexivity.
Qed.

(** X5. [LayerNorm.forward] does not change when the same constant is
    added to every entry of its input. *)
Theorem layer_norm_shift_invariant (self : LayerNorm.t) (b n d : nat)
        (x : tensor (data3 R)) (c : R) :
  has_shape3 b n d x ->
  LayerNorm.forward self
    (Tensor (shape x) (map (map (map (fun v => v + c))) (data x)))
  = LayerNorm.forward self x.
Proof.
  intros [Hs [Hb Hr]]. unfold LayerNorm.forward. cbn [shape data]. rewrite Hs.
  destruct (bdim (length (LayerNorm.scale self)) d) as [d1|]; [|reflexivity].
  cbn [rbind].
  destruct (bdim d1 (length (LayerNorm.shift self))) as [d2|]; [|reflexivity].
  cbn [rbind]. apply f_equal. apply (f_equal (Tensor _)).
  rewrite map_map. apply map_ext_in. intros m Hm.
  rewrite Forall_forall in Hr. destruct (Hr m Hm) as [_ Hrows].
  rewrite map_map. apply map_ext_in. intros row Hrow.
  rewrite Forall_forall in Hrows.
  rewrite (norm_x_add _ d row c (Hrows row Hrow)). reflexivity.
Qed.

(** X6. The widths [LayerNorm.forward] accepts: for parameters of
    [emb_dim] entries and an input of width [d], it returns a tensor of
    width [emb_dim] when [d = emb_dim] or [d = 1], a tensor of width [d]
    when [emb_dim = 1], and raises [RuntimeError] for every other
    width. *)
Theorem layer_norm_widths (self : LayerNorm.t) (emb b n d : nat)
        (x : tensor (data3 R)) :
  LayerNorm.wf emb self ->
  shape x = [b; n; d] ->
  (d = emb \/ d = 1%nat ->
   exists y, LayerNorm.forward self x = Ok y /\ shape y = [b; n; emb]) /\
  (emb = 1%nat ->
   exists y, LayerNorm.forward self x = Ok y /\ shape y = [b; n; d]) /\
  (d <> emb -> d <> 1%nat -> emb <> 1%nat ->
   LayerNorm.forward self x = Raise RuntimeError).
Proof.
  intros [Hsc Hsh] Hs. unfold LayerNorm.forward. rewrite Hs, Hsc, Hsh.
  clear Hsc Hsh. unfold bdim.
  destruct (Nat.eqb_spec emb d) as [E1|E1].
  - subst d. cbn [rbind]. rewrite Nat.eqb_refl. cbn [rbind].
    split; [|split].
    + intros _. eexists. split; reflexivity.
    + intros _. eexists. split; reflexivity.
    + intros H. contradiction.
  - destruct (Nat.eqb_spec emb 1) as [E2|E2].
    + subst emb. cbn [rbind].
      destruct (Nat.eqb_spec d 1) as [E3|E3]; [congruence|].
      cbn [Nat.eqb rbind]. split; [|split].
      * intros [H|H]; congruence.
      * intros _. eexists. split; reflexivity.
      * intros _ _ H. contradiction.
    + destruct (Nat.eqb_spec d 1) as [E3|E3].
      * subst d. cbn [rbind]. rewrite Nat.eqb_refl. cbn [rbind].
        split; [|split].
        -- intros _. eexists. split; reflexivity.
        -- intros H. contradiction.
        -- intros _ H. contradiction.
      * cbn [rbind]. split; [|split].
        -- intros [H|H]; congruence.
        -- intros H. contradiction.
        -- reflexivity.
Qed.

Lemma LayerNorm_forward_width_one (self : LayerNorm.t) (emb b n : nat)
      (x : tensor (data3 R)) :
  LayerNorm.wf emb self ->
  has_shape3 b n 1 x ->
  LayerNorm.forward self x
  = Ok (Tensor [b; n; emb]
          (map (map (fun _ => LayerNorm.shift self)) (data x))).
Proof.
  intros [Hsc Hsh] [Hs [Hb Hr]]. unfold LayerNorm.forward.
  rewrite Hs, Hsc, Hsh.
  assert (E : (d1 <- bdim emb 1 ;; d2 <- bdim d1 emb ;;
               Ok (Tensor [b; n; d2]
                     (map (map (fun row =>
                                  bzip Rplus
                                    (bzip Rmult (LayerNorm.scale self)
                                       (LayerNorm.norm_x (LayerNorm.eps self) 1 row))
                                    (LayerNorm.shift self))) (data x))))%result
              = Ok (Tensor [b; n; emb]
                      (map (map (fun row =>
                                   bzip Rplus
                                     (bzip Rmult (LayerNorm.scale self)
                                        (LayerNorm.norm_x (LayerNorm.eps self) 1 row))
                                     (LayerNorm.shift self))) (data x)))).
  { unfold bdim. destruct (Nat.eqb_spec emb 1) as [->|E1].
    - reflexivity.
    - cbn [Nat.eqb rbind]. rewrite Nat.eqb_refl. reflexivity. }
  rewrite E. apply f_equal. apply (f_equal (Tensor _)).
  apply map_ext_in. intros m Hm. rewrite Forall_forall in Hr.
  destruct (Hr m Hm) as [_ Hrows]. apply map_ext_in. intros row Hrow.
  rewrite Forall_forall in Hrows. specialize (Hrows row Hrow).
  destruct row as [|v [|v' row]]; try discriminate.
  rewrite norm_x_single. apply scale_zero_shift. congruence.
Qed.

(** X7. An input of width 1 is not rejected by [LayerNorm.forward]: it
    is broadcast against the parameters, and the result has width
    [emb_dim] with every row equal to [shift], whatever the input
    values. *)
Theorem layer_norm_width_one (self : LayerNorm.t) (emb b n : nat)
        (x : tensor (data3 R)) :
  LayerNorm.wf emb self ->
  has_shape3 b n 1 x ->
  LayerNorm.forward self x
  = Ok (Tensor [b; n; emb]
          (map (map (fun _ => LayerNorm.shift self)) (data x))).
Proof. apply LayerNorm_forward_width_one. Qed.

(** X8. [GELU.forward] vanishes at 0 and lies between half its argument
    and the rectifier: [x/2 <= GELU(x) <= x] for [x >= 0] and
    [x/2 <= GELU(x) <= 0] for [x <= 0]. *)
Theorem gelu_bounds (x : R) :
  GELU.forward 0 = 0 /\
  (0 <= x -> x / 2 <= GELU.forward x <= x) /\
  (x <= 0 -> x / 2 <= GELU.forward x <= 0).
Proof.
  unfold GELU.forward. split; [ring|].
  set (u := sqrt (2 / PI) * (x + 44715 / 1000000 * (x * x * x))).
  pose proof (tanh_bounds u) as [Hlo Hhi].
  destruct (gelu_inner_sign x) as [Hpos Hneg]. fold u in Hpos, Hneg.
  split; intros Hx.
  - pose proof (tanh_nonneg u (Hpos Hx)) as Ht. split; nra.
  - pose proof (tanh_nonpos u (Hneg Hx)) as Ht. split; nra.
Qed.

(* ================================================================== *)
(** * Further properties: the model (chapter 5.1.2) *)

(** X9. For a well-formed model, indices of the vocabulary and a batch of
    shape [[b, n]] with [n <= context_length], [GPTModel.forward]
    returns, whatever the dropout draws, logits of shape
    [[b, n, vocab_size]]. *)
Theorem model_logits_shape (self : GPTModel.t) (vocab emb ctx b n : nat)
        (idx : tensor (data2 Z)) (g : rng) :
  GPTModel.wf vocab emb ctx self ->
  has_shape2 b n idx ->
  valid_tokens vocab idx ->
  (n <= ctx)%nat ->
  exists logits g',
    GPTModel.forward self idx g = (Return logits, g') /\
    has_shape3 b n vocab logits.
Proof.
  intros Hwf Hidx Hv Hn.
  apply (GPTModel_forward_total self vocab emb ctx b n idx g Hwf Hidx Hv Hn).
Qed.

(** X10. A sequence longer than [context_length] makes
    [GPTModel.forward] raise in an embedding lookup, before anything is
    drawn.  When the embedding tables have elements ([vocab_size],
    [emb_dim] and [context_length] positive) the exception is
    [IndexError], for every such [context_length], also 1, and for an
    empty batch.  When the position table has no element
    ([context_length = 0] or [emb_dim = 0]) and the indices are valid, it
    is the [RuntimeError] of the lookup in a weight without elements. *)
Theorem model_rejects_long_input (self : GPTModel.t) (vocab emb ctx b n : nat)
        (idx : tensor (data2 Z)) (g : rng) :
  GPTModel.wf vocab emb ctx self ->
  shape idx = [b; n] ->
  (ctx < n)%nat ->
  (exists e, GPTModel.forward self idx g = (Throw e, g) /\
             (e = IndexError \/ e = Other RuntimeError)) /\
  ((0 < vocab)%nat -> (0 < emb)%nat -> (0 < ctx)%nat ->
   GPTModel.forward self idx g = (Throw IndexError, g)) /\
  (valid_tokens vocab idx -> ctx = 0%nat \/ emb = 0%nat ->
   GPTModel.forward self idx g = (Throw (Other RuntimeError), g)).
Proof.
  intros Hwf Hs Hn.
  assert (Hpos : Embedding_forward1 (GPTModel.pos_emb self) (arange n)
                 = Throw (lookup_error (GPTModel.pos_emb self))).
  { apply Embedding_forward1_arange_too_long.
    rewrite (GPTModel.wf_pos_num Hwf). exact Hn. }
  unfold GPTModel.forward. rewrite Hs. unfold gbind, glift.
  split; [|split].
  - destruct (Embedding_forward2_cases (GPTModel.tok_emb self) b n idx Hs)
      as [E|[te E]]; rewrite E.
    + eexists. split; [reflexivity|]. apply lookup_error_cases.
    + rewrite Hpos. eexists. split; [reflexivity|]. apply lookup_error_cases.
  - intros Hv He Hc.
    destruct (Embedding_forward2_cases (GPTModel.tok_emb self) b n idx Hs)
      as [E|[te E]]; rewrite E.
    + rewrite lookup_error_elements; [reflexivity| |].
      * rewrite (GPTModel.wf_tok_num Hwf). exact Hv.
      * rewrite (GPTModel.wf_tok_dim Hwf). exact He.
    + rewrite Hpos, lookup_error_elements; [reflexivity| |].
      * rewrite (GPTModel.wf_pos_num Hwf). exact Hc.
      * rewrite (GPTModel.wf_pos_dim Hwf). exact He.
  - intros Hv Hz.
    rewrite (Embedding_forward2_valid _ b n idx Hs)
      by (rewrite (GPTModel.wf_tok_num Hwf); exact Hv).
    rewrite Hpos, lookup_error_no_element; [reflexivity|].
    rewrite (GPTModel.wf_pos_num Hwf), (GPTModel.wf_pos_dim Hwf). exact Hz.
Qed.

(** X11. An index outside [[0, vocab_size)] anywhere in the batch makes
    [GPTModel.forward] raise in the token embedding, before anything is
    drawn: [IndexError] when the token table has elements ([vocab_size]
    and [emb_dim] positive), and the [RuntimeError] of the lookup in a
    weight without elements when [vocab_size = 0] or [emb_dim = 0]. *)
Theorem model_rejects_unknown_token (self : GPTModel.t)
        (vocab emb ctx b n : nat) (idx : tensor (data2 Z)) (g : rng) :
  GPTModel.wf vocab emb ctx self ->
  shape idx = [b; n] ->
  ~ valid_tokens vocab idx ->
  GPTModel.forward self idx g
  = (Throw (if ((vocab =? 0) || (emb =? 0))%nat
            then Other RuntimeError else IndexError), g).
Proof.
  intros Hwf Hs Hv. unfold GPTModel.forward. rewrite Hs.
  unfold gbind, glift.
  rewrite Embedding_forward2_invalid
    by (rewrite (GPTModel.wf_tok_num Hwf); exact Hv).
  unfold lookup_error.
  rewrite (GPTModel.wf_tok_num Hwf), (GPTModel.wf_tok_dim Hwf). reflexivity.
Qed.

(** X12. [eval()] keeps the invariant of the model and disables every
    dropout: after it, [GPTModel.forward] on valid input returns the same
    logits for every state of the generator and leaves the generator as
    it was. *)
Theorem model_eval_draws_nothing (self : GPTModel.t) (vocab emb ctx b n : nat)
        (idx : tensor (data2 Z)) :
  GPTModel.wf vocab emb ctx self ->
  has_shape2 b n idx ->
  valid_tokens vocab idx ->
  (n <= ctx)%nat ->
  GPTModel.wf vocab emb ctx (GPTModel.eval self) /\
  exists logits,
    has_shape3 b n vocab logits /\
    forall g, GPTModel.forward (GPTModel.eval self) idx g = (Return logits, g).
Proof.
  intros Hwf Hidx Hv Hn.
  pose proof (GPTModel_eval_wf self vocab emb ctx Hwf) as Hwf'.
  split; [exact Hwf'|].
  destruct (GPTModel_forward_prefix _ vocab emb ctx b n idx Hwf'
              (GPTModel_eval_dropout_off self) Hidx Hv Hn)
    as (logits & E & Hl & _).
  exists logits. split; [exact Hl | exact E].
Qed.

Lemma take_cols_agree {A} j b n (t t' : tensor (data2 A)) :
  shape t = [b; n] -> shape t' = [b; n] -> (j <= n)%nat ->
  map (firstn j) (data t) = map (firstn j) (data t') ->
  take_cols j t = take_cols j t'.
Proof.
  intros Hs Hs' Hj H.
  rewrite (take_cols_eval j b n t Hs Hj), (take_cols_eval j b n t' Hs' Hj), H.
  reflexivity.
Qed.

(** X13. With every dropout disabled the model is causal: the logits of
    a position do not depend on later tokens.  For two valid batches of
    the same shape [[b, n]], [n <= context_length], whose first [j]
    columns are equal, [GPTModel.forward] returns for both without
    drawing, and the two logits agree on the positions [< j]. *)
Theorem model_forward_causal (self : GPTModel.t) (vocab emb ctx b n j : nat)
        (idx idx' : tensor (data2 Z)) (g g' : rng) :
  GPTModel.wf vocab emb ctx self ->
  GPTModel.dropout_off self ->
  has_shape2 b n idx ->
  has_shape2 b n idx' ->
  valid_tokens vocab idx ->
  valid_tokens vocab idx' ->
  (n <= ctx)%nat ->
  (j <= n)%nat ->
  map (firstn j) (data idx) = map (firstn j) (data idx') ->
  exists logits logits',
    GPTModel.forward self idx g = (Return logits, g) /\
    GPTModel.forward self idx' g' = (Return logits', g') /\
    has_shape3 b n vocab logits /\
    has_shape3 b n vocab logits' /\
    agree_upto j logits logits'.
Proof.
  intros Hwf Hoff Hidx Hidx' Hv Hv' Hn Hj Hagree.
  destruct (GPTModel_forward_prefix self vocab emb ctx b n idx Hwf Hoff
              Hidx Hv Hn) as (logits & E & Hl & P).
  destruct (GPTModel_forward_prefix self vocab emb ctx b n idx' Hwf Hoff
              Hidx' Hv' Hn) as (logits' & E' & Hl' & P').
  exists logits, logits'. split; [apply E|]. split; [apply E'|].
  split; [exact Hl|]. split; [exact Hl'|].
  apply (take_tokens_agree j b n vocab _ _ (proj1 Hl) (proj1 Hl') Hj).
  specialize (P j g Hj). specialize (P' j g Hj).
  rewrite (take_cols_agree j b n idx idx' (proj1 Hidx) (proj1 Hidx') Hj Hagree),
          P' in P.
  injection P as P. symmetry. exact P.
Qed.

(** X14. What [GPTModel.__init__] establishes when it returns, for a
    positive width and a positive number of heads: the embeddings, the
    blocks, the final norm and the output head have the sizes of the
    configuration, and there are [n_layers] blocks (none when [n_layers]
    is negative). *)
Theorem model_init_invariant (src : GPTModel.source) (cfg : gpt_config)
        (self : GPTModel.t) :
  GPTModel.init src cfg = Ok self ->
  (0 < emb_dim (block_cfg cfg))%Z ->
  (0 < n_heads (block_cfg cfg))%Z ->
  GPTModel.wf (Z.to_nat (vocab_size cfg))
              (Z.to_nat (emb_dim (block_cfg cfg)))
              (Z.to_nat (context_length (block_cfg cfg))) self /\
  length (GPTModel.trf_blocks self) = Z.to_nat (n_layers cfg).
Proof. apply GPTModel_init_wf. Qed.

(** X15. The configurations [GPTModel.__init__] accepts: construction
    returns a model exactly when [vocab_size], [emb_dim] and
    [context_length] are not negative, [drop_rate] lies in [[0, 1]] and,
    if at least one layer is asked for, [n_heads] is not zero and divides
    [emb_dim].  With [n_layers <= 0] no block is built and the
    divisibility is never checked. *)
Theorem model_init_accepts (src : GPTModel.source) (cfg : gpt_config) :
  (exists self, GPTModel.init src cfg = Ok self) <->
  (0 <= vocab_size cfg)%Z /\
  (0 <= emb_dim (block_cfg cfg))%Z /\
  (0 <= context_length (block_cfg cfg))%Z /\
  (0 <= drop_rate (block_cfg cfg))%Q /\
  (drop_rate (block_cfg cfg) <= 1)%Q /\
  ((0 < n_layers cfg)%Z ->
   n_heads (block_cfg cfg) <> 0%Z /\
   (emb_dim (block_cfg cfg) mod n_heads (block_cfg cfg) = 0)%Z).
Proof.
  set (c := block_cfg cfg). split.
  - intros [self E]. unfold GPTModel.init in E. fold c in E.
    destruct (Z_lt_dec (vocab_size cfg) 0) as [Hv|Hv].
    { rewrite nn_Embedding_fails in E by auto. discriminate. }
    destruct (Z_lt_dec (emb_dim c) 0) as [He|He].
    { rewrite nn_Embedding_fails in E by auto. discriminate. }
    destruct (nn_Embedding_ok (GPTModel.src_tok src) (vocab_size cfg) (emb_dim c))
      as [te Et]; try lia.
    rewrite Et in E. cbn [rbind] in E.
    destruct (Z_lt_dec (context_length c) 0) as [Hc|Hc].
    { rewrite nn_Embedding_fails in E by auto. discriminate. }
    destruct (nn_Embedding_ok (GPTModel.src_pos src) (context_length c) (emb_dim c))
      as [pe Ep]; try lia.
    rewrite Ep in E. cbn [rbind] in E.
    destruct (Qlt_le_dec (drop_rate c) 0) as [H0|H0].
    { rewrite nn_Dropout_fails in E; [discriminate|].
      intros [Ha _]. apply (Qlt_not_le _ _ H0 Ha). }
    destruct (Qlt_le_dec 1 (drop_rate c)) as [H1|H1].
    { rewrite nn_Dropout_fails in E; [discriminate|].
      intros [_ Hb]. apply (Qlt_not_le _ _ H1 Hb). }
    destruct (nn_Dropout_ok (drop_rate c) H0 H1) as [de Ed].
    rewrite Ed in E. cbn [rbind] in E.
    repeat (split; [assumption || lia|]).
    intros Hl.
    destruct (Z.eq_dec (n_heads c) 0) as [Hh|Hh].
    { destruct (init_blocks_fails (GPTModel.src_blocks src) c
                  (Z.to_nat (n_layers cfg)) 0) as [e Eb]; [lia| |].
      - intros s. apply TransformerBlock_init_fails. auto.
      - rewrite Eb in E. discriminate. }
    destruct (Z.eq_dec (emb_dim c mod n_heads c) 0) as [Hm|Hm]; [auto|].
    destruct (init_blocks_fails (GPTModel.src_blocks src) c
                (Z.to_nat (n_layers cfg)) 0) as [e Eb]; [lia| |].
    + intros s. apply TransformerBlock_init_fails. auto.
    + rewrite Eb in E. discriminate.
  - intros (Hv & He & Hc & H0 & H1 & Hl). unfold GPTModel.init. fold c.
    destruct (nn_Embedding_ok (GPTModel.src_tok src) (vocab_size cfg) (emb_dim c)
                Hv He) as [te ->]. cbn [rbind].
    destruct (nn_Embedding_ok (GPTModel.src_pos src) (context_length c) (emb_dim c)
                Hc He) as [pe ->]. cbn [rbind].
    destruct (nn_Dropout_ok (drop_rate c) H0 H1) as [de ->]. cbn [rbind].
    destruct (init_blocks_ok (GPTModel.src_blocks src) c
                (Z.to_nat (n_layers cfg)) 0) as [bs ->].
    { intros Hn s. destruct Hl as [Hh Hm]; [lia|].
      apply TransformerBlock_init_ok; assumption. }
    cbn [rbind].
    destruct (LayerNorm_init_ok (emb_dim c) He) as [fn ->]. cbn [rbind].
    destruct (nn_Linear_ok (GPTModel.src_head src) (emb_dim c) (vocab_size cfg)
                false He Hv) as [oh ->]. cbn [rbind].
    eexists. reflexivity.
Qed.

(* ================================================================== *)
(** * Further properties: greedy decoding (chapter 5.1.2) *)

(** X16. [generate_text_simple] with any model that returns logits of
    shape [[b, n, vocab]] for every valid batch of [1 <= n <=
    context_size] tokens: started on a valid, non-empty batch of shape
    [[b, n]] it returns a valid batch of shape
    [[b, n + max_new_tokens]] (of shape [[b, n]] when [max_new_tokens] is
    not positive) whose first [n] columns are the batch it was given. *)
Theorem generate_extends_prompt
        (model : tensor (data2 Z) -> G (tensor (data3 R)))
        (b vocab n : nat) (idx : tensor (data2 Z))
        (max_new_tokens context_size : Z) (g : rng) :
  (0 < vocab)%nat ->
  (0 < context_size)%Z ->
  (forall (t : tensor (data2 Z)) (m : nat) (g0 : rng),
      has_shape2 b m t -> valid_tokens vocab t ->
      (0 < m <= Z.to_nat context_size)%nat ->
      exists logits g1, model t g0 = (Return logits, g1) /\
                        has_shape3 b m vocab logits) ->
  has_shape2 b n idx ->
  valid_tokens vocab idx ->
  (0 < n)%nat ->
  exists idx' g',
    generate_text_simple model idx max_new_tokens context_size g
    = (Return idx', g') /\
    has_shape2 b (n + Z.to_nat max_new_tokens) idx' /\
    valid_tokens vocab idx' /\
    take_cols n idx' = idx.
Proof.
  intros Hvocab Hc Hmodel Hidx Hv Hn. unfold generate_text_simple.
  rewrite <- (Z2Nat.id context_size) by lia.
  apply (generate_loop_ok model b vocab (Z.to_nat context_size));
    try assumption. lia.
Qed.

(** X17. Greedy decoding with a well-formed [GPTModel], in training or in
    evaluation mode, with [1 <= context_size <= context_length]: on a
    valid, non-empty prompt it never raises, and every index it appends
    is an index of the vocabulary. *)
Theorem generate_with_model (self : GPTModel.t) (vocab emb ctx b n : nat)
        (idx : tensor (data2 Z)) (max_new_tokens context_size : Z) (g : rng) :
  GPTModel.wf vocab emb ctx self ->
  (0 < vocab)%nat ->
  (0 < context_size <= Z.of_nat ctx)%Z ->
  has_shape2 b n idx ->
  valid_tokens vocab idx ->
  (0 < n)%nat ->
  exists idx' g',
    generate_text_simple (GPTModel.forward self) idx max_new_tokens
                         context_size g
    = (Return idx', g') /\
    has_shape2 b (n + Z.to_nat max_new_tokens) idx' /\
    valid_tokens vocab idx'.
Proof.
  intros Hwf Hvocab Hc Hidx Hv Hn. unfold generate_text_simple.
  rewrite <- (Z2Nat.id context_size) by lia.
  destruct (generate_loop_ok (GPTModel.forward self) b vocab
              (Z.to_nat context_size) Hvocab ltac:(lia)) with
    (k := Z.to_nat max_new_tokens) (n := n) (idx := idx) (g := g)
    as (idx' & g' & E & S & V & _); try assumption.
  - intros t m g0 Ht Vt Hm.
    apply (GPTModel_forward_total self vocab emb ctx b m t g0 Hwf Ht Vt). lia.
  - exists idx', g'. split; [exact E|]. split; [exact S | exact V].
Qed.

(** X18. On a prompt without tokens [generate_text_simple] raises
    [IndexError] in its first iteration, when it selects the last time
    step of the logits, for every [context_size]. *)
Theorem generate_rejects_empty_prompt (self : GPTModel.t)
        (vocab emb ctx b : nat) (idx : tensor (data2 Z))
        (max_new_tokens context_size : Z) (g : rng) :
  GPTModel.wf vocab emb ctx self ->
  has_shape2 b 0 idx ->
  (0 < max_new_tokens)%Z ->
  exists g',
    generate_text_simple (GPTModel.forward self) idx max_new_tokens
                         context_size g
    = (Throw IndexError, g').
Proof.
  intros Hwf Hidx Hk. unfold generate_text_simple.
  destruct (Z.to_nat max_new_tokens) as [|k] eqn:Ek; [lia|].
  cbn [generate_loop]. unfold gbind at 1. unfold generate_step.
  assert (Hv : valid_tokens vocab idx).
  { destruct Hidx as [_ [_ Hr]]. unfold valid_tokens.
    eapply Forall_impl; [|exact Hr]. intros r Hr'.
    destruct r; [constructor|discriminate]. }
  destruct (slice_cols_from_ok (- context_size) b 0 vocab idx Hidx Hv)
    as (cond & E1 & S1 & V1).
  cbn [Nat.sub] in S1.
  destruct (GPTModel_forward_total self vocab emb ctx b 0 cond g Hwf S1 V1
              (Nat.le_0_l ctx)) as (logits & g' & E2 & [Hs _]).
  exists g'. unfold gbind, glift. rewrite E1, E2.
  rewrite (select_last_empty b vocab logits Hs). reflexivity.
Qed.

(** X19. The cropping [idx[:, -context_size:]]: nothing is cropped when
    the sequence has at most [context_size] tokens, and nothing is cropped
    either when [context_size = 0]; when [0 < context_size < n] the last
    [context_size] columns are kept. *)
Theorem context_crop (b n : nat) (idx : tensor (data2 Z)) (context_size : Z) :
  has_shape2 b n idx ->
  (context_size = 0%Z \/ (Z.of_nat n <= context_size)%Z ->
   slice_cols_from (- context_size) idx = Return idx) /\
  ((0 < context_size < Z.of_nat n)%Z ->
   slice_cols_from (- context_size) idx
   = Return (Tensor [b; Z.to_nat context_size]
               (map (skipn (n - Z.to_nat context_size)) (data idx)))).
Proof.
  intros [Hs [Hb Hr]]. unfold slice_cols_from. rewrite Hs. split.
  - intros Hc.
    assert (E : py_start (- context_size) n = 0%nat).
    { destruct Hc as [->|Hc]; [reflexivity|].
      destruct (Z.eq_dec context_size 0) as [->|Hz]; [reflexivity|].
      rewrite py_start_crop by lia. lia. }
    rewrite E, Nat.sub_0_r. destruct idx as [sh dt]. cbn in *. subst sh.
    apply f_equal. apply (f_equal (Tensor _)).
    apply map_id_Forall with (P := fun _ => True); [reflexivity|].
    apply Forall_forall. auto.
  - intros Hc. rewrite py_start_crop by lia.
    replace (n - (n - Z.to_nat context_size))%nat
      with (Z.to_nat context_size) by lia.
    reflexivity.
Qed.


(* ================================================================== *)
(** * Further properties: single-head attention (chapter 3) *)

Lemma expand2_same {A} n m (t : tensor (data2 A)) :
  has_shape2 n m t -> expand2 n m t = Ok (data t).
Proof.
  intros [Hs [Hn Hr]]. unfold expand2. rewrite Hs, !Nat.eqb_refl.
  cbn [orb andb].
  rewrite (map_id_Forall (stretch m) (rect1 m)); auto using stretch_same.
  rewrite stretch_same; auto.
Qed.

Lemma masked_square n (attn_scores : tensor (data2 R)) :
  has_shape2 n n attn_scores ->
  MaskingScript.masked attn_scores
  = Ok (Tensor [n; n] (map2 (map2 fill) (causal_mask n) (data attn_scores))).
Proof.
  intros Hx. pose proof Hx as [Hs _].
  unfold MaskingScript.masked, MaskingScript.mask,
    MaskingScript.context_length, torch_ones.
  rewrite Hs. cbn [nth].
  destruct (Z.ltb_spec (Z.of_nat n) 0) as [Hneg|_]; [lia|].
  cbn [orb rbind]. rewrite Nat2Z.id, triu_ones_bool.
  unfold masked_fill. cbn [shape]. rewrite Hs, !bdim_same. cbn [rbind].
  rewrite (expand2_same n n attn_scores Hx). cbn [rbind].
  rewrite (expand2_same n n (Tensor [n; n] (causal_mask n)))
    by (split; [reflexivity | apply causal_mask_rect]).
  reflexivity.
Qed.

(** X21. The masking script on every square score matrix: for scores of
    shape [[n, n]] and keys with at least one feature (the scores are
    divided by the square root of their number), lines 46-60 return
    weights of shape [[n, n]] in which row [i] sums to 1, has entries in
    [[0, 1]] and gives 0 to every position after [i]. *)
Theorem masking_script_causal (n : nat) (attn_scores keys : tensor (data2 R)) :
  has_shape2 n n attn_scores ->
  (0 < last (shape keys) 0)%nat ->
  exists w,
    MaskingScript.attn_weights attn_scores keys = Ok w /\
    has_shape2 n n w /\
    causal_row_stochastic (data w).
Proof.
  intros Hx _. unfold MaskingScript.attn_weights.
  rewrite (masked_square n attn_scores Hx). cbn [rbind].
  eexists. split; [reflexivity|]. unfold softmax2, tmap2. cbn [shape data].
  destruct Hx as [_ Hr]. split.
  - split; [reflexivity|]. cbn [data].
    apply rect2_softmax, rect2_map_map, rect2_map2;
      [apply causal_mask_rect | exact Hr].
  - apply masked_softmax_stochastic. exact Hr.
Qed.

Lemma Linear_forward2_eval n d_in d_out (l : Linear) (x : tensor (data2 R)) :
  Linear_wf d_in d_out l -> has_shape2 n d_in x ->
  Linear_forward2 l x = Ok (Tensor [n; d_out] (linear_rows l (data x))) /\
  rect2 n d_out (linear_rows l (data x)).
Proof.
  intros Hl [Hs [Hn Hr]]. unfold Linear_forward2.
  rewrite Hs, (wf_in_features Hl), Nat.eqb_refl, (wf_out_features Hl).
  split; [reflexivity|]. apply (linear_rows_rect d_in d_out n l _ Hl Hn).
Qed.

(** X22. [SelfAttention_v2.forward] on a matrix of [n] rows: when the
    rows have [d_in] entries it returns a matrix of shape [[n, d_out]];
    for every other width it raises [RuntimeError]. *)
Theorem self_attention_v2_shape (self : SelfAttention_v2.t)
        (d_in d_out n d : nat) (x : tensor (data2 R)) :
  Linear_wf d_in d_out (SelfAttention_v2.W_query self) ->
  Linear_wf d_in d_out (SelfAttention_v2.W_key self) ->
  Linear_wf d_in d_out (SelfAttention_v2.W_value self) ->
  has_shape2 n d x ->
  (d = d_in ->
   exists y, SelfAttention_v2.forward self x = Ok y /\ has_shape2 n d_out y) /\
  (d <> d_in -> SelfAttention_v2.forward self x = Raise RuntimeError).
Proof.
  intros Hq Hk Hv Hx. split.
  - intros ->. unfold SelfAttention_v2.forward.
    destruct (Linear_forward2_eval n d_in d_out _ x Hq Hx) as [-> Rq].
    destruct (Linear_forward2_eval n d_in d_out _ x Hk Hx) as [-> Rk].
    destruct (Linear_forward2_eval n d_in d_out _ x Hv Hx) as [-> Rv].
    cbn [rbind T2 shape data]. unfold matmul2 at 1. cbn [shape data].
    rewrite Nat.eqb_refl. cbn [rbind last].
    unfold softmax2, tmap2, matmul2. cbn [shape data]. rewrite Nat.eqb_refl.
    eexists. split; [reflexivity|]. split; [reflexivity|]. cbn [data].
    apply mm_rect.
    + rewrite !length_map. unfold mm. rewrite length_map. exact (proj1 Rq).
    + apply (transposeLL_rect _ _ _ Rv).
  - intros Hd. destruct Hx as [Hs _]. unfold SelfAttention_v2.forward.
    unfold Linear_forward2 at 1. rewrite Hs, (wf_in_features Hq).
    destruct (Nat.eqb_spec d d_in); [contradiction|]. reflexivity.
Qed.

(* ================================================================== *)
(** * Further properties: the widths the block accepts *)

Lemma add3_broadcast_last b n emb (u x : tensor (data3 R)) :
  has_shape3 b n emb u -> has_shape3 b n 1 x ->
  exists s, add3 u x = Ok s /\ has_shape3 b n emb s.
Proof.
  intros [Hsu [Hu Hru]] [Hsx [Hx Hrx]]. unfold add3. rewrite Hsu, Hsx.
  rewrite !bdim_same. cbn [rbind].
  assert (Eb : bdim emb 1 = Ok emb).
  { unfold bdim. destruct (Nat.eqb_spec emb 1) as [->|E]; [reflexivity|].
    reflexivity. }
  rewrite Eb. cbn [rbind]. eexists. split; [reflexivity|].
  split; [reflexivity|]. cbn [data].
  apply (bzip_rect _ (rect2 n emb) (rect2 n 1) (rect2 n emb) b); auto.
  intros U X [HU RU] [HX RX].
  apply (bzip_rect _ (rect1 emb) (rect1 1) (rect1 emb) n); auto.
  intros r v Hr Hv. unfold rect1 in *.
  unfold bzip, stretch. rewrite Hr, Hv.
  destruct (Nat.eqb_spec emb 1) as [E|E].
  - rewrite E, Nat.eqb_refl, map2_length, Hr, Hv, E. reflexivity.
  - rewrite Nat.eqb_sym.
    destruct (Nat.eqb_spec emb 1) as [E'|_]; [contradiction|].
    destruct v as [|a [|a' v]]; try discriminate.
    assert (Er : match r with [a0] => repeat a0 1 | _ => r end = r).
    { destruct r as [|r0 [|r1 r]]; reflexivity. }
    rewrite Er, map2_length, Hr, repeat_length. apply Nat.min_id.
Qed.

(** X23. [TransformerBlock.forward] raises [RuntimeError], before anything
    is drawn, for every input whose width is neither [emb_dim] nor 1. *)
Theorem block_rejects_other_widths (self : TransformerBlock.t)
        (emb ctx b n d : nat) (x : tensor (data3 R)) (g : rng) :
  TransformerBlock.wf emb ctx self ->
  shape x = [b; n; d] ->
  d <> emb ->
  d <> 1%nat ->
  TransformerBlock.forward self x g = (Raise RuntimeError, g).
Proof.
  intros [Ha Ho Hf [Hsc Hsh] H2] Hs Hd Hd1.
  unfold TransformerBlock.forward, bind, lift.
  unfold LayerNorm.forward at 1. rewrite Hs, Hsc, Hsh. unfold bdim at 1 2.
  destruct (Nat.eqb_spec emb d) as [E|_]; [congruence|].
  destruct (Nat.eqb_spec emb 1) as [E1|E1].
  - cbn [rbind]. destruct (Nat.eqb_spec d emb) as [E|_]; [congruence|].
    destruct (Nat.eqb_spec d 1) as [E|_]; [congruence|].
    cbn [rbind].
    erewrite (MultiHeadAttention_forward_width _ emb ctx b n d _ g Ha)
      by (reflexivity || exact Hd).
    reflexivity.
  - destruct (Nat.eqb_spec d 1) as [E|_]; [congruence|]. reflexivity.
Qed.

(** X24. An input of width 1 is not rejected by the block: for
    [n <= context_length] tokens [TransformerBlock.forward] returns a
    tensor of width [emb_dim], because the first normalization and the
    residual addition both broadcast the input. *)
Theorem block_accepts_width_one (self : TransformerBlock.t)
        (emb ctx b n : nat) (x : tensor (data3 R)) (g : rng) :
  TransformerBlock.wf emb ctx self ->
  has_shape3 b n 1 x ->
  (n <= ctx)%nat ->
  exists y g',
    TransformerBlock.forward self x g = (Ok y, g') /\
    has_shape3 b n emb y.
Proof.
  intros [Ha Ho Hf H1 H2] Hx Hn.
  pose proof (LayerNorm_forward_width_one _ emb b n x H1 Hx) as E1.
  assert (S1 : has_shape3 b n emb
                 (Tensor [b; n; emb]
                    (map (map (fun _ => LayerNorm.shift
                                          (TransformerBlock.norm1 self)))
                         (data x)))).
  { destruct Hx as [_ [Hb Hr]]. split; [reflexivity|]. cbn [data].
    split; [rewrite length_map; exact Hb|].
    apply Forall_map. eapply Forall_impl; [|exact Hr].
    intros m [Hm _]. split; [rewrite length_map; exact Hm|].
    apply Forall_map, Forall_forall. intros r _.
    apply (LayerNorm.wf_shift H1). }
  destruct (forward_total _ emb ctx Ha b n _ g S1 Hn) as (a & g1 & E2 & S2).
  cbv zeta in S2.
  rewrite <- (wf_d_out_to_nat _ emb ctx Ha), Ho in S2.
  destruct (Dropout_forward3_total (TransformerBlock.drop_shortcut self)
              b n emb a g1 S2) as (d1 & g2 & E3 & S3).
  destruct (add3_broadcast_last b n emb d1 x S3 Hx) as (s & E4 & S4).
  destruct (LayerNorm_forward_total emb b n _ s H2 S4) as (x2 & E5 & S5).
  destruct (FeedForward_forward_total emb b n _ x2 Hf S5) as (f & E6 & S6).
  destruct (Dropout_forward3_total (TransformerBlock.drop_shortcut self)
              b n emb f g2 S6) as (d2 & g3 & E7 & S7).
  destruct (add3_total b n emb d2 s S7 S4) as (y & E8 & S8).
  exists y, g3. split; [|exact S8].
  unfold TransformerBlock.forward, bind, lift, ret.
  rewrite E1, E2, E3, E4, E5, E6, E7, E8. reflexivity.
Qed.

(* ================================================================== *)
(** * Greedy decoding and the logits of the generated sequence *)









Section Consistency.
Variables (self : GPTModel.t) (vocab emb ctx b : nat) (c : Z).
Hypothesis Hwf : GPTModel.wf vocab emb ctx self.
Hypothesis Hoff : GPTModel.dropout_off self.
Hypothesis Hvocab : (0 < vocab)%nat.



End Consistency.


(* ================================================================== *)
(** * Further properties: the batch axis *)

(** X26. With dropout disabled, [MultiHeadAttention.forward] treats the
    elements of a batch independently: there is a function [f] on
    matrices of [n] rows, fixed by the parameters, such that every input
    of shape [[b, n, d_in]] with [n <= context_length] is mapped, without
    drawing, to the tensor whose batch elements are [f] of the input's
    batch elements. *)
Theorem attention_batchwise (self : MultiHeadAttention.t) (d_in ctx n : nat) :
  MultiHeadAttention.wf d_in ctx self ->
  dropout_disabled (MultiHeadAttention.dropout self) = true ->
  (n <= ctx)%nat ->
  exists f : data2 R -> data2 R,
    forall b (x : tensor (data3 R)) (g : rng),
      has_shape3 b n d_in x ->
      MultiHeadAttention.forward self x g
      = (Ok (Tensor [b; n; Z.to_nat (MultiHeadAttention.d_out self)]
               (map f (data x))), g).
Proof.
  intros Hwf Hd Hn. exists (MultiHeadAttention.batch_forward self n).
  intros b x g Hx.
  rewrite (forward_disabled self d_in ctx Hwf b n x g Hd Hx Hn).
  rewrite <- (wf_d_out_to_nat self d_in ctx Hwf). reflexivity.
Qed.

(* ================================================================== *)
(** * Further properties: the first token *)

Lemma stochastic_1x1 (w : data2 R) :
  rect2 1 1 w -> causal_row_stochastic w -> w = [[1]].
Proof.
  intros [Hl Hr] Hs.
  destruct w as [|r [|r' w]]; try discriminate.
  inversion Hr as [|? ? Hr0 _]; subst. unfold rect1 in Hr0.
  destruct r as [|a [|a' r]]; try discriminate.
  destruct (Hs 0%nat [a] eq_refl) as [Hsum _].
  cbn [Rsum fold_right] in Hsum. f_equal. f_equal. lra.
Qed.

Lemma head_weights_single s d (q k : data2 R) :
  rect2 1 d q -> rect2 1 d k -> head_weights s 1 d q k = [[1]].
Proof.
  intros Hq Hk. apply stochastic_1x1.
  - unfold head_weights. apply rect2_softmax, rect2_map_map, rect2_map2.
    + apply causal_mask_rect.
    + apply (head_scores_rect 1 d q k Hq Hk).
  - unfold head_weights. apply masked_softmax_stochastic.
    apply (head_scores_rect 1 d q k Hq Hk).
Qed.

Lemma zip_cons_singletons {A} (v : list A) d :
  length v = d -> zip_cons v (repeat [] d) = map (fun e => [e]) v.
Proof.
  revert d. induction v as [|a v IH]; intros [|d] H; try discriminate;
    [reflexivity|].
  cbn [repeat zip_cons map]. f_equal. apply IH. simpl in H. lia.
Qed.

Lemma mm_one d (v0 : list R) : length v0 = d -> mm d [[1]] [v0] = [v0].
Proof.
  intros H. unfold mm. cbn [map transposeLL].
  rewrite (zip_cons_singletons v0 d H), map_map. f_equal.
  rewrite <- (map_id v0) at 2. apply map_ext. intros e.
  unfold dot. cbn [map2 combine map fst snd Rsum fold_right]. ring.
Qed.

Lemma map2_mm_single d (W V : data3 R) :
  length W = length V ->
  Forall (fun w => w = [[1]]) W -> Forall (rect2 1 d) V ->
  map2 (mm d) W V = V.
Proof.
  intros Hl HW. revert V Hl. induction HW as [|w W Hw HW IH];
    intros [|v V] Hl HV; try discriminate; [reflexivity|].
  rewrite map2_cons. inversion HV as [|? ? [Hv Rv] HV']; subst.
  f_equal; [|apply IH; [simpl in Hl; lia | exact HV']].
  destruct v as [|v0 [|v1 v]]; try discriminate.
  inversion Rv; subst. apply mm_one. assumption.
Qed.

Section FirstToken.
Import MultiHeadAttention.
Variables (self : MultiHeadAttention.t) (d_in ctx : nat).
Hypothesis Hwf : wf d_in ctx self.

(** On a single token the attention weight is 1 and the heads are merged
    back: what remains is the value projection and the output
    projection. *)
Lemma batch_forward_single (X : data2 R) :
  length X = 1%nat ->
  batch_forward self 1 X
  = linear_rows (out_proj self) (linear_rows (W_value self) X).
Proof.
  intros HX. unfold batch_forward. cbv zeta. f_equal.
  pose proof (batch_weights_rect self d_in ctx Hwf 1 X HX) as [Lw _].
  pose proof (batch_values_rect self d_in ctx Hwf 1 X HX) as [Lv Rv].
  pose proof (linear_rows_rect _ _ 1 _ X (wf_value_nat self d_in ctx Hwf) HX)
    as Hm.
  cbv zeta in *.
  set (h := Z.to_nat (num_heads self)) in *.
  set (d := Z.to_nat (head_dim self)) in *.
  rewrite (map2_mm_single d).
  - unfold batch_values. fold h. fold d. unfold heads.
    assert (Hc : rect2 1 h (map (chunks d h) (linear_rows (W_value self) X))).
    { destruct Hm as [Hn Hr]. split; [rewrite length_map; exact Hn|].
      apply Forall_map. eapply Forall_impl; [|exact Hr].
      intros r _. apply chunks_length. }
    rewrite (transposeLL_involutive _ _ _ Hc), map_map.
    destruct Hm as [_ Hr].
    apply map_id_Forall with (P := rect1 (h * d)); [|exact Hr].
    intros r Hr'. apply concat_chunks. exact Hr'.
  - unfold data3, data2 in *. congruence.
  - apply (batch_weights_Forall self d_in ctx Hwf 1 X _ HX).
    intros q k Hq Hk. apply head_weights_single; assumption.
  - eapply Forall_impl; [|exact Rv]. intros v Hv. exact Hv.
Qed.

End FirstToken.

(** X27. The first position attends to itself only: with dropout
    disabled and an input of [1 <= n <= context_length] tokens, the first
    output row of every batch element is the output projection of the
    value projection of the first input row; queries, keys and all other
    tokens do not enter it. *)
Theorem attention_first_token (self : MultiHeadAttention.t)
        (d_in ctx b n : nat) (x : tensor (data3 R)) (g : rng) :
  MultiHeadAttention.wf d_in ctx self ->
  dropout_disabled (MultiHeadAttention.dropout self) = true ->
  has_shape3 b n d_in x ->
  (0 < n <= ctx)%nat ->
  exists y,
    MultiHeadAttention.forward self x g = (Ok y, g) /\
    map (firstn 1) (data y)
    = map (fun X => linear_rows (MultiHeadAttention.out_proj self)
                      (linear_rows (MultiHeadAttention.W_value self)
                                   (firstn 1 X)))
          (data x).
Proof.
  intros Hwf Hd Hx [Hn0 Hn].
  eexists. split; [apply (forward_disabled self d_in ctx Hwf b n x g Hd Hx Hn)|].
  cbn [data]. rewrite map_map. apply map_ext_in. intros X HX.
  destruct Hx as [_ [_ Hr]]. rewrite Forall_forall in Hr.
  destruct (Hr X HX) as [HX' _].
  rewrite <- (batch_forward_prefix self d_in ctx Hwf n 1 X HX') by lia.
  apply (batch_forward_single self d_in ctx Hwf).
  rewrite length_firstn, HX'. lia.
Qed.

(* ================================================================== *)
(** * Further properties: SelfAttention_v1 from its constructor *)

Lemma torch_rand_shape f r c t :
  SelfAttention_v1.torch_rand f r c = Ok t ->
  has_shape2 (Z.to_nat r) (Z.to_nat c) t.
Proof.
  unfold SelfAttention_v1.torch_rand.
  destruct ((r <? 0) || (c <? 0))%Z; [discriminate|].
  intros E. injection E as <-. split; [reflexivity|]. cbn [data].
  split; [apply tabulate_length|].
  unfold tabulate at 1. apply Forall_map, Forall_forall. intros k _.
  apply tabulate_length.
Qed.

Lemma matmul2_shape n k m (a b : tensor (data2 R)) :
  has_shape2 n k a -> has_shape2 k m b ->
  matmul2 a b = Ok (Tensor [n; m] (mm m (data a) (data b))) /\
  has_shape2 n m (Tensor [n; m] (mm m (data a) (data b))).
Proof.
  intros [Hsa [Ha _]] [Hsb Hrb]. unfold matmul2.
  rewrite Hsa, Hsb, Nat.eqb_refl. split; [reflexivity|].
  split; [reflexivity|]. cbn [data]. apply mm_rect; [exact Ha|].
  apply (transposeLL_rect _ _ _ Hrb).
Qed.

(** X28. A module built by [SelfAttention_v1(d_in, d_out)] maps every
    matrix of shape [[n, d_in]] to a matrix of shape [[n, d_out]], and
    raises [RuntimeError] for rows of any other width. *)
Theorem self_attention_v1_shape (fq fk fv : nat -> nat -> R) (d_in d_out : Z)
        (self : SelfAttention_v1.t) (n d : nat) (x : tensor (data2 R)) :
  SelfAttention_v1.init fq fk fv d_in d_out = Ok self ->
  has_shape2 n d x ->
  (d = Z.to_nat d_in ->
   exists y, SelfAttention_v1.forward self x = Ok y /\
             has_shape2 n (Z.to_nat d_out) y) /\
  (d <> Z.to_nat d_in -> SelfAttention_v1.forward self x = Raise RuntimeError).
Proof.
  unfold SelfAttention_v1.init. intros E Hx.
  destruct (SelfAttention_v1.torch_rand fq d_in d_out) as [wq|] eqn:Eq;
    [|discriminate].
  cbn [rbind] in E.
  destruct (SelfAttention_v1.torch_rand fk d_in d_out) as [wk|] eqn:Ek;
    [|discriminate].
  cbn [rbind] in E.
  destruct (SelfAttention_v1.torch_rand fv d_in d_out) as [wv|] eqn:Ev;
    [|discriminate].
  cbn [rbind] in E. injection E as <-.
  apply torch_rand_shape in Eq, Ek, Ev.
  unfold SelfAttention_v1.forward. cbn [SelfAttention_v1.W_query
    SelfAttention_v1.W_key SelfAttention_v1.W_value].
  split.
  - intros ->.
    destruct (matmul2_shape n _ _ x wq Hx Eq) as [-> Sq].
    destruct (matmul2_shape n _ _ x wk Hx Ek) as [-> Sk].
    destruct (matmul2_shape n _ _ x wv Hx Ev) as [-> Sv].
    cbn [rbind T2 shape data].
    assert (SkT : has_shape2 (Z.to_nat d_out) n
                    (Tensor [Z.to_nat d_out; n]
                       (transposeLL (Z.to_nat d_out)
                          (mm (Z.to_nat d_out) (data x) (data wk))))).
    { split; [reflexivity|]. apply (transposeLL_rect _ _ _ (proj2 Sk)). }
    destruct (matmul2_shape n _ n _ _ Sq SkT) as [-> Ss].
    cbn [rbind shape last].
    match goal with
    | |- exists y, matmul2 ?w ?v = Ok y /\ _ =>
        assert (Sw : has_shape2 n n w)
    end.
    { split; [reflexivity|]. cbn [softmax2 tmap2 data shape].
      apply rect2_softmax, rect2_map_map, rect2_map_map. exact (proj2 Ss). }
    destruct (matmul2_shape n n (Z.to_nat d_out) _ _ Sw Sv) as [Ef Sf].
    eexists. split; [exact Ef | exact Sf].
  - intros Hd. destruct Hx as [Hs _]. destruct Eq as [Hsq _].
    unfold matmul2 at 1. rewrite Hs, Hsq.
    destruct (Nat.eqb_spec d (Z.to_nat d_in)); [contradiction|]. reflexivity.
Qed.

(* ================================================================== *)
(** * Further concrete modules and inputs *)

Lemma eval_gpt_wf : GPTModel.wf 3 2 2 (GPTModel.eval GPTExamples.gpt).
Proof. apply GPTModel_eval_wf, gpt_wf. Qed.



Lemma prompt_other_shape : has_shape2 1 2 GPTExamples.prompt_other.
Proof. split; [reflexivity|]. repeat constructor. Qed.

Lemma prompt_other_valid : valid_tokens 3 GPTExamples.prompt_other.
Proof. repeat constructor; cbn; lia. Qed.

Lemma xb_other_shape : has_shape3 1 2 2 GPTExamples.xb_other.
Proof. split; [reflexivity|]. repeat constructor. Qed.

Lemma prompt3_shape : has_shape2 1 3 GPTExamples.prompt3.
Proof. split; [reflexivity|]. repeat constructor. Qed.

Lemma empty_prompt_shape : has_shape2 1 0 GPTExamples.empty_prompt.
Proof. split; [reflexivity|]. repeat constructor. Qed.

Lemma bad_prompt_invalid : ~ valid_tokens 3 GPTExamples.bad_prompt.
Proof.
  intros H. inversion H as [|? ? Hrow _]; subst.
  inversion Hrow as [|? ? _ Hrest]; subst.
  inversion Hrest as [|? ? H3 _]; subst. cbn in H3. lia.
Qed.


Lemma x_width1_shape : has_shape3 1 2 1 GPTExamples.x_width1.
Proof. split; [reflexivity|]. repeat constructor. Qed.

Lemma x_width3_shape : has_shape3 1 2 3 GPTExamples.x_width3.
Proof. split; [reflexivity|]. repeat constructor. Qed.

Lemma norm3_wf : LayerNorm.wf 3 Examples.norm3.
Proof. exact (LayerNorm_init_wf 3 _ norm3_init). Qed.

Lemma inputs_shape : has_shape2 2 2 Examples.inputs.
Proof. split; [reflexivity|]. repeat constructor. Qed.

Lemma v2_query_wf : Linear_wf 2 1 (SelfAttention_v2.W_query Examples.v2).
Proof. constructor; cbn; repeat constructor. Qed.

Lemma v2_key_wf : Linear_wf 2 1 (SelfAttention_v2.W_key Examples.v2).
Proof. constructor; cbn; repeat constructor. Qed.

Lemma v2_value_wf : Linear_wf 2 1 (SelfAttention_v2.W_value Examples.v2).
Proof. constructor; cbn; repeat constructor. Qed.

(** The model of the examples meets the contract of the decoding loop. *)
Lemma gpt_contract :
  forall (t : tensor (data2 Z)) (m : nat) (g0 : rng),
    has_shape2 1 m t -> valid_tokens 3 t ->
    (0 < m <= Z.to_nat 2)%nat ->
    exists logits g1,
      GPTModel.forward GPTExamples.gpt t g0 = (Return logits, g1) /\
      has_shape3 1 m 3 logits.
Proof.
  intros t m g0 Ht Vt Hm.
  apply (GPTModel_forward_total GPTExamples.gpt 3 2 2 1 m t g0 gpt_wf Ht Vt).
  change (Z.to_nat 2) with 2%nat in Hm. lia.
Qed.

(* ================================================================== *)
(** * The further properties at concrete inputs *)

(** X1 for the two-head module on a two-token input. *)
Lemma attention_forward_shape_witness :
  MultiHeadAttention.wf 1 2 Examples.mha /\
  has_shape3 1 2 1 Examples.x2 /\
  (2 <= 2)%nat /\
  exists y g',
    MultiHeadAttention.forward Examples.mha Examples.x2 Examples.keep_all
    = (Ok y, g') /\
    has_shape3 1 2 (Z.to_nat (MultiHeadAttention.d_out Examples.mha)) y.
Proof.
  split; [exact mha_wf|]. split; [exact x2_shape|]. split; [apply le_n|].
  apply (attention_forward_shape Examples.mha 1 2 1 2 Examples.x2
           Examples.keep_all mha_wf x2_shape (le_n 2)).
Defined.

(** X2 for the module with [d_in = 1] on an input of width 2. *)
Lemma attention_forward_wrong_width_witness :
  MultiHeadAttention.wf 1 2 Examples.mha /\
  shape Examples.xb = [1; 2; 2]%nat /\
  2%nat <> 1%nat /\
  MultiHeadAttention.forward Examples.mha Examples.xb Examples.keep_all
  = (Raise RuntimeError, Examples.keep_all).
Proof.
  split; [exact mha_wf|]. split; [reflexivity|].
  split; [discriminate|].
  apply (attention_forward_wrong_width Examples.mha 1 2 1 2 2 Examples.xb
           Examples.keep_all mha_wf eq_refl).
  discriminate.
Defined.

(** X3 for the block in evaluation mode and two inputs that differ in
    the second token only. *)
Lemma block_forward_causal_witness :
  TransformerBlock.wf 2 2 (TransformerBlock_eval Examples.block) /\
  block_dropout_disabled (TransformerBlock_eval Examples.block) = true /\
  has_shape3 1 2 2 Examples.xb /\
  has_shape3 1 2 2 GPTExamples.xb_other /\
  (2 <= 2)%nat /\
  (1 <= 2)%nat /\
  agree_upto 1 Examples.xb GPTExamples.xb_other /\
  exists y y',
    TransformerBlock.forward (TransformerBlock_eval Examples.block)
      Examples.xb Examples.keep_all = (Ok y, Examples.keep_all) /\
    TransformerBlock.forward (TransformerBlock_eval Examples.block)
      GPTExamples.xb_other Examples.keep_all = (Ok y', Examples.keep_all) /\
    has_shape3 1 2 2 y /\
    has_shape3 1 2 2 y' /\
    agree_upto 1 y y'.
Proof.
  assert (H12 : (1 <= 2)%nat) by lia.
  split; [exact eval_block_wf|]. split; [reflexivity|].
  split; [exact xb_shape|]. split; [exact xb_other_shape|].
  split; [apply le_n|]. split; [exact H12|]. split; [reflexivity|].
  apply (block_forward_causal (TransformerBlock_eval Examples.block)
           2 2 1 2 1 Examples.xb GPTExamples.xb_other
           Examples.keep_all Examples.keep_all
           eval_block_wf eq_refl xb_shape xb_other_shape (le_n 2) H12 eq_refl).
Defined.

(** X4 for the feed-forward network of the block of width 2. *)
Lemma feed_forward_tokenwise_witness :
  FeedForward.wf 2 (TransformerBlock.ff Examples.block) /\
  exists f : list R -> list R,
    forall b n (x : tensor (data3 R)),
      has_shape3 b n 2 x ->
      FeedForward.forward (TransformerBlock.ff Examples.block) x
      = Ok (Tensor [b; n; 2%nat] (map (map f) (data x))).
Proof.
  split; [exact (TransformerBlock.wf_ff block_wf)|].
  apply (feed_forward_tokenwise (TransformerBlock.ff Examples.block) 2
           (TransformerBlock.wf_ff block_wf)).
Defined.

(** X5 for an input of width 3 shifted by 10. *)
Lemma layer_norm_shift_invariant_witness :
  has_shape3 1 2 3 GPTExamples.x_width3 /\
  LayerNorm.forward Examples.norm3
    (Tensor (shape GPTExamples.x_width3)
            (map (map (map (fun v => v + 10))) (data GPTExamples.x_width3)))
  = LayerNorm.forward Examples.norm3 GPTExamples.x_width3.
Proof.
  split; [exact x_width3_shape|].
  apply (layer_norm_shift_invariant Examples.norm3 1 2 3 GPTExamples.x_width3
           10 x_width3_shape).
Defined.

(** X6 for parameters of three entries and an input of width 2. *)
Lemma layer_norm_widths_witness :
  LayerNorm.wf 3 Examples.norm3 /\
  shape Examples.xb = [1; 2; 2]%nat /\
  LayerNorm.forward Examples.norm3 Examples.xb = Raise RuntimeError.
Proof.
  split; [exact norm3_wf|]. split; [reflexivity|].
  apply (proj2 (proj2 (layer_norm_widths Examples.norm3 3 1 2 2 Examples.xb
                         norm3_wf eq_refl))); discriminate.
Defined.

(** X7 for parameters of three entries and an input of width 1. *)
Lemma layer_norm_width_one_witness :
  LayerNorm.wf 3 Examples.norm3 /\
  has_shape3 1 2 1 GPTExamples.x_width1 /\
  LayerNorm.forward Examples.norm3 GPTExamples.x_width1
  = Ok (Tensor [1; 2; 3]%nat
          (map (map (fun _ => LayerNorm.shift Examples.norm3))
               (data GPTExamples.x_width1))).
Proof.
  split; [exact norm3_wf|]. split; [exact x_width1_shape|].
  apply (layer_norm_width_one Examples.norm3 3 1 2 GPTExamples.x_width1
           norm3_wf x_width1_shape).
Defined.

(** X8 at [x = 1]. *)
Lemma gelu_bounds_witness :
  0 <= 1 /\ 1 / 2 <= GELU.forward 1 <= 1.
Proof.
  assert (H : 0 <= 1) by lra. split; [exact H|].
  apply (proj1 (proj2 (gelu_bounds 1)) H).
Defined.

(** X9 for the model of three tokens on a prompt of two. *)
Lemma model_logits_shape_witness :
  GPTModel.wf 3 2 2 GPTExamples.gpt /\
  has_shape2 1 2 GPTExamples.prompt /\
  valid_tokens 3 GPTExamples.prompt /\
  (2 <= 2)%nat /\
  exists logits g',
    GPTModel.forward GPTExamples.gpt GPTExamples.prompt Examples.keep_all
    = (Return logits, g') /\
    has_shape3 1 2 3 logits.
Proof.
  split; [exact gpt_wf|]. split; [exact prompt_shape|].
  split; [exact prompt_valid|]. split; [apply le_n|].
  apply (model_logits_shape GPTExamples.gpt 3 2 2 1 2 GPTExamples.prompt
           Examples.keep_all gpt_wf prompt_shape prompt_valid (le_n 2)).
Defined.

(** X10 for three tokens and [context_length = 2]. *)
Lemma model_rejects_long_input_witness :
  GPTModel.wf 3 2 2 GPTExamples.gpt /\
  shape GPTExamples.prompt3 = [1; 3]%nat /\
  (2 < 3)%nat /\
  (0 < 3)%nat /\ (0 < 2)%nat /\
  GPTModel.forward GPTExamples.gpt GPTExamples.prompt3 Examples.keep_all
  = (Throw IndexError, Examples.keep_all).
Proof.
  assert (H23 : (2 < 3)%nat) by lia. assert (H3 : (0 < 3)%nat) by lia.
  assert (H2 : (0 < 2)%nat) by lia.
  split; [exact gpt_wf|]. split; [reflexivity|]. split; [exact H23|].
  split; [exact H3|]. split; [exact H2|].
  apply (proj1 (proj2 (model_rejects_long_input GPTExamples.gpt 3 2 2 1 3
                         GPTExamples.prompt3 Examples.keep_all gpt_wf eq_refl
                         H23)) H3 H2 H2).
Defined.

(** X11 for the index 3 and a vocabulary of three tokens. *)
Lemma model_rejects_unknown_token_witness :
  GPTModel.wf 3 2 2 GPTExamples.gpt /\
  shape GPTExamples.bad_prompt = [1; 2]%nat /\
  ~ valid_tokens 3 GPTExamples.bad_prompt /\
  GPTModel.forward GPTExamples.gpt GPTExamples.bad_prompt Examples.keep_all
  = (Throw IndexError, Examples.keep_all).
Proof.
  split; [exact gpt_wf|]. split; [reflexivity|].
  split; [exact bad_prompt_invalid|].
  apply (model_rejects_unknown_token GPTExamples.gpt 3 2 2 1 2
           GPTExamples.bad_prompt Examples.keep_all gpt_wf eq_refl
           bad_prompt_invalid).
Defined.

(** X12 for the model of three tokens. *)
Lemma model_eval_draws_nothing_witness :
  GPTModel.wf 3 2 2 GPTExamples.gpt /\
  has_shape2 1 2 GPTExamples.prompt /\
  valid_tokens 3 GPTExamples.prompt /\
  (2 <= 2)%nat /\
  GPTModel.wf 3 2 2 (GPTModel.eval GPTExamples.gpt) /\
  exists logits,
    has_shape3 1 2 3 logits /\
    forall g, GPTModel.forward (GPTModel.eval GPTExamples.gpt)
                GPTExamples.prompt g = (Return logits, g).
Proof.
  split; [exact gpt_wf|]. split; [exact prompt_shape|].
  split; [exact prompt_valid|]. split; [apply le_n|].
  apply (model_eval_draws_nothing GPTExamples.gpt 3 2 2 1 2 GPTExamples.prompt
           gpt_wf prompt_shape prompt_valid (le_n 2)).
Defined.

(** X13 for the model in evaluation mode and two prompts that differ in
    the second token only. *)
Lemma model_forward_causal_witness :
  GPTModel.wf 3 2 2 (GPTModel.eval GPTExamples.gpt) /\
  GPTModel.dropout_off (GPTModel.eval GPTExamples.gpt) /\
  has_shape2 1 2 GPTExamples.prompt /\
  has_shape2 1 2 GPTExamples.prompt_other /\
  valid_tokens 3 GPTExamples.prompt /\
  valid_tokens 3 GPTExamples.prompt_other /\
  (2 <= 2)%nat /\
  (1 <= 2)%nat /\
  map (firstn 1) (data GPTExamples.prompt)
  = map (firstn 1) (data GPTExamples.prompt_other) /\
  exists logits logits',
    GPTModel.forward (GPTModel.eval GPTExamples.gpt) GPTExamples.prompt
      Examples.keep_all = (Return logits, Examples.keep_all) /\
    GPTModel.forward (GPTModel.eval GPTExamples.gpt) GPTExamples.prompt_other
      Examples.keep_all = (Return logits', Examples.keep_all) /\
    has_shape3 1 2 3 logits /\
    has_shape3 1 2 3 logits' /\
    agree_upto 1 logits logits'.
Proof.
  assert (H12 : (1 <= 2)%nat) by lia.
  split; [exact eval_gpt_wf|].
  split; [exact (GPTModel_eval_dropout_off GPTExamples.gpt)|].
  split; [exact prompt_shape|]. split; [exact prompt_other_shape|].
  split; [exact prompt_valid|]. split; [exact prompt_other_valid|].
  split; [apply le_n|]. split; [exact H12|]. split; [reflexivity|].
  apply (model_forward_causal (GPTModel.eval GPTExamples.gpt) 3 2 2 1 2 1
           GPTExamples.prompt GPTExamples.prompt_other
           Examples.keep_all Examples.keep_all
           eval_gpt_wf (GPTModel_eval_dropout_off GPTExamples.gpt)
           prompt_shape prompt_other_shape prompt_valid prompt_other_valid
           (le_n 2) H12 eq_refl).
Defined.

(** X14 for the configuration of three tokens and one block. *)
Lemma model_init_invariant_witness :
  GPTModel.init GPTExamples.src GPTExamples.cfg = Ok GPTExamples.gpt /\
  (0 < emb_dim (block_cfg GPTExamples.cfg))%Z /\
  (0 < n_heads (block_cfg GPTExamples.cfg))%Z /\
  GPTModel.wf (Z.to_nat (vocab_size GPTExamples.cfg))
              (Z.to_nat (emb_dim (block_cfg GPTExamples.cfg)))
              (Z.to_nat (context_length (block_cfg GPTExamples.cfg)))
              GPTExamples.gpt /\
  length (GPTModel.trf_blocks GPTExamples.gpt)
  = Z.to_nat (n_layers GPTExamples.cfg).
Proof.
  assert (He : (0 < emb_dim (block_cfg GPTExamples.cfg))%Z) by (cbn; lia).
  assert (Hh : (0 < n_heads (block_cfg GPTExamples.cfg))%Z) by (cbn; lia).
  split; [reflexivity|]. split; [exact He|]. split; [exact Hh|].
  apply (model_init_invariant GPTExamples.src GPTExamples.cfg GPTExamples.gpt
           eq_refl He Hh).
Defined.

(** X15 for a width 3 that two heads do not divide, with no layer. *)
Lemma model_init_accepts_witness :
  exists self, GPTModel.init GPTExamples.src GPTExamples.cfg_no_layers = Ok self.
Proof.
  apply (proj2 (model_init_accepts GPTExamples.src GPTExamples.cfg_no_layers)).
  cbn. repeat split; try lia; try discriminate.
Defined.

(** X16 for the model of three tokens, two new tokens and a context of
    two. *)
Lemma generate_extends_prompt_witness :
  (0 < 3)%nat /\
  (0 < 2)%Z /\
  has_shape2 1 2 GPTExamples.prompt /\
  valid_tokens 3 GPTExamples.prompt /\
  (0 < 2)%nat /\
  exists idx' g',
    generate_text_simple (GPTModel.forward GPTExamples.gpt) GPTExamples.prompt
                         2 2 Examples.keep_all
    = (Return idx', g') /\
    has_shape2 1 (2 + Z.to_nat 2) idx' /\
    valid_tokens 3 idx' /\
    take_cols 2 idx' = GPTExamples.prompt.
Proof.
  assert (H3 : (0 < 3)%nat) by lia. assert (H2 : (0 < 2)%Z) by lia.
  assert (Hn : (0 < 2)%nat) by lia.
  split; [exact H3|]. split; [exact H2|]. split; [exact prompt_shape|].
  split; [exact prompt_valid|]. split; [exact Hn|].
  apply (generate_extends_prompt (GPTModel.forward GPTExamples.gpt) 1 3 2
           GPTExamples.prompt 2 2 Examples.keep_all H3 H2 gpt_contract
           prompt_shape prompt_valid Hn).
Defined.

(** X17 for the model of three tokens in training mode. *)
Lemma generate_with_model_witness :
  GPTModel.wf 3 2 2 GPTExamples.gpt /\
  (0 < 3)%nat /\
  (0 < 2 <= Z.of_nat 2)%Z /\
  has_shape2 1 2 GPTExamples.prompt /\
  valid_tokens 3 GPTExamples.prompt /\
  (0 < 2)%nat /\
  exists idx' g',
    generate_text_simple (GPTModel.forward GPTExamples.gpt) GPTExamples.prompt
                         2 2 Examples.keep_all
    = (Return idx', g') /\
    has_shape2 1 (2 + Z.to_nat 2) idx' /\
    valid_tokens 3 idx'.
Proof.
  assert (H3 : (0 < 3)%nat) by lia.
  assert (H2 : (0 < 2 <= Z.of_nat 2)%Z) by (cbn; lia).
  assert (Hn : (0 < 2)%nat) by lia.
  split; [exact gpt_wf|]. split; [exact H3|]. split; [exact H2|].
  split; [exact prompt_shape|]. split; [exact prompt_valid|].
  split; [exact Hn|].
  apply (generate_with_model GPTExamples.gpt 3 2 2 1 2 GPTExamples.prompt 2 2
           Examples.keep_all gpt_wf H3 H2 prompt_shape prompt_valid Hn).
Defined.

(** X18 for the empty prompt and one new token. *)
Lemma generate_rejects_empty_prompt_witness :
  GPTModel.wf 3 2 2 GPTExamples.gpt /\
  has_shape2 1 0 GPTExamples.empty_prompt /\
  (0 < 1)%Z /\
  exists g',
    generate_text_simple (GPTModel.forward GPTExamples.gpt)
                         GPTExamples.empty_prompt 1 2 Examples.keep_all
    = (Throw IndexError, g').
Proof.
  assert (H1 : (0 < 1)%Z) by lia.
  split; [exact gpt_wf|]. split; [exact empty_prompt_shape|].
  split; [exact H1|].
  apply (generate_rejects_empty_prompt GPTExamples.gpt 3 2 2 1
           GPTExamples.empty_prompt 1 2 Examples.keep_all gpt_wf
           empty_prompt_shape H1).
Defined.

(** X19 for three tokens with [context_size = 0] and [context_size = 2]. *)
Lemma context_crop_witness :
  has_shape2 1 3 GPTExamples.prompt3 /\
  slice_cols_from (- 0) GPTExamples.prompt3 = Return GPTExamples.prompt3 /\
  (0 < 2 < Z.of_nat 3)%Z /\
  slice_cols_from (- 2) GPTExamples.prompt3
  = Return (Tensor [1%nat; Z.to_nat 2]
              (map (skipn (3 - Z.to_nat 2)) (data GPTExamples.prompt3))).
Proof.
  assert (H2 : (0 < 2 < Z.of_nat 3)%Z) by (cbn; lia).
  split; [exact prompt3_shape|]. split.
  - apply (proj1 (context_crop 1 3 GPTExamples.prompt3 0 prompt3_shape)).
    left. reflexivity.
  - split; [exact H2|].
    apply (proj2 (context_crop 1 3 GPTExamples.prompt3 2 prompt3_shape) H2).
Defined.


(** X21 for a 2 x 2 score matrix. *)
Lemma masking_script_causal_witness :
  has_shape2 2 2 Examples.inputs /\
  (0 < last (shape Examples.inputs) 0)%nat /\
  exists w,
    MaskingScript.attn_weights Examples.inputs Examples.inputs = Ok w /\
    has_shape2 2 2 w /\
    causal_row_stochastic (data w).
Proof.
  assert (H : (0 < last (shape Examples.inputs) 0)%nat) by (cbn; lia).
  split; [exact inputs_shape|]. split; [exact H|].
  apply (masking_script_causal 2 Examples.inputs Examples.inputs
           inputs_shape H).
Defined.

(** X22 for [SelfAttention_v2(2, 1)] on two rows of width 2. *)
Lemma self_attention_v2_shape_witness :
  Linear_wf 2 1 (SelfAttention_v2.W_query Examples.v2) /\
  Linear_wf 2 1 (SelfAttention_v2.W_key Examples.v2) /\
  Linear_wf 2 1 (SelfAttention_v2.W_value Examples.v2) /\
  has_shape2 2 2 Examples.inputs /\
  exists y, SelfAttention_v2.forward Examples.v2 Examples.inputs = Ok y /\
            has_shape2 2 1 y.
Proof.
  split; [exact v2_query_wf|]. split; [exact v2_key_wf|].
  split; [exact v2_value_wf|]. split; [exact inputs_shape|].
  apply (proj1 (self_attention_v2_shape Examples.v2 2 1 2 2 Examples.inputs
                  v2_query_wf v2_key_wf v2_value_wf inputs_shape) eq_refl).
Defined.

(** X23 for the block of width 2 and an input of width 3. *)
Lemma block_rejects_other_widths_witness :
  TransformerBlock.wf 2 2 Examples.block /\
  shape GPTExamples.x_width3 = [1; 2; 3]%nat /\
  3%nat <> 2%nat /\
  3%nat <> 1%nat /\
  TransformerBlock.forward Examples.block GPTExamples.x_width3 Examples.keep_all
  = (Raise RuntimeError, Examples.keep_all).
Proof.
  split; [exact block_wf|]. split; [reflexivity|].
  split; [discriminate|]. split; [discriminate|].
  apply (block_rejects_other_widths Examples.block 2 2 1 2 3
           GPTExamples.x_width3 Examples.keep_all block_wf eq_refl);
    discriminate.
Defined.

(** X24 for the block of width 2 and an input of width 1. *)
Lemma block_accepts_width_one_witness :
  TransformerBlock.wf 2 2 Examples.block /\
  has_shape3 1 2 1 GPTExamples.x_width1 /\
  (2 <= 2)%nat /\
  exists y g',
    TransformerBlock.forward Examples.block GPTExamples.x_width1
      Examples.keep_all = (Ok y, g') /\
    has_shape3 1 2 2 y.
Proof.
  split; [exact block_wf|]. split; [exact x_width1_shape|].
  split; [apply le_n|].
  apply (block_accepts_width_one Examples.block 2 2 1 2 GPTExamples.x_width1
           Examples.keep_all block_wf x_width1_shape (le_n 2)).
Defined.


(** X26 for the two-head module with [dropout = 0.0]. *)
Lemma attention_batchwise_witness :
  MultiHeadAttention.wf 1 2 Examples.mha /\
  dropout_disabled (MultiHeadAttention.dropout Examples.mha) = true /\
  (2 <= 2)%nat /\
  exists f : data2 R -> data2 R,
    forall b (x : tensor (data3 R)) (g : rng),
      has_shape3 b 2 1 x ->
      MultiHeadAttention.forward Examples.mha x g
      = (Ok (Tensor [b; 2%nat; Z.to_nat (MultiHeadAttention.d_out Examples.mha)]
               (map f (data x))), g).
Proof.
  split; [exact mha_wf|]. split; [reflexivity|]. split; [apply le_n|].
  apply (attention_batchwise Examples.mha 1 2 2 mha_wf eq_refl (le_n 2)).
Defined.

(** X27 for the two-head module on a two-token input. *)
Lemma attention_first_token_witness :
  MultiHeadAttention.wf 1 2 Examples.mha /\
  dropout_disabled (MultiHeadAttention.dropout Examples.mha) = true /\
  has_shape3 1 2 1 Examples.x2' /\
  (0 < 2 <= 2)%nat /\
  exists y,
    MultiHeadAttention.forward Examples.mha Examples.x2' Examples.keep_all
    = (Ok y, Examples.keep_all) /\
    map (firstn 1) (data y)
    = map (fun X => linear_rows (MultiHeadAttention.out_proj Examples.mha)
                      (linear_rows (MultiHeadAttention.W_value Examples.mha)
                                   (firstn 1 X)))
          (data Examples.x2').
Proof.
  assert (Hn : (0 < 2 <= 2)%nat) by lia.
  split; [exact mha_wf|]. split; [reflexivity|]. split; [exact x2'_shape|].
  split; [exact Hn|].
  apply (attention_first_token Examples.mha 1 2 1 2 Examples.x2'
           Examples.keep_all mha_wf eq_refl x2'_shape Hn).
Defined.

(** X28 for [SelfAttention_v1(2, 1)] on two rows of width 2. *)
Lemma self_attention_v1_shape_witness :
  SelfAttention_v1.init (fun _ _ => 1) (fun _ _ => 1) (fun _ _ => 1) 2 1
  = Ok GPTExamples.v1_ones /\
  has_shape2 2 2 Examples.inputs /\
  exists y, SelfAttention_v1.forward GPTExamples.v1_ones Examples.inputs = Ok y /\
            has_shape2 2 (Z.to_nat 1) y.
Proof.
  split; [reflexivity|]. split; [exact inputs_shape|].
  apply (proj1 (self_attention_v1_shape (fun _ _ => 1) (fun _ _ => 1)
                  (fun _ _ => 1) 2 1 GPTExamples.v1_ones 2 2 Examples.inputs
                  eq_refl inputs_shape) eq_refl).
Defined.
